(** * NAMASTE / ICD-11 terminology microservice

    A shallow embedding of the mapping and search core of the service:
    - [app/services/namaste_loader.py]  (relevance scoring, local search,
                                         code system, concept lookup),
    - [app/services/mapping_service.py] (translate, add_mapping, listing,
                                         seeding, statistics),
    - [app/services/icd11_client.py]    (external provider boundary),
    - [app/routes/lookup.py]            (merged search, suggestions),
    - [app/routes/translate.py]         (translation route),
    - [app/routes/codesystem.py]        (code system routes),
    - [app/security/audit.py]           (audit sink),
    - [app/security/auth.py]            (tokens, roles and scopes),
    - [app/routes/bundle_upload.py]     (bundle annotation),
    - [cli/search_cli.py]               (the client's reading of translations),
    followed by the properties of the specification that these functions
    decide, and by further properties of the code.

    Conventions of the embedding.
    - Python exceptions are values of [exn]; a computation that may raise
      returns a [result], and code that talks to the database session runs in
      the state-and-exception monad [M].
    - Relevance scores are Python floats, that is binary64 numbers; they are
      the primitive [float] here, whose literals and sum round as Python's
      do.  Confidence values are rationals.
    - Text is ASCII text: [lower] is [str.lower] on it, and the properties
      whose content depends on lowercasing say so.
    - The store is the SQLite database of the default configuration
      ([app/config.py]): [LIKE] and a negative [LIMIT] behave as SQLite has
      them.
    - JSON documents (bundles, metadata, evidence) are values of [json];
      a Python [dict] is an insertion-ordered association list. *)

From Stdlib Require Import String Ascii List ZArith QArith Bool Arith Lia.
From Stdlib Require Import DecimalString Sorted Permutation.
From Stdlib Require Import Floats.
From Stdlib Require Uint63.
Import ListNotations.

Set Warnings "-inexact-float".

Open Scope string_scope.
Open Scope Z_scope.

(* ================================================================== *)
(** * Python values *)
(* ================================================================== *)

(** Exceptions.  [HTTPException] is told apart because the routes re-raise
    it; every other exception class is an [Exception] with the name of its
    class and its message ([str(e)]). *)
Inductive exn : Type :=
| HTTPException (status_code : Z) (detail : string)
| Exception (class msg : string).

Definition exn_str (e : exn) : string :=
  match e with
  | HTTPException _ d => d
  | Exception _ m => m
  end.

Inductive result (A : Type) : Type :=
| Ok (a : A)
| Raise (e : exn).
Arguments Ok {A} a.
Arguments Raise {A} e.

(** ** Strings: [str.lower], [str.startswith], [in] *)

(** [str.lower] on ASCII text (the codes and labels of the two
    terminologies); other bytes are kept, as SQLite's [lower()] keeps
    them. *)
Definition lower_ascii (c : ascii) : ascii :=
  let n := nat_of_ascii c in
  if (Nat.leb 65 n && Nat.leb n 90)%bool then ascii_of_nat (n + 32) else c.

Fixpoint lower (s : string) : string :=
  match s with
  | EmptyString => EmptyString
  | String c s' => String (lower_ascii c) (lower s')
  end.

(** [s.startswith(p)] *)
Definition startswith (s p : string) : bool := String.prefix p s.

(** [sub in s] *)
Fixpoint str_in (sub s : string) : bool :=
  String.prefix sub s ||
  match s with
  | EmptyString => false
  | String _ s' => str_in sub s'
  end.

(** Truth value of a string: the empty string is false. *)
Definition str_truthy (s : string) : bool :=
  match s with EmptyString => false | _ => true end.

(** ** Floating-point numbers *)

(** [min(a, b)]: [b] when it is smaller than [a], else [a]. *)
Definition py_min (a b : float) : float :=
  if PrimFloat.ltb b a then b else a.

(** ** JSON values *)

(** Numbers are the integers; JSON [null] is Python's [None]. *)
#[warnings="-register-all"]
Inductive json : Type :=
| JNull
| JBool (b : bool)
| JNum (n : Z)
| JStr (s : string)
| JArr (xs : list json)
| JObj (kvs : list (string * json)).

Definition dict : Type := list (string * json).

(** [repr] and [str] of a value.  Strings are quoted with single quotes in
    [repr]; the escapes of [repr] are not modelled. *)
Fixpoint py_repr (v : json) : string :=
  match v with
  | JNull => "None"
  | JBool true => "True"
  | JBool false => "False"
  | JNum n => NilZero.string_of_int (Z.to_int n)
  | JStr s => "'" ++ s ++ "'"
  | JArr xs =>
      "[" ++
      (fix items (l : list json) : string :=
         match l with
         | [] => ""
         | x :: l' =>
             match l' with
             | [] => py_repr x
             | _ :: _ => py_repr x ++ ", " ++ items l'
             end
         end) xs ++ "]"
  | JObj kvs =>
      "{" ++
      (fix items (l : list (string * json)) : string :=
         match l with
         | [] => ""
         | (k, x) :: l' =>
             match l' with
             | [] => "'" ++ k ++ "': " ++ py_repr x
             | _ :: _ => "'" ++ k ++ "': " ++ py_repr x ++ ", " ++ items l'
             end
         end) kvs ++ "}"
  end.

Definition py_str (v : json) : string :=
  match v with
  | JStr s => s
  | _ => py_repr v
  end.

(** Truth value: [None], [False], [0], [""], [[]] and [{}] are false. *)
Definition truthy (v : json) : bool :=
  match v with
  | JNull => false
  | JBool b => b
  | JNum n => negb (n =? 0)
  | JStr s => str_truthy s
  | JArr xs => match xs with [] => false | _ => true end
  | JObj kvs => match kvs with [] => false | _ => true end
  end.

(** [v == s] for a string literal [s]. *)
Definition is_str (v : json) (s : string) : bool :=
  match v with
  | JStr t => String.eqb t s
  | _ => false
  end.

(** ** Dictionaries *)

Fixpoint dict_get (d : dict) (k : string) : option json :=
  match d with
  | [] => None
  | (k', v) :: d' => if String.eqb k' k then Some v else dict_get d' k
  end.

(** [k in d] *)
Definition dict_has (d : dict) (k : string) : bool :=
  match dict_get d k with Some _ => true | None => false end.

(** [d[k] = v]: an existing key keeps its place, a new key goes last. *)
Fixpoint dict_set (d : dict) (k : string) (v : json) : dict :=
  match d with
  | [] => [(k, v)]
  | (k', v') :: d' =>
      if String.eqb k' k then (k', v) :: d' else (k', v') :: dict_set d' k v
  end.

(** [x.get(k, default)]: only a dict has [get]. *)
Definition py_get (x : json) (k : string) (default : json) : result json :=
  match x with
  | JObj d =>
      Ok (match dict_get d k with Some v => v | None => default end)
  | _ => Raise (Exception "AttributeError" "object has no attribute 'get'")
  end.

(** The single-character strings of a string: what iterating it yields. *)
Fixpoint chars (s : string) : list json :=
  match s with
  | EmptyString => []
  | String c s' => JStr (String c EmptyString) :: chars s'
  end.

(** [for x in v]: the elements of a list, the keys of a dict, the characters
    of a string; anything else is not iterable. *)
Definition py_iter (v : json) : result (list json) :=
  match v with
  | JArr xs => Ok xs
  | JObj kvs => Ok (map (fun kv => JStr (fst kv)) kvs)
  | JStr s => Ok (chars s)
  | _ => Raise (Exception "TypeError" "object is not iterable")
  end.

(* ================================================================== *)
(** * Data model ([app/db/models.py], [app/schema.py]) *)
(* ================================================================== *)

(** [Concept]; [ConceptResponse] has the same fields and is the same type. *)
Module Concept.
Record t : Type := make {
  system : string;
  code : string;
  display : string;
  definition : option string;
  language : string;
  source : option string;
  version : option string;
  metadata : option dict
}.
End Concept.

(** [Mapping]; [MappingResponse] has the same fields and is the same type. *)
Module Mapping.
Record t : Type := make {
  source_system : string;
  source_code : string;
  target_system : string;
  target_code : string;
  equivalence : string;
  confidence : Q;
  method : option string;
  evidence : option dict;
  curator : option string
}.
End Mapping.

Module TranslationCandidate.
Record t : Type := make {
  target_system : string;
  target_code : string;
  target_display : option string;
  equivalence : string;
  confidence : Q;
  method : option string;
  evidence : option dict
}.
End TranslationCandidate.

Module SearchResult.
Record t : Type := make {
  concept : Concept.t;
  mappings : list Mapping.t;
  relevance_score : option float
}.
End SearchResult.

Module AuditLog.
Record t : Type := make {
  actor : json;
  action : string;
  resource_type : json;
  resource_id : json;
  detail : dict
}.
End AuditLog.

(* ================================================================== *)
(** * Relevance scoring ([NamasteLoader._calculate_relevance_score]) *)
(* ================================================================== *)

Definition metadata_fields : list string :=
  ["sanskrit_name"; "english_name"; "category"; "subcategory"].

(** The body of the loop over the four metadata fields. *)
Definition score_field (query_lower : string) (metadata : dict)
    (score : float) (field : string) : float :=
  match dict_get metadata field with
  | Some v =>
      if str_in query_lower (lower (py_str v)) then (score + 0.2)%float
      else score
  | None => score
  end.

Definition _calculate_relevance_score (query : string) (concept : Concept.t)
  : float :=
  let query_lower := lower query in
  let score := 0.0%float in
  (* Exact code match gets highest score *)
  let score :=
    if String.eqb (lower (Concept.code concept)) query_lower
    then (score + 1.0)%float
    else if startswith (lower (Concept.code concept)) query_lower
    then (score + 0.9)%float
    else if str_in query_lower (lower (Concept.code concept))
    then (score + 0.7)%float
    else score in
  (* Display name matching *)
  let score :=
    if String.eqb (lower (Concept.display concept)) query_lower
    then (score + 0.8)%float
    else if startswith (lower (Concept.display concept)) query_lower
    then (score + 0.6)%float
    else if str_in query_lower (lower (Concept.display concept))
    then (score + 0.4)%float
    else score in
  (* Definition matching *)
  let score :=
    match Concept.definition concept with
    | Some d =>
        if (str_truthy d && str_in query_lower (lower d))%bool
        then (score + 0.3)%float else score
    | None => score
    end in
  (* Metadata matching for NAMASTE concepts *)
  let score :=
    if String.eqb (Concept.system concept) "namaste" then
      match Concept.metadata concept with
      | Some ((_ :: _) as metadata) =>
          fold_left (score_field query_lower metadata) metadata_fields score
      | _ => score
      end
    else score in
  py_min score 1.0.

(* ================================================================== *)
(** * Computations with state and exceptions *)
(* ================================================================== *)

(** A computation over a state [S]: it returns a value or raises, and
    leaves a state either way (what was written before a [raise] stays
    written). *)
Definition M (S A : Type) : Type := S -> result A * S.

Definition ret {S A : Type} (a : A) : M S A := fun s => (Ok a, s).

Definition bind {S A B : Type} (m : M S A) (k : A -> M S B) : M S B :=
  fun s =>
    match m s with
    | (Ok a, s') => k a s'
    | (Raise e, s') => (Raise e, s')
    end.

Definition raise {S A : Type} (e : exn) : M S A := fun s => (Raise e, s).

(** [try: body  except Exception as e: handler(e)] *)
Definition try_except {S A : Type} (body : M S A) (handler : exn -> M S A)
  : M S A :=
  fun s =>
    match body s with
    | (Ok a, s') => (Ok a, s')
    | (Raise e, s') => handler e s'
    end.

Definition get {S : Type} : M S S := fun s => (Ok s, s).
Definition modify {S : Type} (f : S -> S) : M S unit := fun s => (Ok tt, f s).

(** A pure step that may raise. *)
Definition lift {S A : Type} (r : result A) : M S A := fun s => (r, s).

Declare Scope monad_scope.
Delimit Scope monad_scope with monad.
Notation "x <- m ;; k" := (bind m (fun x => k))
  (at level 61, m at next level, right associativity) : monad_scope.
Notation "m ;;; k" := (bind m (fun _ => k))
  (at level 61, right associativity) : monad_scope.
Open Scope monad_scope.

(** [for x in xs: ys.append(f(x))] *)
Fixpoint for_each {S A B : Type} (f : A -> M S B) (xs : list A)
  : M S (list B) :=
  match xs with
  | [] => ret []
  | x :: xs' => y <- f x ;; ys <- for_each f xs' ;; ret (y :: ys)
  end.

(** [list.sort(key=..., reverse=True)].  Python's sort is stable, with
    [reverse=True] too: elements with equal keys keep their order.  [gt y x]
    says that the key of [y] is strictly greater than the key of [x]; an
    element is placed after the elements with a strictly greater key and
    before all others. *)
Fixpoint insert_desc {A : Type} (gt : A -> A -> bool) (x : A) (l : list A)
  : list A :=
  match l with
  | [] => [x]
  | y :: l' => if gt y x then y :: insert_desc gt x l' else x :: y :: l'
  end.

Definition sort_desc {A : Type} (gt : A -> A -> bool) (l : list A) : list A :=
  fold_right (insert_desc gt) [] l.

(* ================================================================== *)
(** * The database session and the environment of a request *)
(* ================================================================== *)

(** The three tables as committed, the objects added to the session and not
    yet committed, and the environment a request reads: the faults the
    store will raise (one flag for each statement executed or commit, [true]
    for a failure, none left for a store in good health), the identifiers
    [uuid4] has handed out and the clock. *)
Record World : Type := mkWorld {
  concepts : list Concept.t;
  mappings : list Mapping.t;
  audit_logs : list AuditLog.t;
  new_mappings : list Mapping.t;
  new_audits : list AuditLog.t;
  faults : list bool;
  uuids : nat;
  now : string;
  elapsed_ms : Z
}.

Definition with_faults (w : World) (fs : list bool) : World :=
  mkWorld (concepts w) (mappings w) (audit_logs w) (new_mappings w)
    (new_audits w) fs (uuids w) (now w) (elapsed_ms w).

Definition with_uuids (w : World) (n : nat) : World :=
  mkWorld (concepts w) (mappings w) (audit_logs w) (new_mappings w)
    (new_audits w) (faults w) n (now w) (elapsed_ms w).

Definition with_pending (w : World) (ms : list Mapping.t)
    (als : list AuditLog.t) : World :=
  mkWorld (concepts w) (mappings w) (audit_logs w) ms als (faults w)
    (uuids w) (now w) (elapsed_ms w).

Definition with_tables (w : World) (ms : list Mapping.t)
    (als : list AuditLog.t) : World :=
  mkWorld (concepts w) ms als (new_mappings w) (new_audits w) (faults w)
    (uuids w) (now w) (elapsed_ms w).

(** One round trip to the store: it fails when the next fault flag says so. *)
Definition db_op : M World unit :=
  fun w =>
    match faults w with
    | true :: fs =>
        (Raise (Exception "OperationalError" "database error"),
         with_faults w fs)
    | false :: fs => (Ok tt, with_faults w fs)
    | [] => (Ok tt, w)
    end.

(** [db.execute(select(Mapping).where(p))]: the session flushes what was
    added before it queries, so the rows added and not yet committed are
    seen as well. *)
Definition select_mappings (p : Mapping.t -> bool) : M World (list Mapping.t) :=
  db_op ;;;
  w <- get ;;
  ret (filter p (mappings w ++ new_mappings w)).

(** [db.execute(select(Concept).where(p).limit(n))]; rows come in table
    order. *)
Definition select_concepts (p : Concept.t -> bool) (limit : option nat)
  : M World (list Concept.t) :=
  db_op ;;;
  w <- get ;;
  ret (match limit with
       | Some n => firstn n (filter p (concepts w))
       | None => filter p (concepts w)
       end).

(** [result.scalar_one_or_none()] *)
Definition scalar_one_or_none {A : Type} (rows : list A) : result (option A) :=
  match rows with
  | [] => Ok None
  | [x] => Ok (Some x)
  | _ :: _ :: _ =>
      Raise (Exception "MultipleResultsFound"
               "Multiple rows were found when one or none was required")
  end.

(** [db.add(mapping)], [db.add(audit_entry)] *)
Definition db_add_mapping (m : Mapping.t) : M World unit :=
  modify (fun w => with_pending w (new_mappings w ++ [m]) (new_audits w)).

Definition db_add_audit (a : AuditLog.t) : M World unit :=
  modify (fun w => with_pending w (new_mappings w) (new_audits w ++ [a])).

(** [db.commit()]: on success the added rows are in the tables. *)
Definition commit : M World unit :=
  db_op ;;;
  modify (fun w =>
    with_pending
      (with_tables w (mappings w ++ new_mappings w)
                     (audit_logs w ++ new_audits w))
      [] []).

(** [db.rollback()]: what was added and not committed is dropped. *)
Definition rollback : M World unit :=
  modify (fun w => with_pending w [] []).

(** [str(uuid.uuid4())]: a fresh identifier. *)
Definition uuid_str (n : nat) : string :=
  "uuid-" ++ NilZero.string_of_uint (Nat.to_uint n).

Definition uuid4 : M World string :=
  fun w => (Ok (uuid_str (uuids w)), with_uuids w (S (uuids w))).

(* ================================================================== *)
(** * Mapping service ([app/services/mapping_service.py]) *)
(* ================================================================== *)

Definition _get_concept (system code : string) : M World (option Concept.t) :=
  rows <- select_concepts
            (fun c => String.eqb (Concept.system c) system &&
                      String.eqb (Concept.code c) code)%bool None ;;
  lift (scalar_one_or_none rows).

(** The body of the loop of [translate]. *)
Definition candidate_of (mapping : Mapping.t) : M World TranslationCandidate.t :=
  target_concept <- _get_concept (Mapping.target_system mapping)
                                 (Mapping.target_code mapping) ;;
  ret (TranslationCandidate.make
         (Mapping.target_system mapping)
         (Mapping.target_code mapping)
         (match target_concept with
          | Some c => Some (Concept.display c)
          | None => None
          end)
         (Mapping.equivalence mapping)
         (Mapping.confidence mapping)
         (Mapping.method mapping)
         (Mapping.evidence mapping)).

(** The key of [y] is strictly greater than the key of [x]. *)
Definition confidence_gt (y x : TranslationCandidate.t) : bool :=
  negb (Qle_bool (TranslationCandidate.confidence y)
                 (TranslationCandidate.confidence x)).

Definition translate (system code : string)
  : M World (list TranslationCandidate.t) :=
  (* Find all mappings for this concept *)
  mappings <- select_mappings
                (fun m => String.eqb (Mapping.source_system m) system &&
                          String.eqb (Mapping.source_code m) code)%bool ;;
  (* Convert to translation candidates *)
  candidates <- for_each candidate_of mappings ;;
  (* Sort by confidence (highest first) *)
  ret (sort_desc confidence_gt candidates).

Definition same_key (source_system source_code target_system target_code : string)
    (m : Mapping.t) : bool :=
  (String.eqb (Mapping.source_system m) source_system &&
   String.eqb (Mapping.source_code m) source_code &&
   String.eqb (Mapping.target_system m) target_system &&
   String.eqb (Mapping.target_code m) target_code)%bool.

Definition add_mapping (source_system source_code target_system target_code : string)
    (equivalence : string) (confidence : Q) (method : option string)
    (evidence : option dict) (curator : option string) : M World bool :=
  try_except
    ((* Check if mapping already exists *)
     rows <- select_mappings
               (same_key source_system source_code target_system target_code) ;;
     existing <- lift (scalar_one_or_none rows) ;;
     match existing with
     | Some _ => ret false (* Mapping already exists *)
     | None =>
         (* Create new mapping *)
         let mapping :=
           Mapping.make source_system source_code target_system target_code
             equivalence confidence method evidence curator in
         db_add_mapping mapping ;;;
         commit ;;;
         ret true
     end)
    (fun e =>
       rollback ;;;
       ret false).

(* ================================================================== *)
(** * Audit sink ([app/security/audit.py]) *)
(* ================================================================== *)

(** The identifier of the row just committed: the tables number their rows
    from 1. *)
Definition audit_entry_id (w : World) : string :=
  NilZero.string_of_uint (Nat.to_uint (length (audit_logs w))).

Definition record_audit (actor : json) (action : string)
    (resource_type resource_id : json) (detail : dict) : M World string :=
  try_except
    (let audit_entry :=
       AuditLog.make actor action resource_type resource_id detail in
     db_add_audit audit_entry ;;;
     commit ;;;
     w <- get ;;
     ret (audit_entry_id w))
    (fun e =>
       rollback ;;;
       raise e).

(** [create_audit_detail(error_message=..., **kwargs)].  The callers pass no
    other named argument: [request_id] to [response_time_ms] are [None].
    Keys whose value is [None] are removed. *)
Definition create_audit_detail (error_message : json) (kwargs : dict)
  : M World dict :=
  w <- get ;;
  let detail :=
    [("timestamp", JStr (now w)); ("request_id", JNull);
     ("user_agent", JNull); ("ip_address", JNull); ("endpoint", JNull);
     ("method", JNull); ("status_code", JNull); ("response_time_ms", JNull);
     ("error_message", error_message)] in
  (* Add any additional details *)
  let detail :=
    fold_left (fun d kv => dict_set d (fst kv) (snd kv)) kwargs detail in
  (* Remove None values *)
  ret (filter (fun kv => match snd kv with JNull => false | _ => true end)
         detail).

(* ================================================================== *)
(** * Local search ([NamasteLoader.search]) *)
(* ================================================================== *)

(** The bytes that continue a character of UTF-8 text, and the text after
    its first character. *)
Definition continuation (c : ascii) : bool :=
  let n := nat_of_ascii c in (Nat.leb 128 n && Nat.ltb n 192)%bool.

Fixpoint skip_continuation (text : string) : string :=
  match text with
  | String c text' => if continuation c then skip_continuation text' else text
  | EmptyString => EmptyString
  end.

Definition after_char (text : string) : string :=
  match text with
  | String c text' =>
      if Nat.leb 192 (nat_of_ascii c) then skip_continuation text' else text'
  | EmptyString => EmptyString
  end.

(** The run of a [%]: the rest of the pattern is tried at every character of
    the text and at its end.  [inside] says that a character of several bytes
    is still running, so that the text is not cut in the middle of it. *)
Fixpoint like_run (rest : string -> bool) (inside : bool) (text : string)
  : bool :=
  let boundary :=
    negb (inside &&
          match text with
          | String c _ => continuation c
          | EmptyString => false
          end) in
  (boundary && rest text) ||
  match text with
  | String c text' =>
      like_run rest (if boundary then Nat.leb 192 (nat_of_ascii c) else true)
        text'
  | EmptyString => false
  end.

(** [text LIKE pattern] on texts already in lower case: [%] stands for any
    run of characters, [_] for one character, every other byte for itself;
    no escape character is declared. *)
Fixpoint like (pattern : string) : string -> bool :=
  match pattern with
  | EmptyString =>
      fun text => match text with EmptyString => true | String _ _ => false end
  | String p pattern' =>
      if Ascii.eqb p "%" then like_run (like pattern') false
      else if Ascii.eqb p "_" then
        fun text =>
          match text with
          | String _ _ => like pattern' (after_char text)
          | EmptyString => false
          end
      else
        fun text =>
          match text with
          | String c text' => Ascii.eqb p c && like pattern' text'
          | EmptyString => false
          end
  end.

(** [column.ilike(f"%{query}%")], which the SQLite dialect renders as
    [lower(column) LIKE lower(pattern)].  The query goes into the pattern as
    it is, so a [%] or a [_] in it is a wildcard.  A NULL column matches
    nothing. *)
Definition ilike (query : string) (column : option string) : bool :=
  match column with
  | Some s => like (lower ("%" ++ query ++ "%")) (lower s)
  | None => false
  end.

(** [Concept.metadata['sanskrit_name'].astext]: the column is declared with
    the generic [sqlalchemy.JSON] type ([app/db/models.py]), whose elements
    have no attribute [astext] (it belongs to the PostgreSQL type); the
    expression raises while the query is built. *)
Definition astext_message : string :=
  "Neither 'BinaryExpression' object nor 'Comparator' object has an attribute 'astext'".

Definition astext {A : Type} : M World A :=
  raise (Exception "AttributeError" astext_message).

(** [if system:] — [None] and the empty string select every system. *)
Definition system_given (system : option string) : bool :=
  match system with
  | Some s => str_truthy s
  | None => false
  end.

Definition is_system (system : option string) (name : string) : bool :=
  match system with
  | Some s => String.eqb s name
  | None => false
  end.

(** The WHERE clause of the query that [search] executes: the system filter
    and the three text conditions. *)
Definition search_conditions (query : string) (system : option string)
    (c : Concept.t) : bool :=
  ((* Add system filter if specified *)
   (if system_given system then is_system system (Concept.system c) else true)
   &&
   (* Add text search conditions *)
   (ilike query (Some (Concept.display c)) ||
    ilike query (Concept.definition c) ||
    ilike query (Some (Concept.code c))))%bool.

(** Mappings of a concept, as source or as target. *)
Definition mentions (c : Concept.t) (m : Mapping.t) : bool :=
  ((String.eqb (Mapping.source_system m) (Concept.system c) &&
    String.eqb (Mapping.source_code m) (Concept.code c)) ||
   (String.eqb (Mapping.target_system m) (Concept.system c) &&
    String.eqb (Mapping.target_code m) (Concept.code c)))%bool.

(** The body of the loop of [search]. *)
Definition search_result_of (query : string) (concept : Concept.t)
  : M World SearchResult.t :=
  (* Get mappings for this concept *)
  mappings <- select_mappings (mentions concept) ;;
  (* Calculate simple relevance score based on match position *)
  let relevance_score := _calculate_relevance_score query concept in
  ret (SearchResult.make concept mappings (Some relevance_score)).

(** [x.relevance_score or 0]: [None] and a score equal to zero give [0]. *)
Definition relevance_key (x : SearchResult.t) : float :=
  match SearchResult.relevance_score x with
  | Some s => if PrimFloat.eqb s 0 then 0%float else s
  | None => 0%float
  end.

Definition relevance_gt (y x : SearchResult.t) : bool :=
  PrimFloat.ltb (relevance_key x) (relevance_key y).

Definition search (query : string) (system : option string) (limit : nat)
  : M World (list SearchResult.t) :=
  (* Add metadata search for NAMASTE concepts *)
  (if (negb (system_given system) || is_system system "namaste")%bool
   then astext else ret tt) ;;;
  (* Execute query *)
  concepts <- select_concepts (search_conditions query system) (Some limit) ;;
  (* Convert to search results with mappings *)
  search_results <- for_each (search_result_of query) concepts ;;
  (* Sort by relevance score (highest first) *)
  ret (sort_desc relevance_gt search_results).

(* ================================================================== *)
(** * External provider ([app/services/icd11_client.py]) *)
(* ================================================================== *)

(** Steps that may raise, outside the session. *)
Definition and_then {A B : Type} (r : result A) (k : A -> result B) : result B :=
  match r with
  | Ok a => k a
  | Raise e => Raise e
  end.

Notation "x <~ r ;; k" := (and_then r (fun x => k))
  (at level 61, r at next level, right associativity) : monad_scope.

(** [k in data] *)
Definition py_contains (data : json) (k : string) : result bool :=
  match data with
  | JObj d => Ok (dict_has d k)
  | JArr xs => Ok (existsb (fun x => is_str x k) xs)
  | JStr s => Ok (str_in k s)
  | _ => Raise (Exception "TypeError" "argument is not iterable")
  end.

(** [data[k]] for a string [k] *)
Definition py_index (data : json) (k : string) : result json :=
  match data with
  | JObj d =>
      match dict_get d k with
      | Some v => Ok v
      | None => Raise (Exception "KeyError" k)
      end
  | _ => Raise (Exception "TypeError" "indices must be integers")
  end.

(** [for x in v[:n]] *)
Definition py_slice (v : json) (n : nat) : result (list json) :=
  match v with
  | JArr xs => Ok (firstn n xs)
  | JStr s => Ok (firstn n (chars s))
  | _ => Raise (Exception "TypeError" "object is not subscriptable")
  end.

Definition _parse_icd11_entity (entity : json) : option json :=
  match
    ((* Extract basic information *)
     code <~ py_get entity "theCode" (JStr "") ;;
     title <~ py_get entity "title" (JStr "") ;;
     definition <~ py_get entity "definition" (JStr "") ;;
     if (negb (truthy code) || negb (truthy title))%bool then Ok None
     else
       (* Extract additional metadata *)
       icd11_id <~ py_get entity "id" (JStr "") ;;
       isLeaf <~ py_get entity "isLeaf" (JBool false) ;;
       parent <~ py_get entity "parent" (JStr "") ;;
       children <~ py_get entity "children" (JArr []) ;;
       inclusion <~ py_get entity "inclusion" (JStr "") ;;
       exclusion <~ py_get entity "exclusion" (JStr "") ;;
       codingNote <~ py_get entity "codingNote" (JStr "") ;;
       browserUrl <~ py_get entity "browserUrl" (JStr "") ;;
       foundation_uri <~ py_get entity "foundation_uri" (JStr "") ;;
       linearization_uri <~ py_get entity "linearization_uri" (JStr "") ;;
       let metadata :=
         [("icd11_id", icd11_id); ("isLeaf", isLeaf); ("parent", parent);
          ("children", children); ("inclusion", inclusion);
          ("exclusion", exclusion); ("codingNote", codingNote);
          ("browserUrl", browserUrl); ("foundation_uri", foundation_uri);
          ("linearization_uri", linearization_uri)] in
       (* Clean up empty values *)
       let metadata := filter (fun kv => truthy (snd kv)) metadata in
       Ok (Some (JObj [("system", JStr "icd11"); ("code", code);
                       ("display", title); ("definition", definition);
                       ("language", JStr "en"); ("source", JStr "WHO ICD-11");
                       ("version", JStr "2025-01");
                       ("metadata", JObj metadata)])))
  with
  | Ok r => r
  | Raise _ => None
  end.

(** [ICD11Client.search].  [http_get query limit] is the outcome of the HTTP
    exchange with the WHO service: the decoded body of a 2xx answer, or the
    exception raised by the request, by [raise_for_status] or by
    [response.json()] (a timeout is one of them). *)
Definition icd11_search (http_get : string -> nat -> result json)
    (query : string) (limit : nat) : list json :=
  match
    (data <~ http_get query limit ;;
     (* Parse response and extract concepts *)
     present <~ py_contains data "destinationEntities" ;;
     if present then
       entities <~ py_index data "destinationEntities" ;;
       entities <~ py_slice entities limit ;;
       Ok (flat_map (fun entity =>
                       match _parse_icd11_entity entity with
                       | Some concept => [concept]
                       | None => []
                       end) entities)
     else Ok [])
  with
  | Ok concepts => concepts
  | Raise _ => []
  end.

(* ================================================================== *)
(** * Merged search ([app/routes/lookup.py]) *)
(* ================================================================== *)

Module SearchResponse.
Record t : Type := make {
  query : string;
  system : option string;
  total_results : nat;
  results : list SearchResult.t;
  execution_time_ms : Z
}.
End SearchResponse.

(** Validation of a field by the response models: a string, or a number
    turned into one.  The text of the error stands for the report of the
    library, which names the model and the field. *)
Definition validate_str (v : json) : result string :=
  match v with
  | JStr s => Ok s
  | JNum _ | JBool _ => Ok (py_str v)
  | _ => Raise (Exception "ValidationError" "str type expected")
  end.

Definition validate_opt_str (v : json) : result (option string) :=
  match v with
  | JNull => Ok None
  | _ => s <~ validate_str v ;; Ok (Some s)
  end.

Definition validate_opt_dict (v : json) : result (option dict) :=
  match v with
  | JNull => Ok None
  | JObj d => Ok (Some d)
  | _ => Raise (Exception "ValidationError" "value is not a valid dict")
  end.

Definition field (d : json) (k : string) : json :=
  match d with
  | JObj kvs => match dict_get kvs k with Some v => v | None => JNull end
  | _ => JNull
  end.

(** [SearchResult(concept=concept_data, mappings=[], relevance_score=0.5)] *)
Definition external_result (concept_data : json) : result SearchResult.t :=
  system <~ validate_str (field concept_data "system") ;;
  code <~ validate_str (field concept_data "code") ;;
  display <~ validate_str (field concept_data "display") ;;
  definition <~ validate_opt_str (field concept_data "definition") ;;
  language <~ validate_str (field concept_data "language") ;;
  source <~ validate_opt_str (field concept_data "source") ;;
  version <~ validate_opt_str (field concept_data "version") ;;
  metadata <~ validate_opt_dict (field concept_data "metadata") ;;
  Ok (SearchResult.make
        (Concept.make system code display definition language source version
           metadata)
        [] (* ICD-11 results don't include mappings *)
        (Some 0.5%float) (* Default relevance for ICD-11 *)).

Fixpoint external_results (concepts : list json) : result (list SearchResult.t) :=
  match concepts with
  | [] => Ok []
  | concept_data :: rest =>
      search_result <~ external_result concept_data ;;
      results <~ external_results rest ;;
      Ok (search_result :: results)
  end.

(** [system in ["namaste", "all"]] and the like; [not system] holds for
    [None] and for the empty string. *)
Definition searches (system : option string) (name : string) : bool :=
  (negb (system_given system) || is_system system name
   || is_system system "all")%bool.

(** The locally-sourced results of a merged search. *)
Definition local_results (q : string) (system : option string) (limit : nat)
  : M World (list SearchResult.t) :=
  (* Search NAMASTE concepts *)
  if searches system "namaste" then search q (Some "namaste") limit
  else ret [].

Definition search_terms (http_get : string -> nat -> result json)
    (q : string) (system : option string) (limit : nat)
  : M World SearchResponse.t :=
  try_except
    (namaste_results <- local_results q system limit ;;
     let all_results := namaste_results in
     (* Search ICD-11 concepts *)
     icd11_results <-
       (if searches system "icd11" then
          (* Convert ICD-11 results to SearchResult format *)
          lift (external_results (icd11_search http_get q limit))
        else ret []) ;;
     let all_results := (all_results ++ icd11_results)%list in
     (* Sort all results by relevance score *)
     let all_results := sort_desc relevance_gt all_results in
     (* Limit results *)
     let all_results := firstn limit all_results in
     w <- get ;;
     ret (SearchResponse.make q system (length all_results) all_results
            (elapsed_ms w)))
    (fun e =>
       raise (HTTPException 500
                ("Error searching terminology: " ++ exn_str e))).

(* ================================================================== *)
(** * Authentication ([app/security/auth.py]) *)
(* ================================================================== *)

(** [s[7:]] *)
Definition drop7 (s : string) : string :=
  String.substring 7 (String.length s - 7) s.

Definition extract_token_from_header (authorization : option string)
  : option string :=
  match authorization with
  | Some a =>
      if negb (str_truthy a) then None
      else if startswith a "Bearer " then Some (drop7 a)
      else None
  | None => None
  end.

(** [verify_abha_token], reduced to the actor of the user information it
    returns.  [introspect] is the introspection endpoint when one is
    configured: for a token, the actor it reports or the [ValueError] of a
    refusal. *)
Definition verify_abha_token (introspect : option (string -> result json))
    (token : option string) : result json :=
  match token with
  | None => Raise (Exception "ValueError" "No token provided")
  | Some token =>
      if negb (str_truthy token)
      then Raise (Exception "ValueError" "No token provided")
      else
        (* Remove "Bearer " prefix if present *)
        let token :=
          if startswith token "Bearer " then drop7 token else token in
        (* Development mode: accept "test" token *)
        if String.eqb token "test" then Ok (JStr "Dr. Demo")
        else
          match introspect with
          | Some endpoint => endpoint token
          | None =>
              Raise (Exception "ValueError"
                       "Token verification not configured")
          end
  end.

(* ================================================================== *)
(** * Bundle annotation ([app/routes/bundle_upload.py]) *)
(* ================================================================== *)

Module BundleUploadResponse.
Record t : Type := make {
  success : bool;
  message : string;
  created_resources : list string;
  provenance_id : option string;
  audit_id : option string;
  mappings_added : Z;
  errors : list string
}.
End BundleUploadResponse.

(** The state of one call of [upload_bundle]: the session, the lists and the
    counter the function accumulates, and [resource], the resource of the
    entry at hand with the changes made to it. *)
Record Upload : Type := mkUpload {
  db : World;
  created_resources : list string;
  errors : list string;
  mappings_added : Z;
  resource : json
}.

(** Run a step of the session inside a call. *)
Definition on_db {A : Type} (m : M World A) : M Upload A :=
  fun st =>
    match m (db st) with
    | (r, w') =>
        (r, mkUpload w' (created_resources st) (errors st)
              (mappings_added st) (resource st))
    end.

Definition created_append (ref : string) : M Upload unit :=
  modify (fun st => mkUpload (db st) (created_resources st ++ [ref])
                      (errors st) (mappings_added st) (resource st)).

Definition errors_append (msg : string) : M Upload unit :=
  modify (fun st => mkUpload (db st) (created_resources st)
                      (errors st ++ [msg]) (mappings_added st) (resource st)).

Definition mappings_added_incr : M Upload unit :=
  modify (fun st => mkUpload (db st) (created_resources st) (errors st)
                      (mappings_added st + 1) (resource st)).

Definition set_resource (r : json) : M Upload unit :=
  modify (fun st => mkUpload (db st) (created_resources st) (errors st)
                      (mappings_added st) r).

Definition namaste_uri : string :=
  "http://namaste.example.com/fhir/CodeSystem/namaste".

(** [x[k] = v] *)
Definition py_setitem (x : json) (k : string) (v : json) : result json :=
  match x with
  | JObj d => Ok (JObj (dict_set d k v))
  | _ => Raise (Exception "TypeError"
                  "object does not support item assignment")
  end.

(** [x.append(v)] *)
Definition py_append (x : json) (v : json) : result json :=
  match x with
  | JArr xs => Ok (JArr (xs ++ [v]))
  | _ => Raise (Exception "AttributeError"
                  "object has no attribute 'append'")
  end.

(** The scan for a consent resource: the [id] of the first one, [None]
    without one. *)
Fixpoint find_consent (entries : list json) : result json :=
  match entries with
  | [] => Ok JNull
  | entry :: rest =>
      resource <~ py_get entry "resource" (JObj []) ;;
      resource_type <~ py_get resource "resourceType" JNull ;;
      if is_str resource_type "Consent" then
        resource <~ py_get entry "resource" (JObj []) ;;
        py_get resource "id" JNull
      else find_consent rest
  end.

(** The scan for the NAMASTE coding of a Condition: the first coding of the
    local system, [None] without one. *)
Fixpoint find_namaste_coding (codings : list json) : result json :=
  match codings with
  | [] => Ok JNull
  | coding :: rest =>
      system <~ py_get coding "system" JNull ;;
      if is_str system namaste_uri then Ok coding
      else find_namaste_coding rest
  end.

(** [mapping_service.translate(system="namaste", code=c)] for the value [c]
    found in the bundle: a string is looked up; [None] compares with no
    row; any other value is refused when it is bound to the statement. *)
Definition translate_value (system : string) (code : json)
  : M World (list TranslationCandidate.t) :=
  match code with
  | JStr s => translate system s
  | JNull => select_mappings (fun _ => false) ;;; ret []
  | _ => raise (Exception "ProgrammingError" "unsupported parameter type")
  end.

(** The coding added for a translation. *)
Definition icd11_coding_of (t : TranslationCandidate.t) : json :=
  JObj [("system", JStr "http://terminology.hl7.org/CodeSystem/icd11");
        ("code", JStr (TranslationCandidate.target_code t));
        ("display",
         JStr (match TranslationCandidate.target_display t with
               | Some s => s
               | None => ""
               end));
        ("userSelected", JBool false)].

(** [resource["code"]["coding"].append(icd11_coding)], after the two
    guards that create the containers when they are missing. *)
Definition append_coding (resource : json) (icd11_coding : json) : result json :=
  has_code <~ py_contains resource "code" ;;
  resource <~ (if has_code then Ok resource
               else py_setitem resource "code" (JObj [("coding", JArr [])])) ;;
  code <~ py_index resource "code" ;;
  has_coding <~ py_contains code "coding" ;;
  code <~ (if has_coding then Ok code
           else py_setitem code "coding" (JArr [])) ;;
  coding <~ py_index code "coding" ;;
  coding <~ py_append coding icd11_coding ;;
  code <~ py_setitem code "coding" coding ;;
  py_setitem resource "code" code.

(** The provenance stamp put on a Condition. *)
Definition stamp (resource : json) (now : string) : result json :=
  meta <~ py_get resource "meta" (JObj []) ;;
  resource <~ py_setitem resource "meta" meta ;;
  extension <~ py_get meta "extension" (JArr []) ;;
  meta <~ py_setitem meta "extension" extension ;;
  extension <~
    py_append extension
      (JObj [("url",
              JStr "http://namaste.example.com/fhir/StructureDefinition/bundle-processing");
             ("valueString",
              JStr ("Processed by NAMASTE ICD Service at " ++ now))]) ;;
  meta <~ py_setitem meta "extension" extension ;;
  py_setitem resource "meta" meta.

(** The [try] block of a Condition entry. *)
Definition annotate_condition (resource_id : json) : M Upload unit :=
  (* Extract NAMASTE coding from Condition *)
  st <- get ;;
  code <- lift (py_get (resource st) "code" (JObj [])) ;;
  codings <- lift (py_get code "coding" (JArr [])) ;;
  codings <- lift (py_iter codings) ;;
  namaste_coding <- lift (find_namaste_coding codings) ;;
  (if truthy namaste_coding then
     (* Get translation to ICD-11 *)
     code <- lift (py_get namaste_coding "code" JNull) ;;
     translations <- on_db (translate_value "namaste" code) ;;
     match translations with
     | first :: _ =>
         (* Add ICD-11 coding to Condition *)
         let icd11_coding := icd11_coding_of first in
         (* Add to existing coding array *)
         resource <- lift (append_coding (resource st) icd11_coding) ;;
         set_resource resource ;;;
         mappings_added_incr
     | [] => ret tt
     end
   else ret tt) ;;;
  (* Add provenance information *)
  st <- get ;;
  resource <- lift (stamp (resource st) (now (db st))) ;;
  set_resource resource ;;;
  created_append ("Condition/" ++ py_str resource_id).

(** The branch on the kind of the resource.  The answer says whether the
    body of the loop goes on to the audit: the handler of a failed Condition
    ends with [continue]. *)
Definition handle_resource (resource_type resource_id : json) : M Upload bool :=
  (* Process Condition resources *)
  if is_str resource_type "Condition" then
    try_except
      (annotate_condition resource_id ;;; ret true)
      (fun e =>
         errors_append ("Error processing Condition " ++ py_str resource_id
                        ++ ": " ++ exn_str e) ;;;
         ret false)
  (* Process other resource types *)
  else if (is_str resource_type "Observation"
           || is_str resource_type "DiagnosticReport"
           || is_str resource_type "Procedure")%bool then
    created_append (py_str resource_type ++ "/" ++ py_str resource_id) ;;;
    ret true
  else ret true.

(** Record audit for each resource. *)
Definition audit_resource (actor : json) (bundle_id : string)
    (consent_ref resource_type resource_id : json) : M Upload unit :=
  try_except
    (st <- get ;;
     detail <- on_db (create_audit_detail JNull
                        [("bundle_id", JStr bundle_id);
                         ("consent_ref", consent_ref);
                         ("resource_type", resource_type);
                         ("mappings_added", JNum (mappings_added st))]) ;;
     on_db (record_audit actor "create" resource_type resource_id detail) ;;;
     ret tt)
    (fun e =>
       errors_append ("Error recording audit for " ++ py_str resource_type
                      ++ "/" ++ py_str resource_id ++ ": " ++ exn_str e)).

(** The body of the loop over the entries. *)
Definition process_entry (actor : json) (bundle_id : string)
    (consent_ref : json) (entry : json) : M Upload unit :=
  resource <- lift (py_get entry "resource" (JObj [])) ;;
  set_resource resource ;;;
  resource_type <- lift (py_get resource "resourceType" JNull) ;;
  fresh <- on_db uuid4 ;;
  resource_id <- lift (py_get resource "id" (JStr fresh)) ;;
  proceed <- handle_resource resource_type resource_id ;;
  if proceed
  then audit_resource actor bundle_id consent_ref resource_type resource_id
  else ret tt.

Fixpoint process_entries (actor : json) (bundle_id : string)
    (consent_ref : json) (entries : list json) : M Upload unit :=
  match entries with
  | [] => ret tt
  | entry :: rest =>
      process_entry actor bundle_id consent_ref entry ;;;
      process_entries actor bundle_id consent_ref rest
  end.

(** [bundle.get(k, default)] on the dict of the request. *)
Definition bundle_get (bundle : dict) (k : string) (default : json) : json :=
  match dict_get bundle k with
  | Some v => v
  | None => default
  end.

(** The part of [upload_bundle] that runs once the actor is known. *)
Definition process_bundle (actor : json) (bundle_id : string) (bundle : dict)
  : M Upload BundleUploadResponse.t :=
  (* Validate bundle structure *)
  if negb (is_str (bundle_get bundle "resourceType" JNull) "Bundle") then
    raise (HTTPException 400 "Invalid bundle: resourceType must be 'Bundle'")
  else
    (* Check for consent reference in bundle entries *)
    entries <- lift (py_iter (bundle_get bundle "entry" (JArr []))) ;;
    consent_ref <- lift (find_consent entries) ;;
    (* Process bundle entries *)
    process_entries actor bundle_id consent_ref entries ;;;
    (* Create provenance resource *)
    provenance_id <- on_db uuid4 ;;
    created_append ("Provenance/" ++ provenance_id) ;;;
    (* Record bundle processing audit *)
    st <- get ;;
    detail <- on_db (create_audit_detail JNull
                       [("bundle_id", JStr bundle_id);
                        ("consent_ref", consent_ref);
                        ("resources_processed",
                         JNum (Z.of_nat (length (created_resources st))));
                        ("mappings_added", JNum (mappings_added st));
                        ("processing_time_ms", JNum (elapsed_ms (db st)))]) ;;
    audit_id <- on_db (record_audit actor "upload" (JStr "Bundle")
                         (JStr bundle_id) detail) ;;
    st <- get ;;
    ret (BundleUploadResponse.make true "Bundle processed successfully"
           (created_resources st) (Some provenance_id) (Some audit_id)
           (mappings_added st) (errors st)).

(** The handler of the outer [try]: an [HTTPException] goes through; any
    other exception is audited, best effort, and becomes a 500. *)
Definition on_failure (actor : option json) (bundle_id : string) (e : exn)
  : M Upload BundleUploadResponse.t :=
  match e with
  | HTTPException _ _ => raise e
  | Exception _ _ =>
      (* Record error audit *)
      try_except
        (st <- get ;;
         detail <- on_db (create_audit_detail (JStr (exn_str e))
                            [("bundle_id", JStr bundle_id);
                             ("processing_time_ms",
                              JNum (elapsed_ms (db st)))]) ;;
         on_db (record_audit
                  (match actor with Some a => a | None => JStr "unknown" end)
                  "upload" (JStr "Bundle") (JStr bundle_id) detail) ;;;
         ret tt)
        (fun _ => ret tt (* Don't fail on audit error *)) ;;;
      raise (HTTPException 500 ("Error processing bundle: " ++ exn_str e))
  end.

Definition upload_bundle_call (introspect : option (string -> result json))
    (bundle : dict) (authorization : option string)
  : M Upload BundleUploadResponse.t :=
  bundle_id <- on_db uuid4 ;;
  (* Verify ABHA token *)
  let token := extract_token_from_header authorization in
  match verify_abha_token introspect token with
  | Raise e => on_failure None bundle_id e
  | Ok actor =>
      try_except (process_bundle actor bundle_id bundle)
                 (on_failure (Some actor) bundle_id)
  end.

(** [upload_bundle]: the answer (or the exception that reaches the
    framework) and the session afterwards. *)
Definition upload_bundle (introspect : option (string -> result json))
    (bundle : dict) (authorization : option string)
  : M World BundleUploadResponse.t :=
  fun w =>
    match upload_bundle_call introspect bundle authorization
            (mkUpload w [] [] 0 JNull) with
    | (r, st) => (r, db st)
    end.

(* ================================================================== *)
(** * The other operations of the mapping service
      ([app/services/mapping_service.py]) *)
(* ================================================================== *)

(** The filters of [get_mappings]: [if source_system:] and
    [if target_system:] let [None] and the empty string through. *)
Definition mapping_filters (source_system target_system : option string)
    (m : Mapping.t) : bool :=
  ((if system_given source_system
    then is_system source_system (Mapping.source_system m) else true) &&
   (if system_given target_system
    then is_system target_system (Mapping.target_system m) else true))%bool.

(** [query.limit(limit)] on the rows of a query: SQLite takes a negative
    [LIMIT] as no limit at all. *)
Definition sql_limit {A : Type} (limit : Z) (rows : list A) : list A :=
  if limit <? 0 then rows else firstn (Z.to_nat limit) rows.

(** [get_mappings]; the rows come in table order.  [limit] is any integer:
    [GET /mappings] passes on the one it is given. *)
Definition get_mappings (source_system target_system : option string)
    (limit : Z) : M World (list Mapping.t) :=
  mappings <- select_mappings (mapping_filters source_system target_system) ;;
  ret (sql_limit limit mappings).

(** The rows of [seed_default_mappings]; each dictionary of the source holds
    the arguments of [add_mapping] and is written as the row they make. *)
Definition default_evidence (notes : string) : option dict :=
  Some [("reviewer", JStr "Dr. Ayurveda Expert");
        ("review_date", JStr "2024-01-15");
        ("notes", JStr notes)].

Definition default_mappings : list Mapping.t :=
  [Mapping.make "namaste" "NAM-AY-0001" "icd11" "AB11" "relatedto" (8 # 10)
     (Some "expert_review")
     (default_evidence
        "Traditional fever concept maps to general fever category")
     (Some "NAMASTE Team");
   Mapping.make "namaste" "NAM-AY-0002" "icd11" "AB12" "relatedto" (7 # 10)
     (Some "expert_review")
     (default_evidence "Digestive disorder maps to digestive system category")
     (Some "NAMASTE Team");
   Mapping.make "namaste" "NAM-AY-0003" "icd11" "AB13" "relatedto" (9 # 10)
     (Some "expert_review")
     (default_evidence "High confidence mapping for respiratory condition")
     (Some "NAMASTE Team");
   Mapping.make "namaste" "NAM-AY-0004" "icd11" "AB14" "relatedto" (6 # 10)
     (Some "expert_review")
     (default_evidence "Skin condition with moderate confidence")
     (Some "NAMASTE Team");
   Mapping.make "namaste" "NAM-AY-0005" "icd11" "AB15" "relatedto" (8 # 10)
     (Some "expert_review")
     (default_evidence "Mental health condition mapping")
     (Some "NAMASTE Team")].

(** [self.add_mapping( **mapping_data )] *)
Definition add_mapping_data (mapping_data : Mapping.t) : M World bool :=
  add_mapping (Mapping.source_system mapping_data)
    (Mapping.source_code mapping_data) (Mapping.target_system mapping_data)
    (Mapping.target_code mapping_data) (Mapping.equivalence mapping_data)
    (Mapping.confidence mapping_data) (Mapping.method mapping_data)
    (Mapping.evidence mapping_data) (Mapping.curator mapping_data).

(** The loop of [seed_default_mappings], with its two counters. *)
Fixpoint seed_loop (data : list Mapping.t) (added_count skipped_count : Z)
  : M World (Z * Z) :=
  match data with
  | [] => ret (added_count, skipped_count)
  | mapping_data :: rest =>
      success <- add_mapping_data mapping_data ;;
      if success then seed_loop rest (added_count + 1) skipped_count
      else seed_loop rest added_count (skipped_count + 1)
  end.

Definition seed_mappings (data : list Mapping.t) : M World dict :=
  counts <- seed_loop data 0 0 ;;
  ret [("added", JNum (fst counts)); ("skipped", JNum (snd counts));
       ("total", JNum (Z.of_nat (length data)))].

Definition seed_default_mappings : M World dict :=
  seed_mappings default_mappings.

(** [stats[k] = stats.get(k, 0) + 1] on a dictionary of counters. *)
Fixpoint count_incr (stats : list (string * Z)) (k : string)
  : list (string * Z) :=
  match stats with
  | [] => [(k, 0 + 1)]
  | (k', n) :: rest =>
      if String.eqb k' k then (k', n + 1) :: rest
      else (k', n) :: count_incr rest k
  end.

Definition counters (stats : list (string * Z)) : json :=
  JObj (map (fun kv => (fst kv, JNum (snd kv))) stats).

(** [get_mapping_statistics]: four statements; the average is the constant
    [0.0] of the source. *)
Definition get_mapping_statistics : M World dict :=
  (* Count total mappings *)
  total_result <- select_mappings (fun _ => true) ;;
  let total_mappings := length total_result in
  (* Count by source system *)
  namaste_mappings_result <-
    select_mappings
      (fun m => String.eqb (Mapping.source_system m) "namaste") ;;
  let namaste_mappings := length namaste_mappings_result in
  (* Count by target system *)
  icd11_mappings_result <-
    select_mappings (fun m => String.eqb (Mapping.target_system m) "icd11") ;;
  let icd11_mappings := length icd11_mappings_result in
  (* Count by equivalence type *)
  equivalence_result <- select_mappings (fun _ => true) ;;
  let equivalence_stats :=
    fold_left count_incr (map Mapping.equivalence equivalence_result) [] in
  ret [("total_mappings", JNum (Z.of_nat total_mappings));
       ("namaste_source_mappings", JNum (Z.of_nat namaste_mappings));
       ("icd11_target_mappings", JNum (Z.of_nat icd11_mappings));
       ("equivalence_distribution", counters equivalence_stats);
       ("average_confidence", JNum 0)].

(* ================================================================== *)
(** * The code system of the local terminology
      ([NamasteLoader.get_codesystem], [NamasteLoader.get_concept_by_code],
      [app/routes/codesystem.py]) *)
(* ================================================================== *)

(** [db.execute(select(Concept).where(p).offset(offset).limit(limit))] *)
Definition select_concepts_page (p : Concept.t -> bool) (offset limit : nat)
  : M World (list Concept.t) :=
  db_op ;;;
  w <- get ;;
  ret (firstn limit (skipn offset (filter p (concepts w)))).

Definition is_namaste (c : Concept.t) : bool :=
  String.eqb (Concept.system c) "namaste".

(** [concept.metadata.get(field)] when it is true, as a designation. *)
Definition designation_of (metadata : dict) (field language : string)
  : list json :=
  match dict_get metadata field with
  | Some v =>
      if truthy v then [JObj [("language", JStr language); ("value", v)]]
      else []
  | None => []
  end.

(** The body of the loop of [get_codesystem]. *)
Definition fhir_concept_of (concept : Concept.t) : json :=
  let fhir_concept :=
    [("code", JStr (Concept.code concept));
     ("display", JStr (Concept.display concept));
     ("definition",
      JStr (match Concept.definition concept with
            | Some d => if str_truthy d then d else ""
            | None => ""
            end))] in
  (* Add designations for NAMASTE-specific fields *)
  let designations :=
    match Concept.metadata concept with
    | Some ((_ :: _) as metadata) =>
        (designation_of metadata "sanskrit_name" "sa" ++
         designation_of metadata "english_name" "en")%list
    | _ => []
    end in
  match designations with
  | _ :: _ => JObj (dict_set fhir_concept "designation" (JArr designations))
  | [] => JObj fhir_concept
  end.

(** [get_codesystem(page, page_size)], for the pages the route lets
    through: [page] is 1 or more. *)
Definition get_codesystem (page page_size : nat) : M World dict :=
  (* Calculate offset *)
  let offset := ((page - 1) * page_size)%nat in
  (* Get concepts *)
  concepts <- select_concepts_page is_namaste offset page_size ;;
  (* Convert to FHIR format *)
  let fhir_concepts := map fhir_concept_of concepts in
  ret [("resourceType", JStr "CodeSystem");
       ("id", JStr "namaste");
       ("url", JStr "http://namaste.example.com/fhir/CodeSystem/namaste");
       ("version", JStr "1.0");
       ("name", JStr "NAMASTE Traditional Medicine Terminology");
       ("status", JStr "active");
       ("content", JStr "complete");
       ("concept", JArr fhir_concepts)].

(** [NamasteLoader.get_concept_by_code] *)
Definition get_concept_by_code (code : string) : M World (option Concept.t) :=
  rows <- select_concepts
            (fun c => String.eqb (Concept.system c) "namaste" &&
                      String.eqb (Concept.code c) code)%bool None ;;
  concept <- lift (scalar_one_or_none rows) ;;
  match concept with
  | None => ret None
  | Some concept =>
      ret (Some (Concept.make (Concept.system concept) (Concept.code concept)
                   (Concept.display concept) (Concept.definition concept)
                   (Concept.language concept) (Concept.source concept)
                   (Concept.version concept) (Concept.metadata concept)))
  end.

(** The handlers of the routes: an [HTTPException] goes through, any other
    exception becomes a 500 with the message of the route. *)
Definition route_failure {S A : Type} (message : string) (e : exn) : M S A :=
  match e with
  | HTTPException _ _ => raise e
  | Exception _ _ => raise (HTTPException 500 (message ++ exn_str e))
  end.

(** [GET /CodeSystem/namaste] *)
Definition get_namaste_codesystem (page page_size : nat) : M World dict :=
  try_except
    (codesystem_data <- get_codesystem page page_size ;;
     match codesystem_data with
     | [] => raise (HTTPException 404 "NAMASTE CodeSystem not found")
     | _ :: _ => ret codesystem_data
     end)
    (route_failure "Error retrieving NAMASTE CodeSystem: ").

(** [GET /CodeSystem/namaste/{code}] *)
Definition get_namaste_concept (code : string) : M World Concept.t :=
  try_except
    (concept <- get_concept_by_code code ;;
     match concept with
     | None =>
         raise (HTTPException 404
                  ("NAMASTE concept with code '" ++ code ++ "' not found"))
     | Some concept => ret concept
     end)
    (route_failure "Error retrieving NAMASTE concept: ").

(* ================================================================== *)
(** * The other operations of the external provider
      ([ICD11Client.get_concept_by_code], [ICD11Client.health_check]) *)
(* ================================================================== *)

(** [ICD11Client.get_concept_by_code].  [http_get_concept code] is the
    outcome of the HTTP exchange for one concept: the decoded body, or the
    exception raised on the way. *)
Definition icd11_get_concept_by_code
    (http_get_concept : string -> result json) (code : string)
  : option json :=
  match
    (entity <~ http_get_concept code ;;
     Ok (_parse_icd11_entity entity))
  with
  | Ok concept => concept
  | Raise _ => None
  end.

(** [ICD11Client.health_check]; [client_id] is the configured client id. *)
Definition health_check (http_get : string -> nat -> result json)
    (client_id : option string) : dict :=
  let authentication :=
    JStr (match client_id with
          | Some (String _ _) => "configured"
          | _ => "not_configured"
          end) in
  let base_url := JStr "https://id.who.int/icd/release/11/2025-01/mms" in
  match
    ((* Try a simple search to test connectivity *)
     results <~ Ok (icd11_search http_get "fever" 1) ;;
     Ok [("status", JStr "healthy");
         ("api_accessible", JBool true);
         ("authentication", authentication);
         ("test_query_results", JNum (Z.of_nat (length results)));
         ("base_url", base_url)])
  with
  | Ok answer => answer
  | Raise e =>
      [("status", JStr "unhealthy");
       ("api_accessible", JBool false);
       ("authentication", authentication);
       ("error", JStr (exn_str e));
       ("base_url", base_url)]
  end.

(* ================================================================== *)
(** * Roles and scopes ([app/security/auth.py]) *)
(* ================================================================== *)

(** [any(role in user_roles for role in required_roles)]: the roles are
    tried in order and the first hit ends the scan. *)
Fixpoint any_role_in (user_roles : json) (required_roles : list string)
  : result bool :=
  match required_roles with
  | [] => Ok false
  | role :: rest =>
      hit <~ py_contains user_roles role ;;
      if hit then Ok true else any_role_in user_roles rest
  end.

Definition has_required_role (user_info : json)
    (required_roles : list string) : result bool :=
  user_roles <~ py_get user_info "roles" (JArr []) ;;
  any_role_in user_roles required_roles.

Definition has_required_scope (user_info : json) (required_scope : string)
  : result bool :=
  user_scope <~ py_get user_info "scope" (JStr "") ;;
  py_contains user_scope required_scope.

(* ================================================================== *)
(** * The translation route ([app/routes/translate.py]) *)
(* ================================================================== *)

(** An entry of a FHIR Parameters resource: a dictionary with a [name] and
    one value, under the key that tells its kind.  A codeable concept holds
    one coding. *)
Inductive parameter_value : Type :=
| valueCodeableConcept (system code display : string)
| valueCode (s : string)
| valueDecimal (q : Q)
| valueString (s : string).

Module Param.
Record t : Type := make {
  name : string;
  value : parameter_value
}.
End Param.

Module TranslateResponse.
Record t : Type := make {
  resourceType : string;
  parameter : list Param.t
}.
End TranslateResponse.

(** The parameters of one candidate. *)
Definition parameters_of (candidate : TranslationCandidate.t)
  : list Param.t :=
  ((* Add target concept parameter *)
   [Param.make "target"
      (valueCodeableConcept
         ("http://terminology.hl7.org/CodeSystem/"
          ++ TranslationCandidate.target_system candidate)
         (TranslationCandidate.target_code candidate)
         (match TranslationCandidate.target_display candidate with
          | Some d => if str_truthy d then d else ""
          | None => ""
          end));
    (* Add equivalence parameter *)
    Param.make "equivalence"
      (valueCode (TranslationCandidate.equivalence candidate));
    (* Add confidence parameter *)
    Param.make "confidence"
      (valueDecimal (TranslationCandidate.confidence candidate))]
   ++
   (* Add method parameter if available *)
   match TranslationCandidate.method candidate with
   | Some m =>
       if str_truthy m then [Param.make "method" (valueString m)] else []
   | None => []
   end
   ++
   (* Add evidence parameter if available *)
   match TranslationCandidate.evidence candidate with
   | Some ((_ :: _) as evidence) =>
       [Param.make "evidence" (valueString (py_str (JObj evidence)))]
   | _ => []
   end)%list.

(** [POST /translate], for a request that passed validation. *)
Definition translate_concept (system code : string)
  : M World TranslateResponse.t :=
  try_except
    (candidates <- translate system code ;;
     match candidates with
     | [] =>
         (* Return empty parameters if no translations found *)
         ret (TranslateResponse.make "Parameters" [])
     | _ :: _ =>
         (* Convert candidates to FHIR Parameters format *)
         ret (TranslateResponse.make "Parameters"
                (flat_map parameters_of candidates))
     end)
    (fun e =>
       raise (HTTPException 500
                ("Error translating concept: " ++ exn_str e))).

(* ================================================================== *)
(** * The command-line client ([cli/search_cli.py]) *)
(* ================================================================== *)

(** [param[key]] on an entry of a Parameters resource as the service sends
    it: the value is under the key of its kind, any other key is missing. *)
Definition value_key (v : parameter_value) : string :=
  match v with
  | valueCodeableConcept _ _ _ => "valueCodeableConcept"
  | valueCode _ => "valueCode"
  | valueDecimal _ => "valueDecimal"
  | valueString _ => "valueString"
  end.

Definition param_index (param : Param.t) (key : string)
  : result parameter_value :=
  if String.eqb (value_key (Param.value param)) key
  then Ok (Param.value param)
  else Raise (Exception "KeyError" ("'" ++ key ++ "'")).

(** A translation as the client collects it: a dictionary from the name of
    a parameter to its value. *)
Definition translation : Type := list (string * parameter_value).

Fixpoint translation_set (t : translation) (k : string) (v : parameter_value)
  : translation :=
  match t with
  | [] => [(k, v)]
  | (k', v') :: t' =>
      if String.eqb k' k then (k', v) :: t'
      else (k', v') :: translation_set t' k v
  end.

(** The loop of [NAMASTECLI.translate] that groups the parameters by
    translation: the translations completed so far and the one being
    filled. *)
Fixpoint group_parameters (params : list Param.t)
    (translations : list translation) (current_translation : translation)
  : result (list translation * translation) :=
  match params with
  | [] => Ok (translations, current_translation)
  | param :: rest =>
      let name := Param.name param in
      if String.eqb name "target" then
        let translations :=
          match current_translation with
          | _ :: _ => (translations ++ [current_translation])%list
          | [] => translations
          end in
        v <~ param_index param "valueCodeableConcept" ;;
        group_parameters rest translations [("target", v)]
      else if (String.eqb name "equivalence" || String.eqb name "confidence"
               || String.eqb name "method" || String.eqb name "evidence")%bool
      then
        v <~ (if String.eqb name "confidence"
              then param_index param "valueDecimal"
              else if String.eqb name "evidence"
              then param_index param "valueString"
              else param_index param "valueString") ;;
        group_parameters rest translations
          (translation_set current_translation name v)
      else group_parameters rest translations current_translation
  end.

(** The translations the client is about to print, for the parameters of an
    answer that has some. *)
Definition cli_translations (params : list Param.t)
  : result (list translation) :=
  grouped <~ group_parameters params [] [] ;;
  Ok (match snd grouped with
      | _ :: _ => (fst grouped ++ [snd grouped])%list
      | [] => fst grouped
      end).

(* ================================================================== *)
(** * Suggestions ([app/routes/lookup.py]) *)
(* ================================================================== *)

Definition common_terms : list string :=
  ["fever"; "headache"; "cough"; "pain"; "digestion";
   "respiratory"; "skin"; "mental"; "sleep"; "energy"].

Definition concept_suggestion (result : SearchResult.t) : json :=
  JObj [("text", JStr (Concept.display (SearchResult.concept result)));
        ("value", JStr (Concept.code (SearchResult.concept result)));
        ("system", JStr (Concept.system (SearchResult.concept result)));
        ("type", JStr "concept")].

Definition keyword_suggestion (term : string) : json :=
  JObj [("text", JStr term); ("value", JStr term);
        ("system", JStr "common"); ("type", JStr "keyword")].

(** [GET /suggestions] *)
Definition get_search_suggestions (q : string) : M World dict :=
  try_except
    ((* Get suggestions from NAMASTE concepts *)
     namaste_results <- search q (Some "namaste") 5 ;;
     let suggestions := map concept_suggestion namaste_results in
     (* Add common search terms *)
     let suggestions :=
       (suggestions ++
        map keyword_suggestion
          (filter (fun term => str_in (lower q) (lower term)) common_terms))%list
     in
     ret [("query", JStr q);
          ("suggestions", JArr (firstn 10 suggestions))])
    (fun e =>
       raise (HTTPException 500
                ("Error getting search suggestions: " ++ exn_str e))).

(** [GET /autocomplete] *)
Definition autocomplete_terms (http_get : string -> nat -> result json)
    (q : string) (system : option string) (limit : nat)
  : M World SearchResponse.t :=
  try_except
    ((* Use the main search function with a smaller limit *)
     search_terms http_get q system limit)
    (route_failure "Error getting autocomplete suggestions: ").

(* ================================================================== *)
(** * The vocabulary of the specification *)
(* ================================================================== *)

(** ** The scoring rule as the specification words it *)

(** The components of a score, in tenths: [10] is 1.0. *)
Definition code_component (q : string) (c : Concept.t) : Z :=
  if String.eqb (lower (Concept.code c)) (lower q) then 10
  else if startswith (lower (Concept.code c)) (lower q) then 9
  else if str_in (lower q) (lower (Concept.code c)) then 7
  else 0.

Definition display_component (q : string) (c : Concept.t) : Z :=
  if String.eqb (lower (Concept.display c)) (lower q) then 8
  else if startswith (lower (Concept.display c)) (lower q) then 6
  else if str_in (lower q) (lower (Concept.display c)) then 4
  else 0.

(** A concept has a definition when the field is set and not empty. *)
Definition has_definition_containing (q : string) (c : Concept.t) : bool :=
  match Concept.definition c with
  | Some d => (str_truthy d && str_in (lower q) (lower d))%bool
  | None => false
  end.

Definition definition_component (q : string) (c : Concept.t) : Z :=
  if has_definition_containing q c then 3 else 0.

(** A metadata field matches when it is present and its stringified value
    contains the query, case-insensitively. *)
Definition field_matches (q : string) (c : Concept.t) (field : string) : bool :=
  match Concept.metadata c with
  | Some md =>
      match dict_get md field with
      | Some v => str_in (lower q) (lower (py_str v))
      | None => false
      end
  | None => false
  end.

Definition field_component (q : string) (c : Concept.t) (field : string) : Z :=
  if (String.eqb (Concept.system c) "namaste" && field_matches q c field)%bool
  then 2 else 0.

(** The components in the order in which they are added. *)
Definition components (q : string) (c : Concept.t) : list Z :=
  [code_component q c; display_component q c; definition_component q c]
  ++ map (field_component q c) metadata_fields.

(** The sum of the specification, a decimal number: in tenths, clamped to
    1.0. *)
Definition relevance_spec (q : string) (c : Concept.t) : Z :=
  Z.min (fold_right Z.add 0 (components q c)) 10.

(** The binary64 number nearest to [tenths / 10]: what Python reads the
    decimal as. *)
Definition decimal (tenths : Z) : float :=
  (PrimFloat.of_uint63 (Uint63.of_Z tenths) / 10)%float.

(** The sum as floating-point arithmetic has it: the components that are not
    zero are added one after the other, each sum rounded, and the total is
    clamped. *)
Definition relevance_accumulated (q : string) (c : Concept.t) : float :=
  py_min
    (fold_left (fun score tenths => (score + decimal tenths)%float)
       (filter (fun tenths => negb (tenths =? 0)) (components q c)) 0%float)
    1.

(** A score between 0.0 and 1.0. *)
Definition unit_score (x : float) : bool :=
  (PrimFloat.leb 0 x && PrimFloat.leb x 1)%bool.

(** The values a score takes. *)
Definition score_values : list float :=
  [0; 0.2; 0.3; 0.4; 0.5; 0.6; 0.6000000000000001; 0.7; 0.8;
   0.8999999999999999; 0.9; 1]%float.

(** A result whose sort key is between 0.0 and 1.0. *)
Definition unit_key (r : SearchResult.t) : Prop :=
  unit_score (relevance_key r) = true.




(** ** The contract of [translate] in the words of the specification *)

(** The rows a query of the session sees. *)
Definition stored_mappings (w : World) : list Mapping.t :=
  mappings w ++ new_mappings w.

Definition has_source (system code : string) (m : Mapping.t) : bool :=
  (String.eqb (Mapping.source_system m) system &&
   String.eqb (Mapping.source_code m) code)%bool.

Definition has_key (system code : string) (c : Concept.t) : bool :=
  (String.eqb (Concept.system c) system &&
   String.eqb (Concept.code c) code)%bool.

(** Data-model invariant: (system, code) identifies a concept. *)
Fixpoint concepts_unique (cs : list Concept.t) : bool :=
  match cs with
  | [] => true
  | c :: cs' =>
      negb (existsb (has_key (Concept.system c) (Concept.code c)) cs') &&
      concepts_unique cs'
  end.

(** The candidate of a mapping: the mapping's own fields, and the display of
    the target concept when the concept store has it. *)
Definition candidate_for (w : World) (m : Mapping.t) : TranslationCandidate.t :=
  TranslationCandidate.make
    (Mapping.target_system m) (Mapping.target_code m)
    (option_map Concept.display
       (find (has_key (Mapping.target_system m) (Mapping.target_code m))
             (concepts w)))
    (Mapping.equivalence m) (Mapping.confidence m)
    (Mapping.method m) (Mapping.evidence m).

Definition has_confidence (k : Q) (x : TranslationCandidate.t) : bool :=
  Qeq_bool (TranslationCandidate.confidence x) k.

(** ** Vocabulary for the properties of the bundle annotator *)

(** The kinds of resource the loop has a branch for. *)
Definition recognized_kind (resource_type : json) : bool :=
  (is_str resource_type "Condition" || is_str resource_type "Observation"
   || is_str resource_type "DiagnosticReport"
   || is_str resource_type "Procedure")%bool.

(** A key of an audit detail that is left out when its value is [None]. *)
Definition unless_none (k : string) (v : json) : dict :=
  match v with
  | JNull => []
  | _ => [(k, v)]
  end.

(** The detail of the audit record of an entry: the time of writing, the
    bundle id, the consent reference if any, the resource kind and the
    running count of mappings added. *)
Definition entry_audit_detail (now bundle_id : string)
    (consent_ref resource_type : json) (mappings_added : Z) : dict :=
  ([("timestamp", JStr now); ("bundle_id", JStr bundle_id)]
   ++ unless_none "consent_ref" consent_ref
   ++ unless_none "resource_type" resource_type
   ++ [("mappings_added", JNum mappings_added)])%list.

Definition entry_audit (actor : json) (now bundle_id : string)
    (consent_ref resource_type resource_id : json) (mappings_added : Z)
  : AuditLog.t :=
  AuditLog.make actor "create" resource_type resource_id
    (entry_audit_detail now bundle_id consent_ref resource_type
       mappings_added).

Definition audit_error (resource_type resource_id : json) : string :=
  "Error recording audit for " ++ py_str resource_type ++ "/"
  ++ py_str resource_id ++ ": database error".

(** The session after an audit entry has been committed. *)
Definition committed (w : World) (a : AuditLog.t) : World :=
  with_pending
    (with_tables w (mappings w ++ new_mappings w)
                   (audit_logs w ++ new_audits w ++ [a]))
    [] [].

Definition condition_error (resource_id : json) (e : exn) : string :=
  "Error processing Condition " ++ py_str resource_id ++ ": " ++ exn_str e.

(** The next write to the store fails. *)
Definition write_fails (w : World) : bool :=
  match faults w with
  | true :: _ => true
  | _ => false
  end.

(** The session once an identifier has been drawn, and the call once the
    resource of an entry has been read and an identifier drawn for it. *)
Definition drawn (w : World) : World := with_uuids w (S (uuids w)).

Definition entered (st : Upload) (res : json) : Upload :=
  mkUpload (drawn (db st)) (created_resources st) (errors st)
    (mappings_added st) res.

(** The identifier of a resource: its [id], or the identifier drawn. *)
Definition resource_id_of (st : Upload) (res : dict) : json :=
  match dict_get res "id" with
  | Some v => v
  | None => JStr (uuid_str (uuids (db st)))
  end.

(** Two sessions that differ at most in the faults still ahead. *)
Definition same_tables (w w' : World) : Prop :=
  concepts w' = concepts w /\ mappings w' = mappings w /\
  audit_logs w' = audit_logs w /\ new_mappings w' = new_mappings w /\
  new_audits w' = new_audits w /\ uuids w' = uuids w /\ now w' = now w /\
  elapsed_ms w' = elapsed_ms w.

(** A step of the session that writes nothing. *)
Definition reads_only {A : Type} (m : M World A) : Prop :=
  forall w r w', m w = (r, w') -> same_tables w w'.

(** A step of a call that writes nothing to the store and notes no error. *)
Definition quiet {A : Type} (m : M Upload A) : Prop :=
  forall st r st', m st = (r, st') ->
    same_tables (db st) (db st') /\ errors st' = errors st.

(** The audit records of created resources. *)
Definition creates (w : World) : list AuditLog.t :=
  filter (fun a => String.eqb (AuditLog.action a) "create") (audit_logs w).

(** An entry whose resource can be read: an object whose [resource], when
    it has one, is an object. *)
Definition readable_entry (entry : json) : bool :=
  match py_get entry "resource" (JObj []) with
  | Ok (JObj _) => true
  | _ => false
  end.

(** An audit record of an entry of the bundle [bundle_id] written for
    [actor]. *)
Definition entry_audit_of (actor : json) (bundle_id : string)
    (a : AuditLog.t) : Prop :=
  AuditLog.action a = "create" /\ AuditLog.actor a = actor /\
  dict_get (AuditLog.detail a) "bundle_id" = Some (JStr bundle_id).

(* ================================================================== *)
(** * Sample data *)
(* ================================================================== *)

(** The concepts and mappings of the seed data ([seed_default_mappings] and
    the scenario of the specification), with a second and a third mapping of
    the same source to exercise the ordering. *)

Definition jwara : Concept.t :=
  Concept.make "namaste" "NAM-AY-0001" "Jwara"
    (Some "Fever in traditional medicine") "en" (Some "NAMASTE CSV")
    (Some "1.0")
    (Some [("category", JStr "Jwara Roga"); ("subcategory", JStr "");
           ("sanskrit_name", JStr "Jwara"); ("english_name", JStr "Fever")]).

Definition ab11 : Concept.t :=
  Concept.make "icd11" "AB11" "Fever" None "en" (Some "WHO ICD-11")
    (Some "2025-01") None.

(** A concept of the other terminology whose display begins with "fever" and
    whose definition contains it. *)
Definition mg26 : Concept.t :=
  Concept.make "icd11" "MG26" "Fever of other or unknown origin"
    (Some "Elevated body temperature; fever without a known cause") "en"
    (Some "WHO ICD-11") (Some "2025-01") None.

Definition seed_mapping (target_code : string) (confidence : Q) : Mapping.t :=
  Mapping.make "namaste" "NAM-AY-0001" "icd11" target_code "relatedto"
    confidence (Some "expert_review") None (Some "NAMASTE Team").

(** A store of the other terminology. *)
Definition icd_world : World :=
  mkWorld [mg26; ab11] [seed_mapping "AB11" (9 # 10)]
    [] [] [] [] 0 "2024-01-15T10:00:00" 12.

Definition sample_world : World :=
  mkWorld [jwara; ab11]
    [seed_mapping "AB11" (9 # 10); seed_mapping "AB12" (6 # 10);
     seed_mapping "AB13" (8 # 10)]
    [] [] [] [] 0 "2024-01-15T10:00:00" 12.

(** A store with two mappings of the same confidence around a better one. *)
Definition tied_world : World :=
  mkWorld [jwara; ab11]
    [seed_mapping "AB12" (8 # 10); seed_mapping "AB11" (9 # 10);
     seed_mapping "AB13" (8 # 10)]
    [] [] [] [] 0 "2024-01-15T10:00:00" 12.

(** The same store with the faults [fs] ahead. *)
Definition failing_world (fs : list bool) : World :=
  with_faults sample_world fs.

(** A second concept whose code extends the code of [jwara], stored before
    it. *)
Definition jwara_variant : Concept.t :=
  Concept.make "namaste" "NAM-AY-00011" "Jwara (vishama)" None "en"
    (Some "NAMASTE CSV") (Some "1.0") None.

Definition crowded_world : World :=
  mkWorld [jwara_variant; jwara] [] [] [] [] [] 0 "2024-01-15T10:00:00" 12.

(** A provider that times out. *)
Definition provider_down (_ : string) (_ : nat) : result json :=
  Raise (Exception "ConnectTimeout" "timed out").

(** Sample bundles. *)
Definition namaste_coding_sample : json :=
  JObj [("system", JStr namaste_uri); ("code", JStr "NAM-AY-0001");
        ("display", JStr "Jwara")].

Definition condition_code : dict :=
  [("coding", JArr [namaste_coding_sample])].

Definition condition_resource : dict :=
  [("resourceType", JStr "Condition"); ("id", JStr "condition-001");
   ("code", JObj condition_code)].

Definition condition_entry (extra : dict) : json :=
  JObj [("resource", JObj (condition_resource ++ extra)%list)].

(** A Condition with two codings of the local system, of which only the
    second has mappings. *)
Definition unmapped_coding : json :=
  JObj [("system", JStr namaste_uri); ("code", JStr "NAM-AY-9999");
        ("display", JStr "Unmapped")].

Definition two_codings_resource : dict :=
  [("resourceType", JStr "Condition"); ("id", JStr "condition-002");
   ("code", JObj [("coding", JArr [unmapped_coding; namaste_coding_sample])])].

Definition two_codings_entry : json :=
  JObj [("resource", JObj two_codings_resource)].

Definition consent_resource : dict :=
  [("resourceType", JStr "Consent"); ("id", JStr "consent-001");
   ("status", JStr "active")].

Definition consent_entry : json :=
  JObj [("resource", JObj consent_resource)].

Definition bundle_of (entries : list json) : dict :=
  [("resourceType", JStr "Bundle"); ("id", JStr "test-bundle");
   ("type", JStr "collection"); ("entry", JArr entries)].

Definition fresh_upload (w : World) : Upload := mkUpload w [] [] 0 JNull.

Definition seed_candidate (target_code : string) (display : option string)
    (confidence : Q) : TranslationCandidate.t :=
  TranslationCandidate.make "icd11" target_code display "relatedto"
    confidence (Some "expert_review") None.

(* ================================================================== *)
(** * Vocabulary for the other operations *)
(* ================================================================== *)

(** The natural key of a mapping, as a test on rows. *)
Definition key_of (m : Mapping.t) : Mapping.t -> bool :=
  same_key (Mapping.source_system m) (Mapping.source_code m)
    (Mapping.target_system m) (Mapping.target_code m).

(** The answer of [seed_default_mappings]. *)
Definition seed_report (added skipped : Z) : dict :=
  [("added", JNum added); ("skipped", JNum skipped); ("total", JNum 5)].

(** Reading a dictionary of counters. *)
Fixpoint counts_get (stats : list (string * Z)) (k : string) : Z :=
  match stats with
  | [] => 0
  | (k', n) :: rest => if String.eqb k' k then n else counts_get rest k
  end.

Definition counts_total (stats : list (string * Z)) : Z :=
  fold_right (fun kv acc => snd kv + acc) 0 stats.

Definition has_equivalence (e : string) (m : Mapping.t) : bool :=
  String.eqb (Mapping.equivalence m) e.

(** The concepts listed by an answer of [get_codesystem]; none when the call
    raised. *)
Definition codesystem_concepts (r : result dict * World) : list json :=
  match fst r with
  | Ok d =>
      match dict_get d "concept" with
      | Some (JArr cs) => cs
      | _ => []
      end
  | Raise _ => []
  end.

Definition namaste_concepts (w : World) : list Concept.t :=
  filter is_namaste (concepts w).

(** The codings and the decimals of a list of parameters, in order. *)
Definition codings_of (params : list Param.t)
  : list (string * string * string) :=
  flat_map (fun p => match Param.value p with
                     | valueCodeableConcept s c d => [(s, c, d)]
                     | _ => []
                     end) params.

Definition decimals_of (params : list Param.t) : list Q :=
  flat_map (fun p => match Param.value p with
                     | valueDecimal q => [q]
                     | _ => []
                     end) params.

Definition target_coding (candidate : TranslationCandidate.t)
  : string * string * string :=
  ("http://terminology.hl7.org/CodeSystem/"
   ++ TranslationCandidate.target_system candidate,
   TranslationCandidate.target_code candidate,
   match TranslationCandidate.target_display candidate with
   | Some d => d
   | None => ""
   end).

(** A provider whose entities carry their title as an object. *)
Definition provider_object_title (_ : string) (_ : nat) : result json :=
  Ok (JObj [("destinationEntities",
             JArr [JObj [("theCode", JStr "1A00");
                         ("title",
                          JObj [("@language", JStr "en");
                                ("@value", JStr "Cholera")])]])]).

(** The named arguments of [create_audit_detail] other than
    [error_message], all [None] in the calls of the service, and the
    dictionary before the [None] values are removed. *)
Definition detail_defaults (now : string) (error_message : json) : dict :=
  [("timestamp", JStr now); ("request_id", JNull);
   ("user_agent", JNull); ("ip_address", JNull); ("endpoint", JNull);
   ("method", JNull); ("status_code", JNull); ("response_time_ms", JNull);
   ("error_message", error_message)].

Definition is_none (v : json) : bool :=
  match v with JNull => true | _ => false end.

(** The error audit of a call that failed before its actor was known. *)
Definition failure_audit (w : World) (message : string) : AuditLog.t :=
  AuditLog.make (JStr "unknown") "upload" (JStr "Bundle")
    (JStr (uuid_str (uuids w)))
    [("timestamp", JStr (now w)); ("error_message", JStr message);
     ("bundle_id", JStr (uuid_str (uuids w)));
     ("processing_time_ms", JNum (elapsed_ms w))].

(** The kinds of resource that are referenced as they are. *)
Definition referenced_kind (resource_type : json) : bool :=
  (is_str resource_type "Observation"
   || is_str resource_type "DiagnosticReport"
   || is_str resource_type "Procedure")%bool.

(** The marker that [stamp] appends. *)
Definition processing_marker (now : string) : json :=
  JObj [("url",
         JStr "http://namaste.example.com/fhir/StructureDefinition/bundle-processing");
        ("valueString", JStr ("Processed by NAMASTE ICD Service at " ++ now))].

(** Sample entries: an observation without an identifier, and a condition
    whose only coding is of another system. *)
Definition observation_resource : dict :=
  [("resourceType", JStr "Observation"); ("status", JStr "final")].

Definition observation_entry : json :=
  JObj [("resource", JObj observation_resource)].

Definition icd_only_resource : dict :=
  [("resourceType", JStr "Condition"); ("id", JStr "condition-003");
   ("code",
    JObj [("coding",
           JArr [JObj [("system",
                        JStr "http://terminology.hl7.org/CodeSystem/icd11");
                       ("code", JStr "AB11")]])]);
   ("meta", JObj [("versionId", JStr "1");
                  ("extension", JArr [JObj [("url", JStr "urn:first")]])])].

Definition icd_only_entry : json :=
  JObj [("resource", JObj icd_only_resource)].

(** The reference under which a resource is reported as created. *)
Definition reference_to (kind : string) (resource_id : json) : string :=
  kind ++ "/" ++ py_str resource_id.

(* ================================================================== *)
(** * Properties *)
(* ================================================================== *)

(* ------------------------------------------------------------------ *)
(** ** Computations *)
(* ------------------------------------------------------------------ *)

Lemma bind_ok {S A B : Type} (m : M S A) (k : A -> M S B) (s s' : S)
    (a : A) :
  m s = (Ok a, s') -> bind m k s = k a s'.
Proof. intros E. unfold bind. rewrite E. reflexivity. Qed.

Lemma bind_raise {S A B : Type} (m : M S A) (k : A -> M S B) (s s' : S)
    (e : exn) :
  m s = (Raise e, s') -> bind m k s = (Raise e, s').
Proof. intros E. unfold bind. rewrite E. reflexivity. Qed.

(* ------------------------------------------------------------------ *)
(** ** Floating-point order *)
(* ------------------------------------------------------------------ *)

(** The comparisons of the format, read on its specification
    ([FloatAxioms]): among numbers, "not smaller" is transitive, "smaller" is
    asymmetric, and "not smaller" is "greater or equal". *)

Ltac compare_cases :=
  repeat match goal with
         | |- context [PosDef.Pos.compare_cont Eq ?a ?b] =>
             change (PosDef.Pos.compare_cont Eq a b) with (Pos.compare a b)
         | H : context [PosDef.Pos.compare_cont Eq ?a ?b] |- _ =>
             change (PosDef.Pos.compare_cont Eq a b) with (Pos.compare a b) in H
         | |- context [Z.compare ?a ?b] => destruct (Z.compare_spec a b)
         | H : context [Z.compare ?a ?b] |- _ => destruct (Z.compare_spec a b)
         | |- context [Pos.compare ?a ?b] => destruct (Pos.compare_spec a b)
         | H : context [Pos.compare ?a ?b] |- _ =>
             destruct (Pos.compare_spec a b)
         end.

Lemma SFltb_ge_trans (a b c : spec_float) :
  b <> S754_nan -> SFltb a b = false -> SFltb b c = false ->
  SFltb a c = false.
Proof.
  unfold SFltb, SFcompare.
  destruct a as [[|]|[|]| |[|] ma ea], b as [[|]|[|]| |[|] mb eb],
           c as [[|]|[|]| |[|] mc ec];
    intros N; try congruence; try reflexivity; try discriminate;
    intros H1 H2;
    compare_cases; subst; cbn in *; try reflexivity; try discriminate;
    try lia.
Qed.

Lemma SFltb_asym (a b : spec_float) : SFltb a b = true -> SFltb b a = false.
Proof.
  unfold SFltb, SFcompare.
  destruct a as [[|]|[|]| |[|] ma ea], b as [[|]|[|]| |[|] mb eb];
    try congruence; try reflexivity; try discriminate;
    intros H1;
    compare_cases; subst; cbn in *; try reflexivity; try discriminate;
    try lia.
Qed.

Lemma SFltb_false_leb (a b : spec_float) :
  a <> S754_nan -> b <> S754_nan -> SFltb a b = false -> SFleb b a = true.
Proof.
  unfold SFltb, SFleb, SFcompare.
  destruct a as [[|]|[|]| |[|] ma ea], b as [[|]|[|]| |[|] mb eb];
    intros Na Nb; try congruence; try reflexivity; try discriminate;
    intros H1;
    compare_cases; subst; cbn in *; try reflexivity; try discriminate;
    try lia.
Qed.

Lemma SFleb_number (a b : spec_float) :
  SFleb a b = true -> a <> S754_nan /\ b <> S754_nan.
Proof.
  unfold SFleb, SFcompare.
  destruct a as [[|]|[|]| |[|] ma ea], b as [[|]|[|]| |[|] mb eb];
    intros H; split; congruence.
Qed.

(** A score between 0.0 and 1.0 is a number. *)
Lemma unit_score_number (x : float) :
  unit_score x = true -> Prim2SF x <> S754_nan.
Proof.
  unfold unit_score. intros H. apply andb_true_iff in H. destruct H as [H _].
  rewrite leb_spec in H. apply (SFleb_number _ _ H).
Qed.

Lemma float_ge_trans (x y z : float) :
  unit_score y = true ->
  PrimFloat.ltb x y = false -> PrimFloat.ltb y z = false ->
  PrimFloat.ltb x z = false.
Proof.
  intros U. rewrite !ltb_spec.
  apply SFltb_ge_trans, unit_score_number, U.
Qed.

Lemma float_lt_asym (x y : float) :
  PrimFloat.ltb x y = true -> PrimFloat.ltb y x = false.
Proof. rewrite !ltb_spec. apply SFltb_asym. Qed.

Lemma float_not_lt_ge (x y : float) :
  unit_score x = true -> unit_score y = true ->
  PrimFloat.ltb x y = false -> PrimFloat.leb y x = true.
Proof.
  intros Ux Uy. rewrite ltb_spec, leb_spec.
  apply SFltb_false_leb; apply unit_score_number; assumption.
Qed.

(* ------------------------------------------------------------------ *)
(** ** Relevance scoring *)
(* ------------------------------------------------------------------ *)

Lemma score_field_hit (ql : string) (md : dict) (score : float) (f : string) :
  score_field ql md score f =
  if match dict_get md f with
     | Some v => str_in ql (lower (py_str v))
     | None => false
     end
  then (score + 0.2)%float else score.
Proof. unfold score_field. destruct (dict_get md f); reflexivity. Qed.

(** The cases of a score: four for the code, four for the display, two for
    the definition, and two for each metadata field of a local concept that
    has metadata.  In each case the score is a closed sum. *)
Ltac field_case md f q :=
  destruct (match dict_get md f with
            | Some v => str_in (lower q) (lower (py_str v))
            | None => false
            end).

Ltac score_cases q c :=
  unfold _calculate_relevance_score, relevance_accumulated, relevance_spec,
    components, code_component, display_component, definition_component,
    has_definition_containing, field_component, field_matches,
    metadata_fields;
  destruct (String.eqb (lower (Concept.code c)) (lower q));
    [|destruct (startswith (lower (Concept.code c)) (lower q));
      [|destruct (str_in (lower q) (lower (Concept.code c)))]];
  (destruct (String.eqb (lower (Concept.display c)) (lower q));
    [|destruct (startswith (lower (Concept.display c)) (lower q));
      [|destruct (str_in (lower q) (lower (Concept.display c)))]]);
  (destruct (Concept.definition c) as [d|];
    [destruct (str_truthy d && str_in (lower q) (lower d))%bool|]);
  (destruct (String.eqb (Concept.system c) "namaste");
   [destruct (Concept.metadata c) as [[|kv md]|];
    [| set (md' := kv :: md); cbn [fold_left map app];
       rewrite !score_field_hit;
       field_case md' "sanskrit_name" q; field_case md' "english_name" q;
       field_case md' "category" q; field_case md' "subcategory" q |] |]).

Lemma score_value (q : string) (c : Concept.t) :
  In (_calculate_relevance_score q c) score_values.
Proof.
  score_cases q c; unfold score_values; cbn [In];
    repeat first [left; reflexivity | right].
Qed.

Lemma score_unit (q : string) (c : Concept.t) :
  unit_score (_calculate_relevance_score q c) = true.
Proof.
  pose proof (score_value q c) as H. unfold score_values in H. cbn [In] in H.
  repeat (destruct H as [<-|H]; [reflexivity|]). contradiction.
Qed.


(** For a query that is not empty, an empty definition contains nothing: the
    definition bonus is then granted exactly when the definition field is set
    and contains the query. *)
Lemma definition_component_nonempty_query (q : string) (c : Concept.t) :
  q <> "" ->
  has_definition_containing q c =
  match Concept.definition c with
  | Some d => str_in (lower q) (lower d)
  | None => false
  end.
Proof.
  intros Hq. unfold has_definition_containing.
  destruct (Concept.definition c) as [d|]; [|reflexivity].
  destruct d as [|a d]; [|reflexivity].
  destruct q as [|b q]; [congruence|]. reflexivity.
Qed.

(** The scenario of the specification: "jwara" matches the display, the
    category and the Sanskrit name of the concept, and the sum is clamped;
    "fever" matches the definition and the English name only; a prefix of the
    code earns 0.9 and an inner part of it 0.7; the metadata of a concept of
    another system earn nothing. *)
Example score_jwara : _calculate_relevance_score "jwara" jwara = 1%float.
Proof. reflexivity. Qed.

Example score_fever : _calculate_relevance_score "FEVER" jwara = 0.5%float.
Proof. reflexivity. Qed.

Example score_code_prefix :
  _calculate_relevance_score "nam-ay" jwara = 0.9%float.
Proof. reflexivity. Qed.

Example score_code_inner :
  _calculate_relevance_score "AY-0001" jwara = 0.7%float.
Proof. reflexivity. Qed.

Example score_other_system :
  _calculate_relevance_score "fever"
    (Concept.make "icd11" "AB11" "Pyrexia" None "en" None None
       (Some [("english_name", JStr "Fever")])) = 0%float.
Proof. reflexivity. Qed.

(** The sums that rounding moves off the decimal. *)
Example rounded_sums :
  (decimal 6 + decimal 3 = 0.8999999999999999)%float /\
  (decimal 7 + decimal 2 = 0.8999999999999999)%float /\
  (decimal 4 + decimal 2 = 0.6000000000000001)%float /\
  (decimal 2 + decimal 2 + decimal 2 = 0.6000000000000001)%float /\
  decimal 9 = 0.9%float /\ decimal 6 = 0.6%float.
Proof. repeat split; reflexivity. Qed.



(* ------------------------------------------------------------------ *)
(** ** Stable descending sort *)
(* ------------------------------------------------------------------ *)

Lemma strongly_sorted_weaken {A : Type} (R R' : A -> A -> Prop) (l : list A) :
  (forall a b, R a b -> R' a b) -> StronglySorted R l -> StronglySorted R' l.
Proof.
  intros HR. induction 1 as [|x l Hl IH Hx]; constructor; [exact IH|].
  eapply Forall_impl; [|exact Hx]. intros b. apply HR.
Qed.

Section SortDesc.

Context {A : Type} (gt : A -> A -> bool).

(** [ge x y]: the key of [x] is at least the key of [y]. *)
Let ge (x y : A) : Prop := gt y x = false.

Hypothesis ge_trans : forall x y z, ge x y -> ge y z -> ge x z.
Hypothesis ge_total : forall x y, gt x y = true -> ge x y.

Lemma insert_desc_perm (x : A) (l : list A) :
  Permutation (insert_desc gt x l) (x :: l).
Proof.
  induction l as [|y l IH]; cbn [insert_desc].
  - apply Permutation_refl.
  - destruct (gt y x).
    + eapply perm_trans; [apply perm_skip, IH | apply perm_swap].
    + apply Permutation_refl.
Qed.

Lemma sort_desc_perm (l : list A) : Permutation (sort_desc gt l) l.
Proof.
  induction l as [|x l IH]; cbn [sort_desc fold_right].
  - apply perm_nil.
  - eapply perm_trans; [apply insert_desc_perm | apply perm_skip, IH].
Qed.

Lemma insert_desc_sorted (x : A) (l : list A) :
  StronglySorted ge l -> StronglySorted ge (insert_desc gt x l).
Proof.
  induction 1 as [|y l Hl IH Hy]; cbn [insert_desc].
  - constructor; constructor.
  - destruct (gt y x) eqn:E.
    + constructor; [exact IH|].
      rewrite Forall_forall in *. intros z Hz.
      apply (Permutation_in _ (insert_desc_perm x l)) in Hz.
      destruct Hz as [<-|Hz]; [apply ge_total; exact E | apply Hy; exact Hz].
    + constructor; [constructor; assumption|].
      constructor; [exact E|].
      rewrite Forall_forall in *. intros z Hz.
      apply ge_trans with y; [exact E | apply Hy; exact Hz].
Qed.

Lemma sort_desc_sorted (l : list A) : StronglySorted ge (sort_desc gt l).
Proof.
  induction l as [|x l IH]; cbn [sort_desc fold_right].
  - constructor.
  - apply insert_desc_sorted, IH.
Qed.

(** Stability: the elements of one key class come out in the order they went
    in.  A class is given by a predicate [p] that no element strictly above
    a member satisfies. *)
Lemma insert_desc_filter (p : A -> bool) (x : A) (l : list A) :
  (forall y, p x = true -> gt y x = true -> p y = false) ->
  filter p (insert_desc gt x l) = filter p (x :: l).
Proof.
  intros Hp. induction l as [|y l IH]; cbn [insert_desc]; [reflexivity|].
  destruct (gt y x) eqn:E; [|reflexivity].
  cbn [filter] in *. rewrite IH.
  destruct (p x) eqn:Ex; [|reflexivity].
  rewrite (Hp y eq_refl E). reflexivity.
Qed.

Lemma sort_desc_stable (p : A -> bool) (l : list A) :
  (forall x y, p x = true -> gt y x = true -> p y = false) ->
  filter p (sort_desc gt l) = filter p l.
Proof.
  intros Hp. induction l as [|x l IH]; [reflexivity|].
  cbn [sort_desc fold_right].
  rewrite insert_desc_filter by (intros y; apply Hp).
  cbn [filter]. fold (sort_desc gt l). rewrite IH. reflexivity.
Qed.

(** A list already in descending order is left as it is. *)
Lemma sort_desc_sorted_id (l : list A) :
  Sorted ge l -> sort_desc gt l = l.
Proof.
  induction 1 as [|x l Hl IH Hx]; [reflexivity|].
  cbn [sort_desc fold_right]. fold (sort_desc gt l). rewrite IH.
  destruct Hx as [|y l' Hy]; [reflexivity|].
  cbn [insert_desc]. unfold ge in Hy. rewrite Hy. reflexivity.
Qed.

End SortDesc.

(** The same for keys that are ordered on a part of their domain only, as
    floating-point numbers are: the elements of the list are in that part. *)
Section SortDescOn.

Context {A : Type} (gt : A -> A -> bool) (P : A -> Prop).

Hypothesis ge_trans :
  forall x y z, P y -> gt y x = false -> gt z y = false -> gt z x = false.
Hypothesis ge_total : forall x y, gt x y = true -> gt y x = false.

Lemma insert_desc_sorted_on (x : A) (l : list A) :
  Forall P l ->
  StronglySorted (fun a b => gt b a = false) l ->
  StronglySorted (fun a b => gt b a = false) (insert_desc gt x l).
Proof.
  intros HP. induction 1 as [|y l Hl IH Hy]; cbn [insert_desc].
  - constructor; constructor.
  - apply Forall_cons_iff in HP. destruct HP as [Py HP].
    destruct (gt y x) eqn:E.
    + constructor; [exact (IH HP)|].
      rewrite Forall_forall in *. intros z Hz.
      apply (Permutation_in _ (insert_desc_perm gt x l)) in Hz.
      destruct Hz as [<-|Hz]; [apply ge_total; exact E | apply Hy; exact Hz].
    + constructor; [constructor; assumption|].
      constructor; [exact E|].
      rewrite Forall_forall in *. intros z Hz.
      apply ge_trans with y; [exact Py | exact E | apply Hy; exact Hz].
Qed.

Lemma sort_desc_sorted_on (l : list A) :
  Forall P l -> StronglySorted (fun a b => gt b a = false) (sort_desc gt l).
Proof.
  induction l as [|x l IH]; cbn [sort_desc fold_right]; intros HP.
  - constructor.
  - apply Forall_cons_iff in HP. destruct HP as [_ HP].
    apply insert_desc_sorted_on; [|apply IH, HP].
    rewrite Forall_forall in *. intros y Hy. apply HP.
    apply (Permutation_in _ (sort_desc_perm gt l)). exact Hy.
Qed.

End SortDescOn.

(* ------------------------------------------------------------------ *)
(** ** Mapping resolver *)
(* ------------------------------------------------------------------ *)

Lemma db_op_healthy (w : World) : faults w = [] -> db_op w = (Ok tt, w).
Proof. intros H. unfold db_op. rewrite H. reflexivity. Qed.

Lemma commit_healthy (w : World) :
  faults w = [] ->
  commit w =
  (Ok tt,
   with_pending
     (with_tables w (mappings w ++ new_mappings w)
                    (audit_logs w ++ new_audits w))
     [] []).
Proof.
  intros H. unfold commit, bind. rewrite (db_op_healthy w H). reflexivity.
Qed.

Lemma select_mappings_healthy (p : Mapping.t -> bool) (w : World) :
  faults w = [] ->
  select_mappings p w = (Ok (filter p (stored_mappings w)), w).
Proof.
  intros H. unfold select_mappings, bind. rewrite (db_op_healthy w H).
  reflexivity.
Qed.

Lemma select_concepts_healthy (p : Concept.t -> bool) (w : World) :
  faults w = [] ->
  select_concepts p None w = (Ok (filter p (concepts w)), w).
Proof.
  intros H. unfold select_concepts, bind. rewrite (db_op_healthy w H).
  reflexivity.
Qed.

Lemma unique_key_filter (system code : string) (cs : list Concept.t) :
  concepts_unique cs = true ->
  scalar_one_or_none (filter (has_key system code) cs) =
  Ok (find (has_key system code) cs).
Proof.
  induction cs as [|c cs IH]; cbn [concepts_unique filter find]; intros U.
  - reflexivity.
  - apply andb_true_iff in U. destruct U as [U1 U2].
    destruct (has_key system code c) eqn:E.
    + assert (N : filter (has_key system code) cs = []).
      { apply negb_true_iff in U1.
        clear IH U2. induction cs as [|d cs IHcs]; [reflexivity|].
        cbn [existsb filter] in *. apply orb_false_iff in U1.
        destruct U1 as [U1 U1'].
        replace (has_key system code d) with false; [apply IHcs, U1'|].
        rewrite <- U1. unfold has_key in *.
        apply andb_true_iff in E. destruct E as [E1 E2].
        apply String.eqb_eq in E1, E2. subst system code. reflexivity. }
      rewrite N. reflexivity.
    + apply IH, U2.
Qed.

Lemma _get_concept_healthy (system code : string) (w : World) :
  faults w = [] -> concepts_unique (concepts w) = true ->
  _get_concept system code w = (Ok (find (has_key system code) (concepts w)), w).
Proof.
  intros H U. unfold _get_concept, bind.
  change (fun c : Concept.t =>
            (String.eqb (Concept.system c) system &&
             String.eqb (Concept.code c) code)%bool)
    with (has_key system code).
  rewrite (select_concepts_healthy _ w H). unfold lift.
  rewrite (unique_key_filter _ _ _ U). reflexivity.
Qed.

Lemma candidate_of_healthy (m : Mapping.t) (w : World) :
  faults w = [] -> concepts_unique (concepts w) = true ->
  candidate_of m w = (Ok (candidate_for w m), w).
Proof.
  intros H U. unfold candidate_of, bind.
  rewrite (_get_concept_healthy _ _ w H U). unfold ret, candidate_for.
  destruct (find _ (concepts w)); reflexivity.
Qed.

Lemma for_each_candidate_of (ms : list Mapping.t) (w : World) :
  faults w = [] -> concepts_unique (concepts w) = true ->
  for_each candidate_of ms w = (Ok (map (candidate_for w) ms), w).
Proof.
  intros H U. induction ms as [|m ms IH]; [reflexivity|].
  cbn [for_each map]. unfold bind at 1.
  rewrite (candidate_of_healthy m w H U).
  unfold bind at 1. rewrite IH. reflexivity.
Qed.

Lemma translate_healthy (system code : string) (w : World) :
  faults w = [] -> concepts_unique (concepts w) = true ->
  translate system code w =
  (Ok (sort_desc confidence_gt
         (map (candidate_for w)
              (filter (has_source system code) (stored_mappings w)))), w).
Proof.
  intros H U. unfold translate. unfold bind at 1.
  change (fun m : Mapping.t =>
            (String.eqb (Mapping.source_system m) system &&
             String.eqb (Mapping.source_code m) code)%bool)
    with (has_source system code).
  rewrite (select_mappings_healthy _ w H).
  unfold bind. rewrite (for_each_candidate_of _ w H U). reflexivity.
Qed.

Lemma confidence_ge_trans (x y z : TranslationCandidate.t) :
  confidence_gt y x = false -> confidence_gt z y = false ->
  confidence_gt z x = false.
Proof.
  unfold confidence_gt. rewrite !negb_false_iff, !Qle_bool_iff.
  intros H1 H2. eapply Qle_trans; eassumption.
Qed.

Lemma confidence_ge_total (x y : TranslationCandidate.t) :
  confidence_gt x y = true -> confidence_gt y x = false.
Proof.
  unfold confidence_gt. rewrite negb_true_iff, negb_false_iff, Qle_bool_iff.
  intros H. apply Qlt_le_weak, Qnot_le_lt. intros L.
  apply Qle_bool_iff in L. congruence.
Qed.

Lemma confidence_class (k : Q) (x y : TranslationCandidate.t) :
  has_confidence k x = true -> confidence_gt y x = true ->
  has_confidence k y = false.
Proof.
  unfold has_confidence, confidence_gt. intros Hx Hy.
  apply Qeq_bool_iff in Hx. apply negb_true_iff in Hy.
  destruct (Qeq_bool (TranslationCandidate.confidence y) k) eqn:E;
    [|reflexivity].
  apply Qeq_bool_iff in E.
  assert (L : (TranslationCandidate.confidence y
               <= TranslationCandidate.confidence x)%Q).
  { rewrite E, Hx. apply Qle_refl. }
  apply Qle_bool_iff in L. congruence.
Qed.

(** C2. On a store in good health whose concepts are identified by
    (system, code), [translate system code] returns without raising exactly
    one candidate for each stored mapping with that source (none when there is
    no such mapping), each carrying the mapping's target, equivalence,
    confidence, method and evidence and the display of the target concept
    when the concept exists; the candidates are in descending order of
    confidence, and candidates of equal confidence keep the order of the
    store. *)
Theorem translate_sorted_candidates (w : World) (system code : string) :
  faults w = [] ->
  concepts_unique (concepts w) = true ->
  let rows := filter (has_source system code) (stored_mappings w) in
  exists candidates,
    translate system code w = (Ok candidates, w) /\
    Permutation candidates (map (candidate_for w) rows) /\
    StronglySorted
      (fun a b => (TranslationCandidate.confidence b
                   <= TranslationCandidate.confidence a)%Q) candidates /\
    (forall k, filter (has_confidence k) candidates =
               filter (has_confidence k) (map (candidate_for w) rows)) /\
    (rows = [] -> candidates = []).
Proof.
  intros H U rows.
  exists (sort_desc confidence_gt (map (candidate_for w) rows)).
  split; [apply translate_healthy; assumption|].
  split; [apply sort_desc_perm|].
  split.
  - eapply strongly_sorted_weaken;
      [|apply (sort_desc_sorted confidence_gt);
        [exact confidence_ge_trans | exact confidence_ge_total]].
    intros a b Hab. unfold confidence_gt in Hab.
    apply negb_false_iff, Qle_bool_iff in Hab. exact Hab.
  - split.
    + intros k. apply sort_desc_stable. intros x y. apply confidence_class.
    + intros E. rewrite E. reflexivity.
Qed.

Lemma translate_sorted_candidates_witness :
  faults sample_world = [] /\
  concepts_unique (concepts sample_world) = true /\
  exists candidates,
    translate "namaste" "NAM-AY-0001" sample_world
      = (Ok candidates, sample_world) /\
    Permutation candidates
      (map (candidate_for sample_world)
         (filter (has_source "namaste" "NAM-AY-0001")
            (stored_mappings sample_world))) /\
    StronglySorted
      (fun a b => (TranslationCandidate.confidence b
                   <= TranslationCandidate.confidence a)%Q) candidates /\
    (forall k, filter (has_confidence k) candidates =
               filter (has_confidence k)
                 (map (candidate_for sample_world)
                    (filter (has_source "namaste" "NAM-AY-0001")
                       (stored_mappings sample_world)))) /\
    (filter (has_source "namaste" "NAM-AY-0001")
       (stored_mappings sample_world) = [] -> candidates = []).
Proof.
  split; [reflexivity|]. split; [reflexivity|].
  exact (translate_sorted_candidates sample_world "namaste" "NAM-AY-0001"
           eq_refl eq_refl).
Defined.

(** The three mappings of confidence 0.9, 0.6, 0.8 come back as 0.9, 0.8,
    0.6, the first with the display of its target concept. *)
Example translate_sample :
  fst (translate "namaste" "NAM-AY-0001" sample_world) =
  Ok [TranslationCandidate.make "icd11" "AB11" (Some "Fever") "relatedto"
        (9 # 10) (Some "expert_review") None;
      TranslationCandidate.make "icd11" "AB13" None "relatedto"
        (8 # 10) (Some "expert_review") None;
      TranslationCandidate.make "icd11" "AB12" None "relatedto"
        (6 # 10) (Some "expert_review") None].
Proof. reflexivity. Qed.

(** Of two mappings of confidence 0.8, the one stored first comes first. *)
Example translate_ties :
  fst (translate "namaste" "NAM-AY-0001" tied_world) =
  Ok [seed_candidate "AB11" (Some "Fever") (9 # 10);
      seed_candidate "AB12" None (8 # 10);
      seed_candidate "AB13" None (8 # 10)].
Proof. reflexivity. Qed.

Example translate_unknown :
  fst (translate "namaste" "NO-SUCH-CODE" sample_world) = Ok [].
Proof. reflexivity. Qed.

(* ------------------------------------------------------------------ *)
(** ** [add_mapping] *)
(* ------------------------------------------------------------------ *)

Section AddMapping.

Variables (source_system source_code target_system target_code : string).
Variables (equivalence : string) (confidence : Q) (method : option string).
Variables (evidence : option dict) (curator : option string).

Let key : Mapping.t -> bool :=
  same_key source_system source_code target_system target_code.

Let row : Mapping.t :=
  Mapping.make source_system source_code target_system target_code
    equivalence confidence method evidence curator.

Let call : M World bool :=
  add_mapping source_system source_code target_system target_code
    equivalence confidence method evidence curator.

Lemma same_key_row : key row = true.
Proof.
  unfold key, row, same_key. cbn. rewrite !String.eqb_refl. reflexivity.
Qed.

(** The first call on a healthy store without the 4-tuple inserts the row. *)
Lemma add_mapping_fresh (w : World) :
  faults w = [] ->
  filter key (stored_mappings w) = [] ->
  call w =
  (Ok true,
   with_pending
     (with_tables w (mappings w ++ new_mappings w ++ [row])
                    (audit_logs w ++ new_audits w))
     [] []).
Proof.
  intros H N. unfold call, add_mapping, try_except. unfold bind at 1.
  fold key. rewrite (select_mappings_healthy key w H), N.
  cbn. unfold bind. rewrite commit_healthy by exact H. reflexivity.
Qed.

(** A call on a healthy store that has exactly one row with the 4-tuple
    changes nothing and answers false. *)
Lemma add_mapping_duplicate (w : World) (m : Mapping.t) :
  faults w = [] ->
  filter key (stored_mappings w) = [m] ->
  call w = (Ok false, w).
Proof.
  intros H N. unfold call, add_mapping, try_except. unfold bind at 1.
  fold key. rewrite (select_mappings_healthy key w H), N. reflexivity.
Qed.

(** C5. On a healthy store that does not hold the 4-tuple, [add_mapping]
    called twice with the same arguments answers true, then false; the second
    call leaves the store as the first left it, and the store then holds
    exactly one row with the 4-tuple. *)
Theorem add_mapping_twice (w : World) :
  faults w = [] ->
  filter key (stored_mappings w) = [] ->
  let first := call w in
  let second := call (snd first) in
  fst first = Ok true /\
  fst second = Ok false /\
  snd second = snd first /\
  filter key (mappings (snd second)) = [row].
Proof.
  intros H N. cbv zeta. rewrite (add_mapping_fresh w H N). cbn [fst snd].
  set (w1 := with_pending _ [] []).
  assert (F : filter key (mappings w1) = [row]).
  { unfold w1. cbn. unfold stored_mappings in N.
    rewrite app_assoc, filter_app, N. cbn. rewrite same_key_row.
    reflexivity. }
  rewrite (add_mapping_duplicate w1 row).
  - cbn [fst snd]. auto.
  - exact H.
  - unfold stored_mappings. replace (new_mappings w1) with (@nil Mapping.t)
      by reflexivity.
    rewrite app_nil_r. exact F.
Qed.

(** The control flow of [add_mapping], one case for each way out. *)
Lemma add_mapping_unfold (w : World) :
  call w =
  match select_mappings key w with
  | (Raise _, w') => (Ok false, with_pending w' [] [])
  | (Ok [], w') =>
      match commit (with_pending w' (new_mappings w' ++ [row])
                      (new_audits w')) with
      | (Ok _, w'') => (Ok true, w'')
      | (Raise _, w'') => (Ok false, with_pending w'' [] [])
      end
  | (Ok [_], w') => (Ok false, w')
  | (Ok (_ :: _ :: _), w') => (Ok false, with_pending w' [] [])
  end.
Proof.
  unfold call, add_mapping, try_except. unfold bind at 1. fold key.
  destruct (select_mappings key w) as [[rows|e] w']; [|reflexivity].
  destruct rows as [|m [|m' ms]]; try reflexivity.
  cbn. unfold bind.
  destruct (commit _) as [[u|e] w'']; reflexivity.
Qed.

(** C9. [add_mapping] never raises.  Whenever it answers false the committed
    tables are as before.  A failure of the duplicate pre-check, or of the
    commit of the insert, rolls the session back and answers false; a store
    that already holds the 4-tuple is answered false as well, so the two cases
    look the same to the caller. *)
Theorem add_mapping_never_raises (w : World) :
  let r := call w in
  (exists b, fst r = Ok b) /\
  (fst r = Ok false ->
   mappings (snd r) = mappings w /\ audit_logs (snd r) = audit_logs w) /\
  (forall fs, faults w = true :: fs ->
   fst r = Ok false /\ new_mappings (snd r) = [] /\ new_audits (snd r) = []) /\
  (forall fs, faults w = false :: true :: fs ->
   filter key (stored_mappings w) = [] ->
   fst r = Ok false /\ new_mappings (snd r) = [] /\ new_audits (snd r) = []) /\
  (filter key (stored_mappings w) <> [] -> fst r = Ok false).
Proof.
  cbv zeta. rewrite add_mapping_unfold.
  unfold select_mappings, commit, bind, db_op, get, ret, modify.
  fold (stored_mappings w).
  destruct (faults w) as [|[|] fs] eqn:F; cbn.
  - (* no fault ahead *)
    fold (stored_mappings w).
    destruct (filter key (stored_mappings w)) as [|m [|m' ms]] eqn:N; cbn;
      rewrite ?F; cbn; repeat split; intros;
      try discriminate; try congruence; eauto.
  - (* the pre-check fails *)
    repeat split; intros; try discriminate; try congruence; eauto.
  - (* the pre-check goes through *)
    fold (stored_mappings w).
    destruct (filter key (stored_mappings w)) as [|m [|m' ms]] eqn:N; cbn;
      [destruct fs as [|[|] fs']; cbn| |];
      repeat split; intros; try discriminate; try congruence; eauto.
Qed.

End AddMapping.

Lemma add_mapping_twice_witness :
  faults sample_world = [] /\
  filter (same_key "namaste" "NAM-AY-0002" "icd11" "AB12")
    (stored_mappings sample_world) = [] /\
  let first :=
    add_mapping "namaste" "NAM-AY-0002" "icd11" "AB12" "relatedto" (7 # 10)
      (Some "expert_review") None (Some "NAMASTE Team") sample_world in
  let second :=
    add_mapping "namaste" "NAM-AY-0002" "icd11" "AB12" "relatedto" (7 # 10)
      (Some "expert_review") None (Some "NAMASTE Team") (snd first) in
  fst first = Ok true /\
  fst second = Ok false /\
  snd second = snd first /\
  filter (same_key "namaste" "NAM-AY-0002" "icd11" "AB12")
    (mappings (snd second))
  = [Mapping.make "namaste" "NAM-AY-0002" "icd11" "AB12" "relatedto" (7 # 10)
       (Some "expert_review") None (Some "NAMASTE Team")].
Proof.
  split; [reflexivity|]. split; [reflexivity|].
  exact (add_mapping_twice "namaste" "NAM-AY-0002" "icd11" "AB12" "relatedto"
           (7 # 10) (Some "expert_review") None (Some "NAMASTE Team")
           sample_world eq_refl eq_refl).
Defined.

Lemma add_mapping_never_raises_witness :
  faults (failing_world [false; true]) = [false; true] /\
  filter (same_key "namaste" "NAM-AY-0002" "icd11" "AB12")
    (stored_mappings (failing_world [false; true])) = [] /\
  let r :=
    add_mapping "namaste" "NAM-AY-0002" "icd11" "AB12" "relatedto" (7 # 10)
      (Some "expert_review") None (Some "NAMASTE Team")
      (failing_world [false; true]) in
  fst r = Ok false /\ new_mappings (snd r) = [] /\ new_audits (snd r) = [].
Proof.
  split; [reflexivity|]. split; [reflexivity|].
  exact (proj1 (proj2 (proj2 (proj2
           (add_mapping_never_raises "namaste" "NAM-AY-0002" "icd11" "AB12"
              "relatedto" (7 # 10) (Some "expert_review") None
              (Some "NAMASTE Team") (failing_world [false; true])))))
           [] eq_refl eq_refl).
Defined.

(** A duplicate and a failed insert give the caller the same answer. *)
Example add_mapping_duplicate_or_failure :
  fst (add_mapping "namaste" "NAM-AY-0001" "icd11" "AB11" "relatedto"
         (8 # 10) None None None sample_world) = Ok false /\
  fst (add_mapping "namaste" "NAM-AY-0002" "icd11" "AB12" "relatedto"
         (7 # 10) None None None (failing_world [false; true])) = Ok false.
Proof. split; reflexivity. Qed.

(* ------------------------------------------------------------------ *)
(** ** Loops *)
(* ------------------------------------------------------------------ *)

Lemma for_each_length {S A B : Type} (f : A -> M S B) (xs : list A) :
  forall s ys s', for_each f xs s = (Ok ys, s') -> length ys = length xs.
Proof.
  induction xs as [|x xs IH]; cbn [for_each]; intros s ys s' E.
  - inversion E. reflexivity.
  - unfold bind at 1 in E. destruct (f x s) as [[y|e] s1]; [|discriminate].
    unfold bind at 1 in E.
    destruct (for_each f xs s1) as [[ys1|e] s2] eqn:E1; [|discriminate].
    inversion E. cbn [length]. f_equal. eapply IH. exact E1.
Qed.

(* ------------------------------------------------------------------ *)
(** ** Bundle annotation *)
(* ------------------------------------------------------------------ *)

(** [record_audit], one case for each way out. *)
Lemma record_audit_cases (actor : json) (action : string)
    (resource_type resource_id : json) (detail : dict) (w : World) :
  let a := AuditLog.make actor action resource_type resource_id detail in
  record_audit actor action resource_type resource_id detail w =
  match faults w with
  | true :: fs =>
      (Raise (Exception "OperationalError" "database error"),
       with_pending (with_faults w fs) [] [])
  | false :: fs =>
      (Ok (audit_entry_id (committed (with_faults w fs) a)),
       committed (with_faults w fs) a)
  | [] => (Ok (audit_entry_id (committed w a)), committed w a)
  end.
Proof.
  cbv zeta.
  unfold record_audit, try_except, bind, db_add_audit, commit, bind, db_op,
    modify, get, ret, rollback, raise, committed.
  cbn. destruct (faults w) as [|[|] fs]; cbn; rewrite <- ?app_assoc;
    reflexivity.
Qed.

Lemma create_audit_detail_entry (bundle_id : string)
    (consent_ref resource_type : json) (n : Z) (w : World) :
  create_audit_detail JNull
    [("bundle_id", JStr bundle_id); ("consent_ref", consent_ref);
     ("resource_type", resource_type); ("mappings_added", JNum n)] w =
  (Ok (entry_audit_detail (now w) bundle_id consent_ref resource_type n), w).
Proof.
  unfold create_audit_detail, bind, get, ret, entry_audit_detail, unless_none.
  cbn. destruct consent_ref; destruct resource_type; reflexivity.
Qed.

(** The audit of an entry never raises: the record is written, or the
    failure is noted in [errors]; nothing else of the call changes. *)
Lemma audit_resource_spec (actor : json) (bundle_id : string)
    (consent_ref resource_type resource_id : json) (st : Upload) :
  exists st',
    audit_resource actor bundle_id consent_ref resource_type resource_id st
      = (Ok tt, st') /\
    created_resources st' = created_resources st /\
    resource st' = resource st /\
    mappings_added st' = mappings_added st /\
    mappings (db st') = (mappings (db st) ++ if write_fails (db st) then []
                                             else new_mappings (db st))%list /\
    if write_fails (db st) then
      audit_logs (db st') = audit_logs (db st) /\
      errors st' = (errors st ++ [audit_error resource_type resource_id])%list
    else
      audit_logs (db st')
        = (audit_logs (db st) ++ new_audits (db st)
           ++ [entry_audit actor (now (db st)) bundle_id consent_ref
                 resource_type resource_id (mappings_added st)])%list /\
      errors st' = errors st.
Proof.
  unfold audit_resource, try_except, bind, get, on_db, errors_append, modify,
    ret, write_fails, audit_error, entry_audit.
  rewrite create_audit_detail_entry. cbn [db].
  rewrite record_audit_cases. cbv zeta.
  destruct (faults (db st)) as [|[|] fs]; cbn; eexists;
    (split; [reflexivity|]); cbn; rewrite ?app_nil_r;
    repeat split; reflexivity.
Qed.

(** The body of the loop, once the resource and its kind have been read. *)
Lemma process_entry_step (actor : json) (bundle_id : string)
    (consent_ref entry res kind : json) (st : Upload) :
  py_get entry "resource" (JObj []) = Ok res ->
  py_get res "resourceType" JNull = Ok kind ->
  exists d,
    res = JObj d /\
    process_entry actor bundle_id consent_ref entry st =
    match handle_resource kind (resource_id_of st d) (entered st res) with
    | (Ok true, st1) =>
        audit_resource actor bundle_id consent_ref kind
          (resource_id_of st d) st1
    | (Ok false, st1) => (Ok tt, st1)
    | (Raise e, st1) => (Raise e, st1)
    end.
Proof.
  intros Hres Hkind.
  destruct res as [| | | |?|d]; try discriminate Hkind.
  exists d. split; [reflexivity|].
  unfold process_entry. unfold bind at 1. unfold lift at 1. rewrite Hres.
  unfold bind at 1. unfold set_resource, modify.
  unfold bind at 1. unfold lift at 1. rewrite Hkind.
  unfold bind at 1. unfold on_db, uuid4. cbn [db created_resources errors
    mappings_added resource].
  unfold bind at 1. unfold lift at 1. cbn [py_get].
  unfold bind at 1. unfold resource_id_of, entered.
  destruct (handle_resource _ _ _) as [[[|]|e] st1]; reflexivity.
Qed.

(** A kind without a branch leaves the call as it is. *)
Lemma handle_unrecognized (kind resource_id : json) (st : Upload) :
  recognized_kind kind = false ->
  handle_resource kind resource_id st = (Ok true, st).
Proof.
  unfold recognized_kind, handle_resource. intros H.
  apply orb_false_iff in H. destruct H as [H H4].
  apply orb_false_iff in H. destruct H as [H H3].
  apply orb_false_iff in H. destruct H as [H1 H2].
  rewrite H1, H2, H3, H4. reflexivity.
Qed.

(** *** Queries write nothing *)

Lemma same_tables_refl (w : World) : same_tables w w.
Proof. unfold same_tables. repeat split; reflexivity. Qed.

Lemma same_tables_trans (w1 w2 w3 : World) :
  same_tables w1 w2 -> same_tables w2 w3 -> same_tables w1 w3.
Proof.
  unfold same_tables. intros H1 H2.
  decompose [and] H1. decompose [and] H2.
  repeat split; congruence.
Qed.

Lemma reads_only_ret {A : Type} (a : A) : reads_only (ret a).
Proof. intros w r w' E. inversion E. apply same_tables_refl. Qed.

Lemma reads_only_raise {A : Type} (e : exn) : reads_only (@raise World A e).
Proof. intros w r w' E. inversion E. apply same_tables_refl. Qed.

Lemma reads_only_lift {A : Type} (x : result A) : reads_only (lift x).
Proof. intros w r w' E. inversion E. apply same_tables_refl. Qed.

Lemma reads_only_get : reads_only (@get World).
Proof. intros w r w' E. inversion E. apply same_tables_refl. Qed.

Lemma reads_only_db_op : reads_only db_op.
Proof.
  intros w r w' E. unfold db_op in E.
  destruct (faults w) as [|[|] fs]; inversion E;
    unfold same_tables; cbn; repeat split; reflexivity.
Qed.

Lemma reads_only_bind {A B : Type} (m : M World A) (k : A -> M World B) :
  reads_only m -> (forall a, reads_only (k a)) -> reads_only (bind m k).
Proof.
  intros Hm Hk w r w' E. unfold bind in E.
  destruct (m w) as [[a|e] w1] eqn:E1.
  - eapply same_tables_trans; [eapply Hm, E1 | eapply Hk, E].
  - inversion E; subst. eapply Hm, E1.
Qed.

Lemma reads_only_for_each {A B : Type} (f : A -> M World B) (xs : list A) :
  (forall x, reads_only (f x)) -> reads_only (for_each f xs).
Proof.
  intros Hf. induction xs as [|x xs IH]; cbn [for_each].
  - apply reads_only_ret.
  - apply reads_only_bind; [apply Hf|]. intros y.
    apply reads_only_bind; [exact IH|]. intros ys. apply reads_only_ret.
Qed.

Create HintDb reads discriminated.
#[local] Hint Resolve reads_only_ret reads_only_raise reads_only_lift
  reads_only_get reads_only_db_op reads_only_for_each : reads.
#[local] Hint Extern 2 (reads_only (bind _ _)) =>
  apply reads_only_bind; [|intro] : reads.

Lemma reads_only_select_mappings (p : Mapping.t -> bool) :
  reads_only (select_mappings p).
Proof. unfold select_mappings. auto 6 with reads. Qed.

Lemma reads_only_select_concepts (p : Concept.t -> bool) (n : option nat) :
  reads_only (select_concepts p n).
Proof. unfold select_concepts. auto 6 with reads. Qed.

#[local] Hint Resolve reads_only_select_mappings reads_only_select_concepts
  : reads.

Lemma reads_only_candidate_of (m : Mapping.t) : reads_only (candidate_of m).
Proof. unfold candidate_of, _get_concept. auto 8 with reads. Qed.

#[local] Hint Resolve reads_only_candidate_of : reads.

Lemma reads_only_translate (system code : string) :
  reads_only (translate system code).
Proof. unfold translate. auto 8 with reads. Qed.

Lemma reads_only_translate_value (system : string) (code : json) :
  reads_only (translate_value system code).
Proof.
  unfold translate_value. destruct code; auto 6 with reads.
  apply reads_only_translate.
Qed.

(** What [translate] returns is in descending order of confidence, whatever
    the state of the store. *)
Lemma translate_sorted (system code : string) (w w' : World)
    (candidates : list TranslationCandidate.t) :
  translate system code w = (Ok candidates, w') ->
  StronglySorted
    (fun a b => (TranslationCandidate.confidence b
                 <= TranslationCandidate.confidence a)%Q) candidates.
Proof.
  unfold translate. unfold bind at 1.
  destruct (select_mappings _ w) as [[ms|e] w1]; [|discriminate].
  unfold bind at 1.
  destruct (for_each candidate_of ms w1) as [[cs|e] w2]; [|discriminate].
  intros E. inversion E; subst.
  eapply strongly_sorted_weaken;
    [|apply (sort_desc_sorted confidence_gt);
      [exact confidence_ge_trans | exact confidence_ge_total]].
  intros a b Hab. unfold confidence_gt in Hab.
  apply negb_false_iff, Qle_bool_iff in Hab. exact Hab.
Qed.

(** *** The branch on the resource kind writes no audit record *)

Lemma quiet_ret {A : Type} (a : A) : quiet (ret a).
Proof.
  intros st r st' E. inversion E. split; [apply same_tables_refl|reflexivity].
Qed.

Lemma quiet_lift {A : Type} (x : result A) : quiet (lift x).
Proof.
  intros st r st' E. inversion E. split; [apply same_tables_refl|reflexivity].
Qed.

Lemma quiet_get : quiet (@get Upload).
Proof.
  intros st r st' E. inversion E. split; [apply same_tables_refl|reflexivity].
Qed.

Lemma quiet_on_db {A : Type} (m : M World A) : reads_only m -> quiet (on_db m).
Proof.
  intros Hm st r st' E. unfold on_db in E.
  destruct (m (db st)) as [r1 w1] eqn:E1. inversion E; subst. cbn.
  split; [eapply Hm, E1 | reflexivity].
Qed.

Lemma quiet_bind {A B : Type} (m : M Upload A) (k : A -> M Upload B) :
  quiet m -> (forall a, quiet (k a)) -> quiet (bind m k).
Proof.
  intros Hm Hk st r st' E. unfold bind in E.
  destruct (m st) as [[a|e] st1] eqn:E1.
  - destruct (Hm _ _ _ E1) as [T1 X1]. destruct (Hk a _ _ _ E) as [T2 X2].
    split; [eapply same_tables_trans; eassumption | congruence].
  - inversion E; subst. eapply Hm, E1.
Qed.

Lemma quiet_set_resource (r : json) : quiet (set_resource r).
Proof.
  intros st x st' E. inversion E. split; [apply same_tables_refl|reflexivity].
Qed.

Lemma quiet_created_append (ref : string) : quiet (created_append ref).
Proof.
  intros st x st' E. inversion E. split; [apply same_tables_refl|reflexivity].
Qed.

Lemma quiet_mappings_added_incr : quiet mappings_added_incr.
Proof.
  intros st x st' E. inversion E. split; [apply same_tables_refl|reflexivity].
Qed.

#[local] Hint Resolve quiet_ret quiet_lift quiet_get quiet_on_db
  quiet_set_resource quiet_created_append quiet_mappings_added_incr
  reads_only_translate_value : reads.
#[local] Hint Extern 2 (quiet (bind _ _)) =>
  apply quiet_bind; [|intro] : reads.

Lemma quiet_annotate_condition (resource_id : json) :
  quiet (annotate_condition resource_id).
Proof.
  unfold annotate_condition.
  apply quiet_bind; [auto with reads|]. intros st.
  apply quiet_bind; [auto with reads|]. intros code.
  apply quiet_bind; [auto with reads|]. intros codings.
  apply quiet_bind; [auto with reads|]. intros codings'.
  apply quiet_bind; [auto with reads|]. intros namaste_coding.
  apply quiet_bind.
  - destruct (truthy namaste_coding); [|auto with reads].
    apply quiet_bind; [auto with reads|]. intros c.
    apply quiet_bind; [auto with reads|]. intros [|first rest];
      auto 8 with reads.
  - intros _. auto 10 with reads.
Qed.

(** The branch never raises.  It leaves the tables alone; it notes an error
    exactly when it answers that the audit is to be skipped, which only the
    handler of a Condition does. *)
Lemma handle_resource_spec (kind resource_id : json) (st : Upload) :
  exists proceed st1,
    handle_resource kind resource_id st = (Ok proceed, st1) /\
    same_tables (db st) (db st1) /\
    if proceed then errors st1 = errors st
    else is_str kind "Condition" = true /\
         exists e, errors st1
                   = (errors st ++ [condition_error resource_id e])%list.
Proof.
  unfold handle_resource.
  destruct (is_str kind "Condition") eqn:K.
  - unfold try_except, bind.
    destruct (annotate_condition resource_id st) as [[u|e] st1] eqn:E;
      destruct (quiet_annotate_condition _ _ _ _ E) as [T X].
    + exists true, st1. auto.
    + eexists false, _. split; [reflexivity|]. cbn.
      split; [exact T|]. split; [reflexivity|]. exists e. rewrite X.
      reflexivity.
  - destruct (is_str kind "Observation" || is_str kind "DiagnosticReport"
              || is_str kind "Procedure")%bool.
    + eexists true, _. split; [reflexivity|]. cbn.
      split; [apply same_tables_refl|reflexivity].
    + exists true, st. split; [reflexivity|].
      split; [apply same_tables_refl|reflexivity].
Qed.

(** C10. An entry whose resource kind is not Condition, Observation,
    DiagnosticReport or Procedure (a Consent, say, or no kind at all) is
    processed without failure: nothing is added to [created], the resource
    and the count of mappings are as they were, and the audit record of the
    entry is attempted: it is written, or its failure is noted in
    [errors]. *)
Theorem unrecognized_entry_untouched (actor : json) (bundle_id : string)
    (consent_ref entry : json) (res : dict) (kind : json) (st : Upload) :
  py_get entry "resource" (JObj []) = Ok (JObj res) ->
  py_get (JObj res) "resourceType" JNull = Ok kind ->
  recognized_kind kind = false ->
  exists st',
    process_entry actor bundle_id consent_ref entry st = (Ok tt, st') /\
    created_resources st' = created_resources st /\
    resource st' = JObj res /\
    mappings_added st' = mappings_added st /\
    if write_fails (db st) then
      audit_logs (db st') = audit_logs (db st) /\
      errors st'
        = (errors st ++ [audit_error kind (resource_id_of st res)])%list
    else
      audit_logs (db st')
        = (audit_logs (db st) ++ new_audits (db st)
           ++ [entry_audit actor (now (db st)) bundle_id consent_ref kind
                 (resource_id_of st res) (mappings_added st)])%list /\
      errors st' = errors st.
Proof.
  intros Hres Hkind Hun.
  destruct (process_entry_step actor bundle_id consent_ref entry _ kind st
              Hres Hkind) as (d & Ed & E).
  injection Ed as <-. rewrite E. rewrite (handle_unrecognized _ _ _ Hun).
  destruct (audit_resource_spec actor bundle_id consent_ref kind
              (resource_id_of st res) (entered st (JObj res)))
    as (st' & E' & Hc & Hr & Hm & _ & Ha).
  exists st'. split; [exact E'|].
  split; [exact Hc|]. split; [exact Hr|]. split; [exact Hm|]. exact Ha.
Qed.

Lemma unrecognized_entry_untouched_witness :
  py_get consent_entry "resource" (JObj []) = Ok (JObj consent_resource) /\
  py_get (JObj consent_resource) "resourceType" JNull = Ok (JStr "Consent") /\
  recognized_kind (JStr "Consent") = false /\
  exists st',
    process_entry (JStr "Dr. Demo") "uuid-0" (JStr "consent-001")
      consent_entry (fresh_upload sample_world) = (Ok tt, st') /\
    created_resources st' = [] /\
    resource st' = JObj consent_resource /\
    mappings_added st' = 0 /\
    audit_logs (db st')
      = [entry_audit (JStr "Dr. Demo") "2024-01-15T10:00:00" "uuid-0"
           (JStr "consent-001") (JStr "Consent") (JStr "consent-001") 0] /\
    errors st' = [].
Proof.
  split; [reflexivity|]. split; [reflexivity|]. split; [reflexivity|].
  exact (unrecognized_entry_untouched (JStr "Dr. Demo") "uuid-0"
           (JStr "consent-001") consent_entry consent_resource
           (JStr "Consent") (fresh_upload sample_world)
           eq_refl eq_refl eq_refl).
Defined.

(** C8, as the code has it.  For an entry whose resource and kind can be
    read, the body of the loop never raises and the loop goes on with the
    next entry.  Unless the entry is a Condition whose annotation failed,
    exactly one audit record with action create is attempted for it: either
    it is appended to the audit log, carrying the actor, the resource kind
    and id, the bundle id, the consent reference if any and the running count
    of mappings added, or its failure is appended to [errors].  For a
    Condition whose annotation failed, the failure is appended to [errors]
    and no audit record is written. *)
Theorem entry_audited_unless_failed (actor : json) (bundle_id : string)
    (consent_ref entry : json) (res : dict) (kind : json) (st : Upload) :
  py_get entry "resource" (JObj []) = Ok (JObj res) ->
  py_get (JObj res) "resourceType" JNull = Ok kind ->
  let rid := resource_id_of st res in
  exists proceed st1 st',
    handle_resource kind rid (entered st (JObj res)) = (Ok proceed, st1) /\
    process_entry actor bundle_id consent_ref entry st = (Ok tt, st') /\
    (forall rest,
       process_entries actor bundle_id consent_ref (entry :: rest) st
       = process_entries actor bundle_id consent_ref rest st') /\
    if proceed then
      if write_fails (db st1) then
        audit_logs (db st') = audit_logs (db st) /\
        errors st' = (errors st ++ [audit_error kind rid])%list
      else
        audit_logs (db st')
          = (audit_logs (db st) ++ new_audits (db st)
             ++ [entry_audit actor (now (db st)) bundle_id consent_ref kind
                   rid (mappings_added st1)])%list /\
        errors st' = errors st
    else
      is_str kind "Condition" = true /\
      audit_logs (db st') = audit_logs (db st) /\
      exists e, errors st' = (errors st ++ [condition_error rid e])%list.
Proof.
  intros Hres Hkind rid.
  destruct (process_entry_step actor bundle_id consent_ref entry _ kind st
              Hres Hkind) as (d & Ed & E).
  injection Ed as <-. fold rid in E.
  destruct (handle_resource_spec kind rid (entered st (JObj res)))
    as (proceed & st1 & Eh & T & Herr).
  rewrite Eh in E.
  assert (Tl : audit_logs (db st1) = audit_logs (db st)
               /\ new_audits (db st1) = new_audits (db st)
               /\ now (db st1) = now (db st)).
  { unfold same_tables in T. cbn in T. intuition. }
  destruct Tl as (Tl & Tn & Tc).
  destruct proceed.
  - destruct (audit_resource_spec actor bundle_id consent_ref kind rid st1)
      as (st' & E' & _ & _ & _ & _ & Ha).
    exists true, st1, st'. rewrite E' in E.
    split; [exact Eh|]. split; [exact E|]. split.
    + intros rest. cbn [process_entries]. unfold bind. rewrite E.
      reflexivity.
    + cbn in Herr. rewrite Tl, Tn, Tc, Herr in Ha. exact Ha.
  - exists false, st1, st1. split; [exact Eh|]. split; [exact E|]. split.
    + intros rest. cbn [process_entries]. unfold bind. rewrite E.
      reflexivity.
    + destruct Herr as [K [e He]]. split; [exact K|]. split; [exact Tl|].
      exists e. exact He.
Qed.

Lemma entry_audited_unless_failed_witness :
  py_get (condition_entry []) "resource" (JObj [])
    = Ok (JObj condition_resource) /\
  py_get (JObj condition_resource) "resourceType" JNull
    = Ok (JStr "Condition") /\
  exists proceed st1 st',
    handle_resource (JStr "Condition") (JStr "condition-001")
      (entered (fresh_upload sample_world) (JObj condition_resource))
      = (Ok proceed, st1) /\
    process_entry (JStr "Dr. Demo") "uuid-0" JNull (condition_entry [])
      (fresh_upload sample_world) = (Ok tt, st') /\
    (forall rest,
       process_entries (JStr "Dr. Demo") "uuid-0" JNull
         (condition_entry [] :: rest) (fresh_upload sample_world)
       = process_entries (JStr "Dr. Demo") "uuid-0" JNull rest st') /\
    if proceed then
      if write_fails (db st1) then
        audit_logs (db st') = [] /\
        errors st'
          = [audit_error (JStr "Condition") (JStr "condition-001")]
      else
        audit_logs (db st')
          = [entry_audit (JStr "Dr. Demo") "2024-01-15T10:00:00" "uuid-0"
               JNull (JStr "Condition") (JStr "condition-001")
               (mappings_added st1)] /\
        errors st' = []
    else
      is_str (JStr "Condition") "Condition" = true /\
      audit_logs (db st') = [] /\
      exists e,
        errors st' = [condition_error (JStr "condition-001") e].
Proof.
  split; [reflexivity|]. split; [reflexivity|].
  exact (entry_audited_unless_failed (JStr "Dr. Demo") "uuid-0" JNull
           (condition_entry []) condition_resource (JStr "Condition")
           (fresh_upload sample_world) eq_refl eq_refl).
Defined.

(** C8 as stated fails: the store fails once while the translations of a
    Condition are looked up.  The call succeeds and reports the failure, and
    the only audit record written is the summary: the entry has none. *)
Lemma failed_condition_gets_no_audit :
  exists response w',
    upload_bundle None (bundle_of [condition_entry []]) (Some "Bearer test")
      (failing_world [true]) = (Ok response, w') /\
    BundleUploadResponse.success response = true /\
    BundleUploadResponse.errors response
      = ["Error processing Condition condition-001: database error"] /\
    map AuditLog.action (audit_logs w') = ["upload"] /\
    length (creates w') <> length [condition_entry []].
Proof.
  eexists. eexists. split; [vm_compute; reflexivity|].
  cbn. repeat split. discriminate.
Qed.

(** *** Dictionaries *)

Lemma dict_get_set_eq (d : dict) (k : string) (v : json) :
  dict_get (dict_set d k v) k = Some v.
Proof.
  induction d as [|[k' v'] d IH]; cbn.
  - rewrite String.eqb_refl. reflexivity.
  - destruct (String.eqb k' k) eqn:E; cbn; rewrite E; [reflexivity|exact IH].
Qed.

Lemma dict_get_set_neq (d : dict) (k k' : string) (v : json) :
  String.eqb k k' = false ->
  dict_get (dict_set d k v) k' = dict_get d k'.
Proof.
  intros N. induction d as [|[k0 v0] d IH]; cbn.
  - rewrite N. reflexivity.
  - destruct (String.eqb k0 k) eqn:E; cbn.
    + apply String.eqb_eq in E. subst k0. rewrite N. reflexivity.
    + rewrite IH. reflexivity.
Qed.

(** The stamp touches [meta] only. *)
Lemma stamp_keeps_code (d : dict) (now : string) (r : json) :
  stamp (JObj d) now = Ok r ->
  exists d', r = JObj d' /\ dict_get d' "code" = dict_get d "code".
Proof.
  unfold stamp, and_then. cbn [py_get py_setitem].
  destruct (py_get _ "extension" _) as [ext|e]; [|discriminate].
  destruct (py_setitem _ "extension" ext) as [m1|e]; [|discriminate].
  destruct (py_append ext _) as [ext'|e]; [|discriminate].
  destruct (py_setitem m1 "extension" ext') as [m2|e]; [|discriminate].
  intros E. inversion E. eexists. split; [reflexivity|].
  rewrite !dict_get_set_neq by reflexivity. reflexivity.
Qed.

Lemma append_coding_spec (res code : dict) (codings : list json) (x : json) :
  dict_get res "code" = Some (JObj code) ->
  dict_get code "coding" = Some (JArr codings) ->
  append_coding (JObj res) x =
  Ok (JObj (dict_set res "code"
              (JObj (dict_set code "coding" (JArr (codings ++ [x])))))).
Proof.
  intros H1 H2.
  unfold append_coding, and_then, py_contains, dict_has, py_index.
  rewrite H1. cbn [py_index py_contains dict_has]. unfold dict_has.
  rewrite ?H1, ?H2. cbn. rewrite ?H2. reflexivity.
Qed.

Lemma find_namaste_coding_object (codings : list json) (coding : json) :
  find_namaste_coding codings = Ok coding -> truthy coding = true ->
  exists d, coding = JObj d /\
            dict_get d "system" = Some (JStr namaste_uri) /\
            In coding codings.
Proof.
  induction codings as [|c cs IH]; cbn [find_namaste_coding]; intros E T.
  - inversion E; subst. discriminate T.
  - unfold and_then in E.
    destruct c as [| | | |?|d]; try discriminate E. cbn [py_get] in E.
    destruct (dict_get d "system") as [v|] eqn:S.
    + destruct (is_str v namaste_uri) eqn:I.
      * inversion E; subst. exists d. split; [reflexivity|].
        split; [|left; reflexivity].
        destruct v; try discriminate I. cbn in I.
        apply String.eqb_eq in I. subst. exact S.
      * destruct (IH E T) as (d' & ? & ? & ?). exists d'.
        repeat split; auto. right. assumption.
    + cbn in E. destruct (IH E T) as (d' & ? & ? & ?). exists d'.
      repeat split; auto. right. assumption.
Qed.

(** The [try] block of a Condition that carries a NAMASTE coding with a
    translation. *)
Lemma annotate_condition_found (rid : json) (st0 : Upload) (res code : dict)
    (codings : list json) (coding c : json)
    (first : TranslationCandidate.t) (others : list TranslationCandidate.t)
    (w1 : World) :
  resource st0 = JObj res ->
  dict_get res "code" = Some (JObj code) ->
  dict_get code "coding" = Some (JArr codings) ->
  find_namaste_coding codings = Ok coding ->
  truthy coding = true ->
  py_get coding "code" JNull = Ok c ->
  translate_value "namaste" c (db st0) = (Ok (first :: others), w1) ->
  annotate_condition rid st0 =
  let res1 :=
    JObj (dict_set res "code"
            (JObj (dict_set code "coding"
                     (JArr (codings ++ [icd11_coding_of first]))))) in
  match stamp res1 (now w1) with
  | Ok r2 =>
      (Ok tt,
       mkUpload w1 (created_resources st0 ++ ["Condition/" ++ py_str rid])
         (errors st0) (mappings_added st0 + 1) r2)
  | Raise e =>
      (Raise e,
       mkUpload w1 (created_resources st0) (errors st0)
         (mappings_added st0 + 1) res1)
  end.
Proof.
  intros Hr H3 H4 H5 T H6 Htr. cbv zeta.
  unfold annotate_condition.
  unfold bind, get, lift, on_db, set_resource, mappings_added_incr,
    created_append, modify, ret.
  rewrite Hr. cbn [py_get]. rewrite H3. cbn [py_get]. rewrite H4.
  cbn [py_iter]. rewrite H5, T, H6, Htr.
  rewrite (append_coding_spec res code codings _ H3 H4).
  cbn [db resource created_resources errors mappings_added].
  destruct (stamp _ (now w1)) as [r2|e]; reflexivity.
Qed.

Lemma translate_value_head (system : string) (c : json) (w w1 : World)
    (first : TranslationCandidate.t) (others : list TranslationCandidate.t) :
  translate_value system c w = (Ok (first :: others), w1) ->
  Forall (fun t => (TranslationCandidate.confidence t
                    <= TranslationCandidate.confidence first)%Q) others.
Proof.
  intros E. destruct c; try discriminate E.
  - cbn in E. unfold bind in E.
    destruct (select_mappings _ w) as [[?|?] ?]; discriminate E.
  - cbn in E. apply translate_sorted in E.
    apply StronglySorted_inv in E. apply E.
Qed.

Lemma handle_condition (rid : json) (st : Upload) :
  handle_resource (JStr "Condition") rid st =
  try_except
    (annotate_condition rid ;;; ret true)
    (fun e => errors_append (condition_error rid e) ;;; ret false) st.
Proof. reflexivity. Qed.

(** C7, as the code has it.  For a Condition entry whose first coding of
    the local system ([find_namaste_coding] stops at it) has a code for which
    the resolver returns at least one candidate, processing the entry never
    raises, adds exactly 1 to [mappings_added], and leaves the resource with
    the coding list it had followed by one new coding: the coding of the
    first candidate, whose confidence no other candidate exceeds. *)
Theorem condition_gets_first_candidate (actor : json) (bundle_id : string)
    (consent_ref entry : json) (res code : dict) (codings : list json)
    (coding c : json) (first : TranslationCandidate.t)
    (others : list TranslationCandidate.t) (st : Upload) (w1 : World) :
  py_get entry "resource" (JObj []) = Ok (JObj res) ->
  dict_get res "resourceType" = Some (JStr "Condition") ->
  dict_get res "code" = Some (JObj code) ->
  dict_get code "coding" = Some (JArr codings) ->
  find_namaste_coding codings = Ok coding ->
  truthy coding = true ->
  py_get coding "code" JNull = Ok c ->
  translate_value "namaste" c (drawn (db st)) = (Ok (first :: others), w1) ->
  exists st' res' code',
    process_entry actor bundle_id consent_ref entry st = (Ok tt, st') /\
    mappings_added st' = mappings_added st + 1 /\
    resource st' = JObj res' /\
    dict_get res' "code" = Some (JObj code') /\
    dict_get code' "coding"
      = Some (JArr (codings ++ [icd11_coding_of first])) /\
    Forall (fun t => (TranslationCandidate.confidence t
                      <= TranslationCandidate.confidence first)%Q) others.
Proof.
  intros Hres Hkind H3 H4 H5 T H6 Htr.
  assert (Hk : py_get (JObj res) "resourceType" JNull
               = Ok (JStr "Condition")).
  { cbn. rewrite Hkind. reflexivity. }
  destruct (process_entry_step actor bundle_id consent_ref entry _ _ st
              Hres Hk) as (d & Ed & E).
  injection Ed as <-.
  set (rid := resource_id_of st res) in *.
  set (code' := dict_set code "coding"
                  (JArr (codings ++ [icd11_coding_of first]))).
  assert (Hc : dict_get code' "coding"
               = Some (JArr (codings ++ [icd11_coding_of first])))
    by apply dict_get_set_eq.
  pose proof (translate_value_head _ _ _ _ _ _ Htr) as Hmax.
  pose proof (annotate_condition_found rid (entered st (JObj res)) res code
                codings coding c first others w1 eq_refl H3 H4 H5 T H6 Htr)
    as Ea.
  cbv zeta in Ea. fold code' in Ea.
  rewrite handle_condition in E.
  unfold try_except in E. unfold bind at 1 in E. rewrite Ea in E.
  destruct (stamp (JObj (dict_set res "code" (JObj code'))) (now w1))
    as [r2|e] eqn:Es.
  - destruct (stamp_keeps_code _ _ _ Es) as (d2 & -> & Hd2).
    rewrite dict_get_set_eq in Hd2.
    cbn in E.
    match type of E with
    | _ = audit_resource _ _ _ _ _ ?s =>
        destruct (audit_resource_spec actor bundle_id consent_ref
                    (JStr "Condition") rid s)
          as (st' & E' & _ & Hr & Hm & _)
    end.
    rewrite E' in E. exists st', d2, code'.
    split; [exact E|]. split; [exact Hm|]. split; [exact Hr|]. auto.
  - cbn in E. eexists _, _, code'.
    split; [exact E|]. cbn.
    split; [reflexivity|]. split; [reflexivity|].
    split; [apply dict_get_set_eq|]. auto.
Qed.

Lemma condition_gets_first_candidate_witness :
  py_get (condition_entry []) "resource" (JObj [])
    = Ok (JObj condition_resource) /\
  dict_get condition_resource "resourceType" = Some (JStr "Condition") /\
  dict_get condition_resource "code" = Some (JObj condition_code) /\
  dict_get condition_code "coding" = Some (JArr [namaste_coding_sample]) /\
  find_namaste_coding [namaste_coding_sample] = Ok namaste_coding_sample /\
  truthy namaste_coding_sample = true /\
  py_get namaste_coding_sample "code" JNull = Ok (JStr "NAM-AY-0001") /\
  translate_value "namaste" (JStr "NAM-AY-0001")
      (drawn (db (fresh_upload sample_world)))
    = (Ok [seed_candidate "AB11" (Some "Fever") (9 # 10);
           seed_candidate "AB13" None (8 # 10);
           seed_candidate "AB12" None (6 # 10)],
       drawn sample_world) /\
  exists st' res' code',
    process_entry (JStr "Dr. Demo") "uuid-0" JNull (condition_entry [])
      (fresh_upload sample_world) = (Ok tt, st') /\
    mappings_added st' = 0 + 1 /\
    resource st' = JObj res' /\
    dict_get res' "code" = Some (JObj code') /\
    dict_get code' "coding"
      = Some (JArr ([namaste_coding_sample]
                    ++ [icd11_coding_of
                          (seed_candidate "AB11" (Some "Fever") (9 # 10))])) /\
    Forall (fun t => (TranslationCandidate.confidence t <= 9 # 10)%Q)
      [seed_candidate "AB13" None (8 # 10);
       seed_candidate "AB12" None (6 # 10)].
Proof.
  repeat (split; [reflexivity|]).
  exact (condition_gets_first_candidate (JStr "Dr. Demo") "uuid-0" JNull
           (condition_entry []) condition_resource condition_code
           [namaste_coding_sample] namaste_coding_sample
           (JStr "NAM-AY-0001")
           (seed_candidate "AB11" (Some "Fever") (9 # 10))
           [seed_candidate "AB13" None (8 # 10);
            seed_candidate "AB12" None (6 # 10)]
           (fresh_upload sample_world) (drawn sample_world)
           eq_refl eq_refl eq_refl eq_refl eq_refl eq_refl eq_refl eq_refl).
Defined.

(** C7 as stated fails: only the first coding of the local system is looked
    up.  A Condition whose first local coding has no mapping and whose second
    has three is left with the codings it had, and no mapping is counted. *)
Lemma second_local_coding_ignored :
  In namaste_coding_sample [unmapped_coding; namaste_coding_sample] /\
  py_get namaste_coding_sample "system" JNull = Ok (JStr namaste_uri) /\
  py_get namaste_coding_sample "code" JNull = Ok (JStr "NAM-AY-0001") /\
  length (match fst (translate_value "namaste" (JStr "NAM-AY-0001")
                       (drawn sample_world)) with
          | Ok candidates => candidates
          | Raise _ => []
          end) = 3%nat /\
  exists st' res',
    process_entry (JStr "Dr. Demo") "uuid-0" JNull two_codings_entry
      (fresh_upload sample_world) = (Ok tt, st') /\
    mappings_added st' = 0 /\
    resource st' = JObj res' /\
    dict_get res' "code"
      = Some (JObj [("coding", JArr [unmapped_coding; namaste_coding_sample])]).
Proof.
  split; [right; left; reflexivity|].
  split; [reflexivity|]. split; [reflexivity|]. split; [reflexivity|].
  eexists. eexists. split; [vm_compute; reflexivity|].
  cbn. repeat split.
Qed.

(** *** The loop over the entries *)

Lemma audit_resource_flushes (actor : json) (bundle_id : string)
    (consent_ref resource_type resource_id : json) (st st' : Upload)
    (r : result unit) :
  audit_resource actor bundle_id consent_ref resource_type resource_id st
    = (r, st') ->
  new_audits (db st') = [].
Proof.
  unfold audit_resource, try_except, bind, get, on_db, errors_append, modify,
    ret.
  rewrite create_audit_detail_entry. cbn [db].
  rewrite record_audit_cases. cbv zeta.
  destruct (faults (db st)) as [|[|] fs]; cbn; intros E; inversion E;
    reflexivity.
Qed.

(** X2. Every entry of a bundle whose entries can be read leaves exactly one
    trace: an audit record with action create, or a message in [errors]. The
    loop never raises, whatever the store does. *)
Lemma process_entries_traces (actor : json) (bundle_id : string)
    (consent_ref : json) (entries : list json) :
  forall st,
    forallb readable_entry entries = true ->
    new_audits (db st) = [] ->
    exists st' added,
      process_entries actor bundle_id consent_ref entries st = (Ok tt, st') /\
      audit_logs (db st') = (audit_logs (db st) ++ added)%list /\
      Forall (entry_audit_of actor bundle_id) added /\
      new_audits (db st') = [] /\
      (length added + length (errors st')
       = length (errors st) + length entries)%nat.
Proof.
  induction entries as [|entry rest IH]; intros st Hr Hn.
  - exists st, []. cbn. rewrite app_nil_r.
    repeat split; auto.
  - cbn [forallb] in Hr. apply andb_true_iff in Hr. destruct Hr as [Hr1 Hr2].
    unfold readable_entry in Hr1.
    destruct (py_get entry "resource" (JObj [])) as [[| | | |?|res]|?] eqn:Hres;
      try discriminate Hr1.
    destruct (process_entry_step actor bundle_id consent_ref entry _ _ st
                Hres eq_refl) as (d & Ed & E).
    injection Ed as <-.
    set (kind := match dict_get res "resourceType" with
                 | Some v => v
                 | None => JNull
                 end) in *.
    set (rid := resource_id_of st res) in *.
    destruct (handle_resource_spec kind rid (entered st (JObj res)))
      as (proceed & st1 & Eh & T & Herr).
    rewrite Eh in E.
    assert (Tl : audit_logs (db st1) = audit_logs (db st)
                 /\ new_audits (db st1) = new_audits (db st)).
    { unfold same_tables in T. cbn in T. intuition. }
    destruct Tl as (Tl & Tn).
    destruct proceed.
    + destruct (audit_resource_spec actor bundle_id consent_ref kind rid st1)
        as (st2 & E2 & _ & _ & _ & _ & Ha).
      pose proof (audit_resource_flushes _ _ _ _ _ _ _ _ E2) as Hf.
      rewrite E2 in E.
      destruct (IH st2 Hr2 Hf) as (st' & added & Ep & Hl & Hall & Hn' & Hlen).
      cbn in Herr. rewrite Tl, Tn, Hn, Herr in Ha.
      destruct (write_fails (db st1)); destruct Ha as [Ha1 Ha2].
      * exists st', added. cbn [process_entries]. unfold bind. rewrite E.
        split; [exact Ep|]. split; [congruence|]. split; [exact Hall|].
        split; [exact Hn'|]. rewrite Ha2, length_app in Hlen.
        cbn [length] in *. lia.
      * eexists st', (_ :: added). cbn [process_entries]. unfold bind.
        rewrite E. split; [exact Ep|].
        split; [rewrite Hl, Ha1; cbn; rewrite <- app_assoc; reflexivity|].
        split; [constructor; [|exact Hall]|].
        { repeat split. }
        split; [exact Hn'|]. rewrite Ha2 in Hlen. cbn [length] in *. lia.
    + destruct Herr as [_ [e He]]. cbn in He.
      assert (Hn1 : new_audits (db st1) = []) by congruence.
      destruct (IH st1 Hr2 Hn1) as (st' & added & Ep & Hl & Hall & Hn' & Hlen).
      exists st', added. cbn [process_entries]. unfold bind. rewrite E.
      split; [exact Ep|]. split; [congruence|]. split; [exact Hall|].
      split; [exact Hn'|]. rewrite He, length_app in Hlen.
      cbn [length] in *. lia.
Qed.

Lemma find_consent_readable (entries : list json) :
  forallb readable_entry entries = true ->
  exists consent_ref, find_consent entries = Ok consent_ref.
Proof.
  induction entries as [|entry rest IH]; cbn [forallb find_consent].
  - intros _. exists JNull. reflexivity.
  - intros H. apply andb_true_iff in H. destruct H as [H1 H2].
    unfold readable_entry in H1.
    destruct (py_get entry "resource" (JObj [])) as [[| | | |?|res]|?];
      try discriminate H1.
    cbn [and_then py_get].
    destruct (is_str _ "Consent"); [eexists; reflexivity | apply IH, H2].
Qed.

(** The best-effort audit of the error handler never raises. *)
Lemma swallow_total (m : M Upload unit) (st : Upload) :
  exists st', try_except m (fun _ => ret tt) st = (Ok tt, st').
Proof.
  unfold try_except. destruct (m st) as [[[]|e] st']; eexists; reflexivity.
Qed.

(** The loop over entries that can be read never raises. *)
Lemma process_entries_total (actor : json) (bundle_id : string)
    (consent_ref : json) (entries : list json) :
  forallb readable_entry entries = true ->
  forall st, exists st',
    process_entries actor bundle_id consent_ref entries st = (Ok tt, st').
Proof.
  induction entries as [|entry rest IH]; intros Hr st.
  - exists st. reflexivity.
  - cbn [forallb] in Hr. apply andb_true_iff in Hr. destruct Hr as [Hr1 Hr2].
    unfold readable_entry in Hr1.
    destruct (py_get entry "resource" (JObj [])) as [[| | | |?|res]|?] eqn:Hres;
      try discriminate Hr1.
    destruct (process_entry_step actor bundle_id consent_ref entry _ _ st
                Hres eq_refl) as (d & Ed & E).
    destruct (handle_resource_spec
                (match dict_get res "resourceType" with
                 | Some v => v
                 | None => JNull
                 end) (resource_id_of st d) (entered st (JObj res)))
      as (proceed & st1 & Eh & _).
    rewrite Eh in E. cbn [process_entries]. unfold bind.
    destruct proceed.
    + destruct (audit_resource_spec actor bundle_id consent_ref
                  (match dict_get res "resourceType" with
                   | Some v => v
                   | None => JNull
                   end) (resource_id_of st d) st1) as (st2 & E2 & _).
      rewrite E2 in E. rewrite E. apply IH, Hr2.
    + rewrite E. apply IH, Hr2.
Qed.

(** [process_bundle] once the loop over the entries has completed. *)
Lemma process_bundle_outcome (actor : json) (bundle_id : string)
    (bundle : dict) (entries : list json) (consent_ref : json)
    (st0 st' : Upload) :
  is_str (bundle_get bundle "resourceType" JNull) "Bundle" = true ->
  py_iter (bundle_get bundle "entry" (JArr [])) = Ok entries ->
  find_consent entries = Ok consent_ref ->
  process_entries actor bundle_id consent_ref entries st0 = (Ok tt, st') ->
  exists st'' audit_id,
    process_bundle actor bundle_id bundle st0 =
    (if write_fails (db st')
     then Raise (Exception "OperationalError" "database error")
     else Ok (BundleUploadResponse.make true "Bundle processed successfully"
                (created_resources st'
                 ++ ["Provenance/" ++ uuid_str (uuids (db st'))])
                (Some (uuid_str (uuids (db st'))))
                (Some audit_id) (mappings_added st') (errors st')),
     st'').
Proof.
  intros Henv Hiter Hc Hloop. unfold process_bundle. rewrite Henv.
  cbn [negb].
  erewrite bind_ok by (unfold lift; rewrite Hiter; reflexivity).
  erewrite bind_ok by (unfold lift; rewrite Hc; reflexivity).
  erewrite bind_ok by exact Hloop.
  erewrite bind_ok by reflexivity.
  erewrite bind_ok by reflexivity.
  erewrite bind_ok by reflexivity.
  erewrite bind_ok by reflexivity.
  unfold write_fails.
  match goal with
  | |- context [bind (on_db (record_audit ?a ?b ?c ?d ?e)) ?k ?s] =>
      pose proof (record_audit_cases a b c d e (db s)) as Hr;
      set (s7 := s) in *; set (detail := e) in *
  end.
  cbv zeta in Hr.
  assert (F : faults (db s7) = faults (db st')) by reflexivity.
  rewrite F in Hr. clear F.
  destruct (faults (db st')) as [|[|] fs].
  - erewrite bind_ok by (unfold on_db; rewrite Hr; reflexivity).
    eexists. eexists. cbn. reflexivity.
  - erewrite bind_raise by (unfold on_db; rewrite Hr; reflexivity).
    eexists. exists "". reflexivity.
  - erewrite bind_ok by (unfold on_db; rewrite Hr; reflexivity).
    eexists. eexists. cbn. reflexivity.
Qed.

(** X3. The outcome of [upload_bundle] for an authenticated actor and a bundle
    whose envelope is valid and whose entries can be read: the loop over the
    entries completes whatever the store does; the call then succeeds,
    returning the errors collected, when the summary audit record can be
    written, and ends in a server error when it cannot. *)
Theorem upload_bundle_outcome (introspect : option (string -> result json))
    (bundle : dict) (authorization : option string) (actor : json)
    (entries : list json) (w : World) :
  verify_abha_token introspect (extract_token_from_header authorization)
    = Ok actor ->
  is_str (bundle_get bundle "resourceType" JNull) "Bundle" = true ->
  py_iter (bundle_get bundle "entry" (JArr [])) = Ok entries ->
  forallb readable_entry entries = true ->
  exists consent_ref st',
    find_consent entries = Ok consent_ref /\
    process_entries actor (uuid_str (uuids w)) consent_ref entries
      (fresh_upload (drawn w)) = (Ok tt, st') /\
    if write_fails (db st') then
      fst (upload_bundle introspect bundle authorization w)
      = Raise (HTTPException 500 "Error processing bundle: database error")
    else
      exists response,
        fst (upload_bundle introspect bundle authorization w) = Ok response /\
        BundleUploadResponse.success response = true /\
        BundleUploadResponse.errors response = errors st' /\
        BundleUploadResponse.mappings_added response = mappings_added st'.
Proof.
  intros Hauth Henv Hiter Hread.
  destruct (find_consent_readable entries Hread) as [consent_ref Hc].
  destruct (process_entries_total actor (uuid_str (uuids w)) consent_ref
              entries Hread (fresh_upload (drawn w))) as [st' Hloop].
  exists consent_ref, st'. split; [exact Hc|]. split; [exact Hloop|].
  destruct (process_bundle_outcome actor (uuid_str (uuids w)) bundle entries
              consent_ref _ _ Henv Hiter Hc Hloop) as (st'' & audit_id & Hb).
  assert (Hcall : upload_bundle introspect bundle authorization w =
                  let (r, st) :=
                    try_except
                      (process_bundle actor (uuid_str (uuids w)) bundle)
                      (on_failure (Some actor) (uuid_str (uuids w)))
                      (fresh_upload (drawn w)) in
                  (r, db st)).
  { unfold upload_bundle, upload_bundle_call.
    erewrite bind_ok by reflexivity. rewrite Hauth. reflexivity. }
  rewrite Hcall. unfold try_except. rewrite Hb.
  destruct (write_fails (db st')).
  - unfold on_failure.
    match goal with
    | |- context [try_except ?m (fun _ => ret tt)] =>
        destruct (swallow_total m st'') as [s' Es]
    end.
    erewrite bind_ok by exact Es. reflexivity.
  - eexists. split; [reflexivity|]. cbn. repeat split.
Qed.

(** C3, the summary record.  A valid bundle without entries, sent with the
    development token to a store whose next write fails: the write of the
    summary audit record raises, and the call ends in a server error instead
    of a success that reports the failure. *)
Theorem summary_audit_failure_aborts :
  fst (upload_bundle None (bundle_of []) (Some "Bearer test")
         (failing_world [true]))
  = Raise (HTTPException 500 "Error processing bundle: database error").
Proof. vm_compute. reflexivity. Qed.

(** The failure of the audit record of an entry, by contrast, is reported in
    [errors] of a successful answer. *)
Example entry_audit_failure_is_reported :
  fst (upload_bundle None (bundle_of [consent_entry]) (Some "Bearer test")
         (failing_world [true]))
  = Ok (BundleUploadResponse.make true "Bundle processed successfully"
          ["Provenance/uuid-2"] (Some "uuid-2") (Some "1") 0
          ["Error recording audit for Consent/consent-001: database error"]).
Proof. vm_compute. reflexivity. Qed.

(* ------------------------------------------------------------------ *)
(** ** Seeding the default mappings *)
(* ------------------------------------------------------------------ *)

Lemma key_of_self (m : Mapping.t) : key_of m m = true.
Proof. unfold key_of, same_key. rewrite !String.eqb_refl. reflexivity. Qed.

Lemma existsb_filter_nil {A : Type} (p : A -> bool) (l : list A) :
  existsb p l = false <-> filter p l = [].
Proof.
  induction l as [|x l IH]; cbn; [tauto|].
  destruct (p x); cbn; [split; discriminate | exact IH].
Qed.

Lemma row_of_data (m : Mapping.t) :
  Mapping.make (Mapping.source_system m) (Mapping.source_code m)
    (Mapping.target_system m) (Mapping.target_code m) (Mapping.equivalence m)
    (Mapping.confidence m) (Mapping.method m) (Mapping.evidence m)
    (Mapping.curator m) = m.
Proof. destruct m. reflexivity. Qed.

(** One call of [add_mapping] in a session without pending rows: it never
    raises; it appends the row exactly when it answers true; on a healthy
    store the key is present afterwards, and a key that was present is
    answered false. *)
Lemma add_mapping_data_step (m : Mapping.t) (w : World) :
  exists b w',
    add_mapping_data m w = (Ok b, w') /\
    concepts w' = concepts w /\
    (new_mappings w = [] ->
     new_mappings w' = [] /\
     mappings w' = (if b then mappings w ++ [m] else mappings w)%list /\
     (faults w = [] ->
      faults w' = [] /\
      existsb (key_of m) (mappings w') = true /\
      (existsb (key_of m) (mappings w) = true -> b = false))).
Proof.
  unfold add_mapping_data. rewrite add_mapping_unfold. rewrite row_of_data.
  fold (key_of m).
  unfold select_mappings, commit, bind, db_op, get, ret, modify.
  destruct (faults w) as [|[|] fs] eqn:F; cbn.
  - destruct (filter (key_of m) (mappings w ++ new_mappings w))
      as [|x [|y ys]] eqn:N; cbn; rewrite ?F; cbn.
    + exists true. eexists. split; [reflexivity|]. split; [reflexivity|].
      intros P. cbn. rewrite P in *. rewrite app_nil_r in N.
      split; [reflexivity|]. split; [reflexivity|]. intros _.
      split; [exact F|]. split.
      * rewrite existsb_app. cbn. rewrite key_of_self.
        rewrite orb_true_r. reflexivity.
      * apply existsb_filter_nil in N. congruence.
    + exists false. eexists. split; [reflexivity|]. split; [reflexivity|].
      intros P. rewrite P in *. rewrite app_nil_r in N.
      split; [reflexivity|]. split; [reflexivity|]. intros _.
      split; [exact F|]. split; [|reflexivity].
      destruct (existsb (key_of m) (mappings w)) eqn:E; [reflexivity|].
      apply existsb_filter_nil in E. congruence.
    + exists false. eexists. split; [reflexivity|]. split; [reflexivity|].
      intros P. rewrite P in *. rewrite app_nil_r in N. cbn.
      split; [reflexivity|]. split; [reflexivity|]. intros _.
      split; [exact F|]. split; [|reflexivity].
      destruct (existsb (key_of m) (mappings w)) eqn:E; [reflexivity|].
      apply existsb_filter_nil in E. congruence.
  - exists false. eexists. split; [reflexivity|]. split; [reflexivity|].
    intros P. cbn. split; [reflexivity|]. split; [reflexivity|].
    discriminate.
  - destruct (filter (key_of m) (mappings w ++ new_mappings w))
      as [|x [|y ys]] eqn:N; cbn.
    + destruct fs as [|[|] fs']; cbn;
        (eexists; eexists; split; [reflexivity|]; split; [reflexivity|]);
        intros P; cbn; rewrite ?P, ?app_nil_r;
        (split; [reflexivity|]); (split; [reflexivity|]); discriminate.
    + exists false. eexists. split; [reflexivity|]. split; [reflexivity|].
      intros P. cbn. split; [exact P|]. split; [reflexivity|]. discriminate.
    + exists false. eexists. split; [reflexivity|]. split; [reflexivity|].
      intros P. cbn. split; [reflexivity|]. split; [reflexivity|].
      discriminate.
Qed.

Lemma existsb_app_l {A : Type} (p : A -> bool) (l l' : list A) :
  existsb p l = true -> existsb p (l ++ l') = true.
Proof. intros H. rewrite existsb_app, H. reflexivity. Qed.

(** The loop of the seeding: it never raises and counts every row once; in
    a session without pending rows the rows it adds are rows of the data, as
    many as it counts. *)
Lemma seed_loop_spec (data : list Mapping.t) :
  forall (a s : Z) (w : World),
  exists a' s' w',
    seed_loop data a s w = (Ok (a', s'), w') /\
    a <= a' /\ s <= s' /\
    (a' - a) + (s' - s) = Z.of_nat (length data) /\
    concepts w' = concepts w /\
    (new_mappings w = [] ->
     new_mappings w' = [] /\
     exists rows,
       mappings w' = (mappings w ++ rows)%list /\
       Z.of_nat (length rows) = a' - a /\
       incl rows data /\
       (faults w = [] ->
        faults w' = [] /\
        Forall (fun m => existsb (key_of m) (mappings w') = true) data /\
        (Forall (fun m => existsb (key_of m) (mappings w) = true) data ->
         rows = []))).
Proof.
  induction data as [|m data IH]; intros a s w.
  - exists a, s, w. split; [reflexivity|].
    split; [lia|]. split; [lia|]. split; [cbn; lia|]. split; [reflexivity|].
    intros P. split; [exact P|]. exists []. rewrite app_nil_r.
    split; [reflexivity|]. split; [cbn; lia|]. split; [apply incl_nil_l|].
    intros F. split; [exact F|]. split; [constructor | reflexivity].
  - destruct (add_mapping_data_step m w) as (b & w1 & E & C1 & H1).
    cbn [seed_loop]. unfold bind. rewrite E.
    destruct (IH (if b then a + 1 else a) (if b then s else s + 1) w1)
      as (a' & s' & w' & E' & La & Ls & Hsum & C2 & H2).
    exists a', s', w'.
    split; [destruct b; exact E'|].
    split; [destruct b; lia|]. split; [destruct b; lia|].
    split; [cbn [length]; destruct b; lia|].
    split; [congruence|].
    intros P. destruct (H1 P) as (P1 & M1 & K1).
    destruct (H2 P1) as (P' & rows & M' & Hlen & Hincl & K2).
    split; [exact P'|].
    exists ((if b then [m] else []) ++ rows)%list.
    split; [rewrite M', M1; destruct b; rewrite <- ?app_assoc; reflexivity|].
    split; [rewrite length_app; destruct b; cbn [length]; lia|].
    split.
    { intros x Hx. apply in_app_or in Hx. destruct Hx as [Hx|Hx].
      - destruct b; [|contradiction]. destruct Hx as [<-|[]]. left. reflexivity.
      - right. apply Hincl, Hx. }
    intros F. destruct (K1 F) as (F1 & Km & Kb).
    destruct (K2 F1) as (F' & Kall & Knone).
    split; [exact F'|]. split.
    + constructor; [|exact Kall]. rewrite M'. apply existsb_app_l, Km.
    + intros Hall. apply Forall_cons_iff in Hall. destruct Hall as [Hm Hall].
      rewrite (Kb Hm) in *. cbn [app]. apply Knone.
      rewrite M1. exact Hall.
Qed.

(** X4. [seed_default_mappings] never raises, whatever the store does: each of
    the five default rows is counted once, as added or as skipped, and the
    total reported is 5. *)
Theorem seed_default_mappings_counts (w : World) :
  exists added skipped w',
    seed_default_mappings w = (Ok (seed_report added skipped), w') /\
    0 <= added /\ 0 <= skipped /\ added + skipped = 5.
Proof.
  destruct (seed_loop_spec default_mappings 0 0 w)
    as (a & s & w' & E & La & Ls & Hsum & _).
  exists a, s, w'. unfold seed_default_mappings, seed_mappings, bind.
  rewrite E. split; [reflexivity|]. cbn in Hsum. lia.
Qed.

(** X5. In a session without pending rows, [seed_default_mappings] only
    appends to the mapping table, the rows it appends are default rows, and
    there are exactly as many of them as it reports as added (also when the
    store fails on the way); the concepts are not touched. *)
Theorem seed_default_mappings_appends (w : World) :
  new_mappings w = [] ->
  exists added skipped w' rows,
    seed_default_mappings w = (Ok (seed_report added skipped), w') /\
    mappings w' = (mappings w ++ rows)%list /\
    Z.of_nat (length rows) = added /\
    incl rows default_mappings /\
    new_mappings w' = [] /\
    concepts w' = concepts w.
Proof.
  intros P.
  destruct (seed_loop_spec default_mappings 0 0 w)
    as (a & s & w' & E & La & Ls & Hsum & C & H).
  destruct (H P) as (P' & rows & M & Hlen & Hincl & _).
  exists a, s, w', rows. unfold seed_default_mappings, seed_mappings, bind.
  rewrite E. split; [reflexivity|].
  split; [exact M|]. split; [lia|]. auto.
Qed.

Lemma seed_default_mappings_appends_witness :
  new_mappings (failing_world [false; false; false; true]) = [] /\
  exists added skipped w' rows,
    seed_default_mappings (failing_world [false; false; false; true])
      = (Ok (seed_report added skipped), w') /\
    mappings w'
      = (mappings (failing_world [false; false; false; true]) ++ rows)%list /\
    Z.of_nat (length rows) = added /\
    incl rows default_mappings /\
    new_mappings w' = [] /\
    concepts w' = concepts (failing_world [false; false; false; true]).
Proof.
  split; [reflexivity|].
  exact (seed_default_mappings_appends
           (failing_world [false; false; false; true]) eq_refl).
Defined.

(** X6. Seeding is idempotent: on a healthy store, in a session without
    pending rows, a first run leaves every default key in the mapping table,
    and a second run adds nothing, skips all five rows and leaves the mapping
    table as the first run left it. *)
Theorem seed_default_mappings_idempotent (w : World) :
  faults w = [] ->
  new_mappings w = [] ->
  let first := seed_default_mappings w in
  let second := seed_default_mappings (snd first) in
  Forall (fun m => existsb (key_of m) (mappings (snd first)) = true)
    default_mappings /\
  fst second = Ok (seed_report 0 5) /\
  mappings (snd second) = mappings (snd first).
Proof.
  intros F P. cbv zeta.
  destruct (seed_loop_spec default_mappings 0 0 w)
    as (a & s & w1 & E & _ & _ & _ & _ & H).
  destruct (H P) as (P1 & rows & _ & _ & _ & K).
  destruct (K F) as (F1 & Kall & _).
  assert (E1 : seed_default_mappings w = (Ok (seed_report a s), w1)).
  { unfold seed_default_mappings, seed_mappings, bind. rewrite E.
    reflexivity. }
  rewrite E1. cbn [fst snd].
  destruct (seed_loop_spec default_mappings 0 0 w1)
    as (a2 & s2 & w2 & E2 & La & Ls & Hsum & _ & H2).
  destruct (H2 P1) as (P2 & rows2 & M2 & Hlen & _ & K2).
  destruct (K2 F1) as (_ & _ & Knone).
  rewrite (Knone Kall) in *. cbn in Hlen, Hsum. rewrite app_nil_r in M2.
  assert (a2 = 0) by lia. assert (s2 = 5) by lia. subst a2 s2.
  unfold seed_default_mappings at 1 2, seed_mappings, bind. rewrite E2.
  cbn [fst snd]. auto.
Qed.

Lemma seed_default_mappings_idempotent_witness :
  faults sample_world = [] /\
  new_mappings sample_world = [] /\
  let first := seed_default_mappings sample_world in
  let second := seed_default_mappings (snd first) in
  Forall (fun m => existsb (key_of m) (mappings (snd first)) = true)
    default_mappings /\
  fst second = Ok (seed_report 0 5) /\
  mappings (snd second) = mappings (snd first).
Proof.
  split; [reflexivity|]. split; [reflexivity|].
  exact (seed_default_mappings_idempotent sample_world eq_refl eq_refl).
Defined.

(** On the sample store, which holds the first default key, the first run
    adds the four others. *)
Example seed_default_mappings_sample :
  fst (seed_default_mappings sample_world) = Ok (seed_report 4 1).
Proof. reflexivity. Qed.

(* ------------------------------------------------------------------ *)
(** ** Listing and counting the mappings *)
(* ------------------------------------------------------------------ *)

(** A statement either fails or sees the rows of the session; the tables
    stay as they are. *)
Lemma select_mappings_cases (p : Mapping.t -> bool) (w : World) :
  (exists e w', select_mappings p w = (Raise e, w') /\ same_tables w w') \/
  (exists w', select_mappings p w = (Ok (filter p (stored_mappings w)), w') /\
              same_tables w w' /\ stored_mappings w' = stored_mappings w).
Proof.
  unfold select_mappings, bind, db_op, get, ret, stored_mappings.
  destruct (faults w) as [|[|] fs]; cbn.
  - right. eexists. split; [reflexivity|].
    split; [apply same_tables_refl|reflexivity].
  - left. eexists. eexists. split; [reflexivity|].
    unfold same_tables. cbn. repeat split; reflexivity.
  - right. eexists. split; [reflexivity|].
    split; [unfold same_tables; cbn; repeat split; reflexivity|reflexivity].
Qed.

Lemma firstn_filter_all {A : Type} (p : A -> bool) (l : list A) (n : nat) :
  (length l <= n)%nat -> firstn n (filter p l) = filter p l.
Proof.
  intros H. apply firstn_all2.
  eapply Nat.le_trans; [apply filter_length_le | exact H].
Qed.

Lemma in_firstn {A : Type} (x : A) (n : nat) (l : list A) :
  In x (firstn n l) -> In x l.
Proof.
  intros H. rewrite <- (firstn_skipn n l). apply in_or_app. left. exact H.
Qed.

(** X7. When [get_mappings] returns, its rows are rows the session holds
    that pass the two filters, in table order, and the tables are as they
    were.  For a [limit] that is not negative they are the first [limit] of
    the matching rows, at most [limit] of them, and all of them when [limit]
    is at least the number of rows held.  For a negative [limit], which
    [GET /mappings] lets through, they are all the matching rows: nothing is
    limited.  A filter that is [None] or the empty string lets every row
    through. *)
Theorem get_mappings_rows (source_system target_system : option string)
    (limit : Z) (w w' : World) (rows : list Mapping.t) :
  get_mappings source_system target_system limit w = (Ok rows, w') ->
  (0 <= limit ->
   rows = firstn (Z.to_nat limit)
            (filter (mapping_filters source_system target_system)
               (stored_mappings w)) /\
   Z.of_nat (length rows) <= limit) /\
  (limit < 0 ->
   rows = filter (mapping_filters source_system target_system)
            (stored_mappings w)) /\
  Forall (fun m =>
            In m (stored_mappings w) /\
            (system_given source_system = true ->
             source_system = Some (Mapping.source_system m)) /\
            (system_given target_system = true ->
             target_system = Some (Mapping.target_system m))) rows /\
  (system_given source_system = false ->
   system_given target_system = false ->
   rows = sql_limit limit (stored_mappings w)) /\
  (Z.of_nat (length (stored_mappings w)) <= limit ->
   rows = filter (mapping_filters source_system target_system)
            (stored_mappings w)) /\
  same_tables w w'.
Proof.
  intros E. unfold get_mappings, bind in E.
  destruct (select_mappings_cases
              (mapping_filters source_system target_system) w)
    as [(e & w1 & E1 & _)|(w1 & E1 & T & _)]; rewrite E1 in E;
    [discriminate|].
  inversion E; subst. clear E. unfold sql_limit.
  split; [|split; [|split; [|split; [|split; [|exact T]]]]].
  - intros L. destruct (Z.ltb_spec limit 0) as [N|_]; [lia|].
    split; [reflexivity|].
    pose proof (firstn_le_length (Z.to_nat limit)
                  (filter (mapping_filters source_system target_system)
                     (stored_mappings w))). lia.
  - intros L. destruct (Z.ltb_spec limit 0) as [_|N]; [reflexivity | lia].
  - apply Forall_forall. intros m Hm.
    assert (Hm' : In m (filter (mapping_filters source_system target_system)
                          (stored_mappings w))).
    { destruct (limit <? 0); [exact Hm | eapply in_firstn, Hm]. }
    apply filter_In in Hm'. destruct Hm' as [Hin Hf].
    unfold mapping_filters in Hf. apply andb_true_iff in Hf.
    destruct Hf as [Hs Ht]. split; [exact Hin|]. split; intros G.
    + rewrite G in Hs. destruct source_system as [s|]; [|discriminate].
      cbn in Hs. apply String.eqb_eq in Hs. congruence.
    + rewrite G in Ht. destruct target_system as [s|]; [|discriminate].
      cbn in Ht. apply String.eqb_eq in Ht. congruence.
  - intros Gs Gt.
    assert (X : filter (mapping_filters source_system target_system)
                  (stored_mappings w) = stored_mappings w).
    { unfold mapping_filters. rewrite Gs, Gt.
      clear. induction (stored_mappings w) as [|m l IH];
        [reflexivity | cbn; f_equal; exact IH]. }
    rewrite X. reflexivity.
  - intros L. destruct (Z.ltb_spec limit 0) as [N|_]; [lia|].
    apply firstn_filter_all. lia.
Qed.

Lemma get_mappings_rows_witness :
  get_mappings (Some "namaste") (Some "") 2 sample_world
    = (Ok [seed_mapping "AB11" (9 # 10); seed_mapping "AB12" (6 # 10)],
       sample_world) /\
  [seed_mapping "AB11" (9 # 10); seed_mapping "AB12" (6 # 10)]
  = firstn (Z.to_nat 2)
      (filter (mapping_filters (Some "namaste") (Some ""))
         (stored_mappings sample_world)) /\
  Z.of_nat (length [seed_mapping "AB11" (9 # 10);
                    seed_mapping "AB12" (6 # 10)]) <= 2 /\
  get_mappings (Some "namaste") (Some "") (-1) sample_world
    = (Ok (mappings sample_world), sample_world) /\
  mappings sample_world
  = filter (mapping_filters (Some "namaste") (Some ""))
      (stored_mappings sample_world).
Proof.
  assert (P : 0 <= 2) by (intros H; discriminate H).
  split; [reflexivity|].
  split;
    [exact (proj1 (proj1 (get_mappings_rows (Some "namaste") (Some "") 2
                            sample_world sample_world _ eq_refl) P))|].
  split;
    [exact (proj2 (proj1 (get_mappings_rows (Some "namaste") (Some "") 2
                            sample_world sample_world _ eq_refl) P))|].
  split; [reflexivity|].
  exact (proj1 (proj2 (get_mappings_rows (Some "namaste") (Some "") (-1)
                         sample_world sample_world _ eq_refl)) eq_refl).
Defined.

Lemma counts_get_incr (stats : list (string * Z)) (k k' : string) :
  counts_get (count_incr stats k) k' =
  if String.eqb k k' then counts_get stats k' + 1 else counts_get stats k'.
Proof.
  induction stats as [|[k0 n] stats IH]; cbn.
  - destruct (String.eqb k k'); reflexivity.
  - destruct (String.eqb k0 k) eqn:E0; cbn.
    + apply String.eqb_eq in E0. subst k0.
      destruct (String.eqb k k'); reflexivity.
    + rewrite IH. destruct (String.eqb k0 k') eqn:E1; [|reflexivity].
      apply String.eqb_eq in E1. subst k0. rewrite String.eqb_sym, E0.
      reflexivity.
Qed.

Lemma counts_total_incr (stats : list (string * Z)) (k : string) :
  counts_total (count_incr stats k) = counts_total stats + 1.
Proof.
  induction stats as [|[k0 n] stats IH]; cbn; [lia|].
  destruct (String.eqb k0 k); cbn; [lia|]. unfold counts_total in IH.
  rewrite IH. lia.
Qed.

(** The histogram built by the counting loop. *)
Lemma count_loop_spec (ks : list string) :
  forall stats,
    counts_total (fold_left count_incr ks stats)
    = counts_total stats + Z.of_nat (length ks) /\
    forall k,
      counts_get (fold_left count_incr ks stats) k
      = counts_get stats k
        + Z.of_nat (length (filter (fun k' => String.eqb k' k) ks)).
Proof.
  induction ks as [|k0 ks IH]; intros stats; cbn [fold_left length filter].
  - split; [lia|]. intros k. cbn. lia.
  - destruct (IH (count_incr stats k0)) as [T G]. split.
    + rewrite T, counts_total_incr. lia.
    + intros k. rewrite G, counts_get_incr.
      destruct (String.eqb k0 k); cbn [length]; lia.
Qed.

Lemma filter_map_length {A B : Type} (f : A -> B) (p : B -> bool)
    (l : list A) :
  length (filter p (map f l)) = length (filter (fun x => p (f x)) l).
Proof.
  induction l as [|x l IH]; cbn; [reflexivity|].
  destruct (p (f x)); cbn; rewrite IH; reflexivity.
Qed.

(** X8. When [get_mapping_statistics] returns, the total is the number of
    mappings the session holds, the two system counts are at most the total,
    the equivalence distribution gives for every equivalence the number of
    mappings that carry it, so that its counters add up to the total, and the
    average confidence is reported as 0 whatever the confidences are. *)
Theorem mapping_statistics_consistent (w w' : World) (stats : dict) :
  get_mapping_statistics w = (Ok stats, w') ->
  let total := Z.of_nat (length (stored_mappings w)) in
  exists namaste icd11 distribution,
    stats = [("total_mappings", JNum total);
             ("namaste_source_mappings", JNum namaste);
             ("icd11_target_mappings", JNum icd11);
             ("equivalence_distribution", counters distribution);
             ("average_confidence", JNum 0)] /\
    0 <= namaste <= total /\ 0 <= icd11 <= total /\
    counts_total distribution = total /\
    (forall e,
       counts_get distribution e
       = Z.of_nat (length (filter (has_equivalence e) (stored_mappings w)))) /\
    same_tables w w'.
Proof.
  intros E. cbv zeta. unfold get_mapping_statistics in E.
  unfold bind at 1 in E.
  destruct (select_mappings_cases (fun _ => true) w)
    as [(e & w1 & E1 & _)|(w1 & E1 & T1 & S1)]; rewrite E1 in E;
    [discriminate|].
  unfold bind at 1 in E.
  destruct (select_mappings_cases
              (fun m => String.eqb (Mapping.source_system m) "namaste") w1)
    as [(e & w2 & E2 & _)|(w2 & E2 & T2 & S2)]; rewrite E2 in E;
    [discriminate|].
  unfold bind at 1 in E.
  destruct (select_mappings_cases
              (fun m => String.eqb (Mapping.target_system m) "icd11") w2)
    as [(e & w3 & E3 & _)|(w3 & E3 & T3 & S3)]; rewrite E3 in E;
    [discriminate|].
  unfold bind at 1 in E.
  destruct (select_mappings_cases (fun _ => true) w3)
    as [(e & w4 & E4 & _)|(w4 & E4 & T4 & S4)]; rewrite E4 in E;
    [discriminate|].
  unfold ret in E. inversion E; subst. clear E.
  rewrite S3, S2, S1.
  assert (A : forall l : list Mapping.t, filter (fun _ => true) l = l).
  { induction l as [|m l IH]; [reflexivity | cbn; f_equal; exact IH]. }
  rewrite !A.
  destruct (count_loop_spec (map Mapping.equivalence (stored_mappings w)) [])
    as [Ht Hg].
  eexists. eexists. eexists. split; [reflexivity|].
  split; [split; [lia | apply inj_le, filter_length_le]|].
  split; [split; [lia | apply inj_le, filter_length_le]|].
  split; [rewrite Ht, length_map; cbn; lia|].
  split.
  - intros e. rewrite Hg. cbn [counts_get]. rewrite filter_map_length.
    reflexivity.
  - eapply same_tables_trans; [exact T1|].
    eapply same_tables_trans; [exact T2|].
    eapply same_tables_trans; [exact T3|exact T4].
Qed.

Lemma mapping_statistics_consistent_witness :
  get_mapping_statistics sample_world
    = (Ok [("total_mappings", JNum 3);
           ("namaste_source_mappings", JNum 3);
           ("icd11_target_mappings", JNum 3);
           ("equivalence_distribution", counters [("relatedto", 3)]);
           ("average_confidence", JNum 0)], sample_world) /\
  exists namaste icd11 distribution,
    [("total_mappings", JNum 3);
     ("namaste_source_mappings", JNum 3);
     ("icd11_target_mappings", JNum 3);
     ("equivalence_distribution", counters [("relatedto", 3)]);
     ("average_confidence", JNum 0)]
    = [("total_mappings",
        JNum (Z.of_nat (length (stored_mappings sample_world))));
       ("namaste_source_mappings", JNum namaste);
       ("icd11_target_mappings", JNum icd11);
       ("equivalence_distribution", counters distribution);
       ("average_confidence", JNum 0)] /\
    0 <= namaste <= Z.of_nat (length (stored_mappings sample_world)) /\
    0 <= icd11 <= Z.of_nat (length (stored_mappings sample_world)) /\
    counts_total distribution
    = Z.of_nat (length (stored_mappings sample_world)) /\
    (forall e,
       counts_get distribution e
       = Z.of_nat (length (filter (has_equivalence e)
                             (stored_mappings sample_world)))) /\
    same_tables sample_world sample_world.
Proof.
  split; [reflexivity|].
  exact (mapping_statistics_consistent sample_world sample_world _ eq_refl).
Defined.

(* ------------------------------------------------------------------ *)
(** ** The code system of the local terminology *)
(* ------------------------------------------------------------------ *)

Lemma firstn_add {A : Type} (a b : nat) :
  forall l : list A,
    firstn (a + b) l = (firstn a l ++ firstn b (skipn a l))%list.
Proof.
  induction a as [|a IH]; intros l; [reflexivity|].
  destruct l as [|x l]; cbn [Nat.add firstn skipn app].
  - rewrite firstn_nil. reflexivity.
  - rewrite IH. reflexivity.
Qed.

(** Pages of size [s], numbered from 1, laid end to end. *)
Lemma pages_concat {A : Type} (l : list A) (s n : nat) :
  concat (map (fun page => firstn s (skipn ((page - 1) * s) l)) (seq 1 n))
  = firstn (n * s) l.
Proof.
  induction n as [|n IH]; [reflexivity|].
  rewrite seq_S, map_app, concat_app, IH. cbn [map concat Nat.add].
  rewrite app_nil_r.
  replace (S n - 1)%nat with n by lia.
  replace (S n * s)%nat with (n * s + s)%nat by lia.
  rewrite firstn_add. reflexivity.
Qed.

Lemma get_codesystem_healthy (page page_size : nat) (w : World) :
  faults w = [] ->
  codesystem_concepts (get_codesystem page page_size w)
  = map fhir_concept_of
      (firstn page_size
         (skipn ((page - 1) * page_size) (namaste_concepts w))).
Proof.
  intros F. unfold get_codesystem, select_concepts_page, bind.
  rewrite (db_op_healthy w F). reflexivity.
Qed.

(** X9. The pages of [get_codesystem] partition the concepts of the local
    system: on a healthy store every page holds at most [page_size] concepts,
    the pages 1 to [n] laid end to end are the first [n * page_size] concepts
    of the local system in table order, each in its FHIR form, and once [n *
    page_size] reaches their number no concept is missing or repeated. *)
Theorem codesystem_pages_partition (w : World) (page_size n : nat) :
  faults w = [] ->
  (forall page,
     (length (codesystem_concepts (get_codesystem page page_size w))
      <= page_size)%nat) /\
  concat (map (fun page =>
                 codesystem_concepts (get_codesystem page page_size w))
            (seq 1 n))
  = map fhir_concept_of (firstn (n * page_size) (namaste_concepts w)) /\
  ((length (namaste_concepts w) <= n * page_size)%nat ->
   concat (map (fun page =>
                  codesystem_concepts (get_codesystem page page_size w))
             (seq 1 n))
   = map fhir_concept_of (namaste_concepts w)).
Proof.
  intros F.
  assert (P : concat (map (fun page =>
                 codesystem_concepts (get_codesystem page page_size w))
            (seq 1 n))
          = map fhir_concept_of (firstn (n * page_size) (namaste_concepts w))).
  { rewrite <- pages_concat, concat_map, map_map. f_equal.
    apply map_ext. intros page. apply get_codesystem_healthy, F. }
  split; [|split; [exact P|]].
  - intros page. rewrite (get_codesystem_healthy _ _ _ F), length_map.
    apply firstn_le_length.
  - intros L. rewrite P, firstn_all2 by exact L. reflexivity.
Qed.

Lemma codesystem_pages_partition_witness :
  faults crowded_world = [] /\
  concat (map (fun page => codesystem_concepts (get_codesystem page 1
                                                  crowded_world))
            (seq 1 2))
  = map fhir_concept_of (namaste_concepts crowded_world).
Proof.
  split; [reflexivity|].
  exact (proj2 (proj2 (codesystem_pages_partition crowded_world 1 2 eq_refl))
           (le_n 2)).
Defined.

(** The FHIR form of the sample concept, with its two designations. *)
Example fhir_concept_of_jwara :
  fhir_concept_of jwara =
  JObj [("code", JStr "NAM-AY-0001"); ("display", JStr "Jwara");
        ("definition", JStr "Fever in traditional medicine");
        ("designation",
         JArr [JObj [("language", JStr "sa"); ("value", JStr "Jwara")];
               JObj [("language", JStr "en"); ("value", JStr "Fever")]])].
Proof. reflexivity. Qed.

(** [GET /CodeSystem/namaste] never answers 404: its "not found" branch is out
    of reach. The call returns a CodeSystem resource named [namaste], with an
    empty concept list when the page is past the end, or it fails with status
    500 when the store does. *)
Theorem codesystem_route_never_404 (page page_size : nat) (w : World) :
  match fst (get_namaste_codesystem page page_size w) with
  | Ok d =>
      dict_get d "resourceType" = Some (JStr "CodeSystem") /\
      dict_get d "id" = Some (JStr "namaste") /\
      exists cs, dict_get d "concept" = Some (JArr cs) /\
                 (length cs <= page_size)%nat
  | Raise e =>
      e = HTTPException 500
            "Error retrieving NAMASTE CodeSystem: database error" /\
      exists fs, faults w = true :: fs
  end.
Proof.
  unfold get_namaste_codesystem, try_except, get_codesystem,
    select_concepts_page, bind, db_op, get, ret.
  destruct (faults w) as [|[|] fs]; cbn.
  - repeat split. eexists. split; [reflexivity|].
    rewrite length_map. apply firstn_le_length.
  - split; [reflexivity|]. eexists. reflexivity.
  - repeat split. eexists. split; [reflexivity|].
    rewrite length_map. apply firstn_le_length.
Qed.

Lemma unique_filter_singleton (system code : string) (cs : list Concept.t)
    (c : Concept.t) :
  concepts_unique cs = true -> In c cs -> has_key system code c = true ->
  filter (has_key system code) cs = [c].
Proof.
  intros U Hin K.
  assert (Ks : Concept.system c = system /\ Concept.code c = code).
  { unfold has_key in K. apply andb_true_iff in K. destruct K as [K1 K2].
    apply String.eqb_eq in K1, K2. auto. }
  destruct Ks as [<- <-].
  induction cs as [|d cs IH]; [contradiction|].
  cbn [concepts_unique] in U. apply andb_true_iff in U. destruct U as [U1 U2].
  apply negb_true_iff in U1. cbn [filter].
  destruct Hin as [->|Hin].
  - rewrite K. f_equal. apply existsb_filter_nil, U1.
  - destruct (has_key (Concept.system c) (Concept.code c) d) eqn:Kd.
    + exfalso.
      assert (X : existsb (has_key (Concept.system d) (Concept.code d)) cs
                  = true).
      { apply existsb_exists. exists c. split; [exact Hin|].
        unfold has_key in *. apply andb_true_iff in Kd.
        destruct Kd as [K1 K2]. apply String.eqb_eq in K1, K2.
        rewrite K1, K2, !String.eqb_refl. reflexivity. }
      congruence.
    + apply IH; assumption.
Qed.

Lemma concept_eta (c : Concept.t) :
  Concept.make (Concept.system c) (Concept.code c) (Concept.display c)
    (Concept.definition c) (Concept.language c) (Concept.source c)
    (Concept.version c) (Concept.metadata c) = c.
Proof. destruct c. reflexivity. Qed.

(** X10. Lookup after storage: on a healthy store whose concepts are
    identified by (system, code), [GET /CodeSystem/namaste/{code}] with the
    code of a stored concept of the local system returns that concept, with
    every field as stored, and leaves the store as it is. *)
Theorem namaste_concept_found (w : World) (c : Concept.t) :
  faults w = [] ->
  concepts_unique (concepts w) = true ->
  In c (concepts w) ->
  Concept.system c = "namaste" ->
  get_namaste_concept (Concept.code c) w = (Ok c, w).
Proof.
  intros F U Hin S.
  unfold get_namaste_concept, try_except, get_concept_by_code.
  unfold bind at 1. unfold bind at 1.
  change (fun c0 : Concept.t =>
            (String.eqb (Concept.system c0) "namaste" &&
             String.eqb (Concept.code c0) (Concept.code c))%bool)
    with (has_key "namaste" (Concept.code c)).
  rewrite (select_concepts_healthy _ w F).
  rewrite (unique_filter_singleton "namaste" (Concept.code c) _ c U Hin).
  - cbn. rewrite concept_eta. reflexivity.
  - unfold has_key. rewrite S, !String.eqb_refl. reflexivity.
Qed.

Lemma namaste_concept_found_witness :
  faults sample_world = [] /\
  concepts_unique (concepts sample_world) = true /\
  In jwara (concepts sample_world) /\
  Concept.system jwara = "namaste" /\
  get_namaste_concept "NAM-AY-0001" sample_world = (Ok jwara, sample_world).
Proof.
  assert (Hin : In jwara (concepts sample_world)) by (left; reflexivity).
  split; [reflexivity|]. split; [reflexivity|]. split; [exact Hin|].
  split; [reflexivity|].
  exact (namaste_concept_found sample_world jwara eq_refl eq_refl Hin
           eq_refl).
Defined.

(** X11. On a healthy store, [GET /CodeSystem/namaste/{code}] answers 404,
    naming the code, exactly when the store has no concept of the local system
    with that code: a code that only another system (ICD-11, say) uses is not
    found; and a code that two concepts of the local system share ends in a
    500. *)
Theorem namaste_concept_outcome (w : World) (code : string) :
  faults w = [] ->
  let rows := filter (has_key "namaste" code) (concepts w) in
  get_namaste_concept code w =
  (match rows with
   | [] =>
       Raise (HTTPException 404
                ("NAMASTE concept with code '" ++ code ++ "' not found"))
   | [c] => Ok c
   | _ :: _ :: _ =>
       Raise (HTTPException 500
                ("Error retrieving NAMASTE concept: " ++
                 "Multiple rows were found when one or none was required"))
   end, w).
Proof.
  intros F. cbv zeta.
  unfold get_namaste_concept, try_except, get_concept_by_code.
  unfold bind at 1. unfold bind at 1.
  change (fun c0 : Concept.t =>
            (String.eqb (Concept.system c0) "namaste" &&
             String.eqb (Concept.code c0) code)%bool)
    with (has_key "namaste" code).
  rewrite (select_concepts_healthy _ w F).
  destruct (filter (has_key "namaste" code) (concepts w)) as [|c [|d rest]];
    cbn; rewrite ?concept_eta; reflexivity.
Qed.

Lemma namaste_concept_outcome_witness :
  faults sample_world = [] /\
  get_namaste_concept "AB11" sample_world =
  (Raise (HTTPException 404 "NAMASTE concept with code 'AB11' not found"),
   sample_world).
Proof.
  split; [reflexivity|].
  exact (namaste_concept_outcome sample_world "AB11" eq_refl).
Defined.

(* ------------------------------------------------------------------ *)
(** ** The external provider *)
(* ------------------------------------------------------------------ *)

Lemma filter_forall {A : Type} (p : A -> bool) (l : list A) :
  Forall (fun x => p x = true) (filter p l).
Proof.
  apply Forall_forall. intros x H. apply filter_In in H. apply H.
Qed.

(** The shape of a parsed entity. *)
Lemma parse_icd11_entity_shape_aux (entity : json) :
  match _parse_icd11_entity entity with
  | None => True
  | Some concept =>
      field concept "system" = JStr "icd11" /\
      truthy (field concept "code") = true /\
      truthy (field concept "display") = true
  end.
Proof.
  destruct entity as [| | | |xs|d]; try exact I.
  unfold _parse_icd11_entity, and_then. cbn [py_get].
  destruct (dict_get d "theCode") as [code|]; [|exact I].
  destruct (truthy code) eqn:Tc; [|exact I].
  destruct (dict_get d "title") as [title|]; [|exact I].
  destruct (truthy title) eqn:Tt; [|exact I].
  cbn. auto.
Qed.

(** X12. [_parse_icd11_entity] never raises. It answers [None] for an entity
    that is not a dictionary or whose [theCode] or [title] is missing or
    empty; for any other entity it answers a concept of system [icd11] that
    carries the entity's code, title and definition, whose metadata hold no
    empty value and only keys of the entity. *)
Theorem parse_icd11_entity_cases (entity : json) :
  match _parse_icd11_entity entity with
  | None =>
      forall d, entity = JObj d ->
                truthy (field entity "theCode") = false \/
                truthy (field entity "title") = false
  | Some concept =>
      exists d metadata,
        entity = JObj d /\
        truthy (field entity "theCode") = true /\
        truthy (field entity "title") = true /\
        field concept "system" = JStr "icd11" /\
        field concept "code" = field entity "theCode" /\
        field concept "display" = field entity "title" /\
        py_get concept "definition" JNull
          = py_get entity "definition" (JStr "") /\
        field concept "metadata" = JObj metadata /\
        Forall (fun kv => truthy (snd kv) = true) metadata /\
        (forall k v, In (k, v) metadata ->
           k = "icd11_id" /\ dict_get d "id" = Some v \/
           k <> "icd11_id" /\ dict_get d k = Some v)
  end.
Proof.
  destruct entity as [| | | |xs|d]; try (cbn; intros; discriminate).
  unfold _parse_icd11_entity, and_then. cbn [py_get field].
  destruct (dict_get d "theCode") as [code|] eqn:Ec;
    [|cbn; intros; left; reflexivity].
  destruct (truthy code) eqn:Tc; [|cbn; intros; left; reflexivity].
  destruct (dict_get d "title") as [title|] eqn:Et;
    [|cbn; intros; right; reflexivity].
  destruct (truthy title) eqn:Tt; [|cbn; intros; right; reflexivity].
  cbn [negb orb]. eexists d, _.
  split; [reflexivity|]. split; [reflexivity|]. split; [reflexivity|].
  split; [reflexivity|]. split; [reflexivity|]. split; [reflexivity|].
  split; [reflexivity|]. split; [reflexivity|].
  split; [apply (filter_forall (fun kv => truthy (snd kv)))|].
  intros k v Hin. apply filter_In in Hin. destruct Hin as [Hin Tv].
  cbn [snd] in Tv.
  repeat (destruct Hin as [Hin|Hin];
          [inversion Hin; subst k v; clear Hin;
           match goal with
           | |- ?k = "icd11_id" /\ _ \/ _ =>
               first [left; split; [reflexivity|]
                     |right; split; [discriminate|]]
           end;
           match goal with
           | |- dict_get d ?k = _ =>
               destruct (dict_get d k); [reflexivity | discriminate Tv]
           end|]).
  contradiction.
Qed.

(** What the provider boundary lets through: a dictionary of system
    [icd11] with a code and a display that are not empty. *)
Lemma parsed_concept_shape (entity concept : json) :
  _parse_icd11_entity entity = Some concept ->
  field concept "system" = JStr "icd11" /\
  truthy (field concept "code") = true /\
  truthy (field concept "display") = true.
Proof.
  intros E. pose proof (parse_icd11_entity_shape_aux entity) as H.
  rewrite E in H. exact H.
Qed.

(** The provider boundary keeps to the limit and swallows failures. *)
Lemma icd11_search_length_aux (http_get : string -> nat -> result json)
    (q : string) (limit : nat) :
  (length (icd11_search http_get q limit) <= limit)%nat /\
  (forall e, http_get q limit = Raise e -> icd11_search http_get q limit = []).
Proof.
  assert (L : forall entities : list json,
            (length (flat_map (fun entity =>
                       match _parse_icd11_entity entity with
                       | Some concept => [concept]
                       | None => []
                       end) entities) <= length entities)%nat).
  { induction entities as [|x xs IH]; cbn [flat_map length]; [lia|].
    rewrite length_app. destruct (_parse_icd11_entity x); cbn [length]; lia. }
  unfold icd11_search, and_then.
  destruct (http_get q limit) as [data|e];
    [|split; [apply Nat.le_0_l|reflexivity]].
  split; [|discriminate].
  destruct (py_contains data "destinationEntities") as [[|]|e];
    try apply Nat.le_0_l.
  destruct (py_index data "destinationEntities") as [entities|e];
    [|apply Nat.le_0_l].
  destruct (py_slice entities limit) as [es|e] eqn:Es; [|apply Nat.le_0_l].
  eapply Nat.le_trans; [apply L|].
  destruct entities; try discriminate Es; cbn in Es; inversion Es;
    apply firstn_le_length.
Qed.

(** X13. [ICD11Client.search] never raises and never returns more than [limit]
    concepts, whatever the provider answers; each concept it returns is a
    dictionary of system [icd11] whose code and display are not empty; and it
    returns nothing when the exchange fails or the answer has no
    [destinationEntities]. *)
Theorem icd11_search_bounded (http_get : string -> nat -> result json)
    (q : string) (limit : nat) :
  (length (icd11_search http_get q limit) <= limit)%nat /\
  Forall (fun concept =>
            field concept "system" = JStr "icd11" /\
            truthy (field concept "code") = true /\
            truthy (field concept "display") = true)
    (icd11_search http_get q limit) /\
  ((forall data, http_get q limit = Ok data ->
                 py_contains data "destinationEntities" <> Ok true) ->
   icd11_search http_get q limit = []).
Proof.
  assert (L : forall entities : list json,
            (length (flat_map (fun entity =>
                       match _parse_icd11_entity entity with
                       | Some concept => [concept]
                       | None => []
                       end) entities) <= length entities)%nat).
  { induction entities as [|x xs IH]; cbn [flat_map length]; [lia|].
    rewrite length_app. destruct (_parse_icd11_entity x); cbn [length]; lia. }
  assert (S : forall entities : list json,
            Forall (fun concept =>
                      field concept "system" = JStr "icd11" /\
                      truthy (field concept "code") = true /\
                      truthy (field concept "display") = true)
              (flat_map (fun entity =>
                 match _parse_icd11_entity entity with
                 | Some concept => [concept]
                 | None => []
                 end) entities)).
  { induction entities as [|x xs IH]; cbn [flat_map]; [constructor|].
    apply Forall_app. split; [|exact IH].
    destruct (_parse_icd11_entity x) as [c|] eqn:E; constructor;
      [eapply parsed_concept_shape, E | constructor]. }
  unfold icd11_search, and_then.
  destruct (http_get q limit) as [data|e];
    [|split; [apply Nat.le_0_l|split; [constructor|reflexivity]]].
  destruct (py_contains data "destinationEntities") as [[|]|e] eqn:P;
    try (split; [apply Nat.le_0_l|split; [constructor|reflexivity]]).
  destruct (py_index data "destinationEntities") as [entities|e];
    [|split; [apply Nat.le_0_l|split; [constructor|reflexivity]]].
  destruct (py_slice entities limit) as [es|e] eqn:Es;
    [|split; [apply Nat.le_0_l|split; [constructor|reflexivity]]].
  split; [|split; [apply S|]].
  - eapply Nat.le_trans; [apply L|].
    destruct entities; try discriminate Es; cbn in Es; inversion Es;
      apply firstn_le_length.
  - intros H. exfalso. apply (H data eq_refl). exact P.
Qed.

(** [ICD11Client.get_concept_by_code] never raises: it answers [None] when the
    exchange fails, and otherwise what [_parse_icd11_entity] makes of the
    answer, so that a concept it returns is of system [icd11] with a code and
    a display that are not empty. *)
Theorem icd11_get_concept_by_code_cases
    (http_get_concept : string -> result json) (code : string) :
  (forall e, http_get_concept code = Raise e ->
             icd11_get_concept_by_code http_get_concept code = None) /\
  (forall entity, http_get_concept code = Ok entity ->
                  icd11_get_concept_by_code http_get_concept code
                  = _parse_icd11_entity entity) /\
  (forall concept,
     icd11_get_concept_by_code http_get_concept code = Some concept ->
     field concept "system" = JStr "icd11" /\
     truthy (field concept "code") = true /\
     truthy (field concept "display") = true).
Proof.
  unfold icd11_get_concept_by_code, and_then.
  destruct (http_get_concept code) as [entity|e].
  - split; [discriminate|]. split.
    + intros ? E. inversion E. reflexivity.
    + intros concept E. eapply parsed_concept_shape, E.
  - split; [reflexivity|]. split; discriminate.
Qed.

(** X14. The health check cannot see an outage: [ICD11Client.search] swallows
    every failure, so [health_check] answers healthy and accessible whatever
    the provider does, with at most one test result, and with none when the
    exchange fails. *)
Theorem health_check_always_healthy
    (http_get : string -> nat -> result json) (client_id : option string) :
  exists n,
    health_check http_get client_id =
    [("status", JStr "healthy");
     ("api_accessible", JBool true);
     ("authentication",
      JStr (match client_id with
            | Some (String _ _) => "configured"
            | _ => "not_configured"
            end));
     ("test_query_results", JNum n);
     ("base_url", JStr "https://id.who.int/icd/release/11/2025-01/mms")] /\
    0 <= n <= 1 /\
    (forall e, http_get "fever" 1%nat = Raise e -> n = 0).
Proof.
  exists (Z.of_nat (length (icd11_search http_get "fever" 1))).
  split; [reflexivity|].
  destruct (icd11_search_length_aux http_get "fever" 1) as [Hl Hf].
  split; [lia|]. intros e E. rewrite (Hf e E). reflexivity.
Qed.

(* ------------------------------------------------------------------ *)
(** ** The local search *)
(* ------------------------------------------------------------------ *)

Lemma strongly_sorted_firstn {A : Type} (R : A -> A -> Prop) (n : nat) :
  forall l, StronglySorted R l -> StronglySorted R (firstn n l).
Proof.
  induction n as [|n IH]; intros l H; [constructor|].
  destruct l as [|x l]; [constructor|].
  apply StronglySorted_inv in H. destruct H as [H Hx]. cbn [firstn].
  constructor; [apply IH, H|].
  apply Forall_forall. intros y Hy. rewrite Forall_forall in Hx.
  apply Hx. eapply in_firstn, Hy.
Qed.

Lemma strongly_sorted_weaken_on {A : Type} (P : A -> Prop)
    (R R' : A -> A -> Prop) (l : list A) :
  (forall a b, P a -> P b -> R a b -> R' a b) ->
  Forall P l -> StronglySorted R l -> StronglySorted R' l.
Proof.
  intros HR HP. induction 1 as [|x l Hl IH Hx]; constructor.
  - apply IH. apply Forall_cons_iff in HP. apply HP.
  - apply Forall_cons_iff in HP. destruct HP as [Px HP].
    rewrite Forall_forall in *. intros b Hb.
    apply HR; [exact Px | apply HP, Hb | apply Hx, Hb].
Qed.

(** Results whose keys are between 0.0 and 1.0 come out of the sort in
    descending order of their keys. *)
Lemma relevance_ge_trans (x y z : SearchResult.t) :
  unit_key y ->
  relevance_gt y x = false -> relevance_gt z y = false ->
  relevance_gt z x = false.
Proof. unfold relevance_gt, unit_key. apply float_ge_trans. Qed.

Lemma relevance_ge_total (x y : SearchResult.t) :
  relevance_gt x y = true -> relevance_gt y x = false.
Proof. unfold relevance_gt. apply float_lt_asym. Qed.

Lemma sort_desc_relevance (l : list SearchResult.t) :
  Forall unit_key l ->
  StronglySorted
    (fun a b => PrimFloat.leb (relevance_key b) (relevance_key a) = true)
    (sort_desc relevance_gt l).
Proof.
  intros HP.
  apply (strongly_sorted_weaken_on unit_key
           (fun a b => relevance_gt b a = false)).
  - intros a b Pa Pb H. apply float_not_lt_ge; assumption.
  - rewrite Forall_forall in *. intros x Hx. apply HP.
    apply (Permutation_in _ (sort_desc_perm relevance_gt l)). exact Hx.
  - apply (sort_desc_sorted_on relevance_gt unit_key);
      [exact relevance_ge_trans | exact relevance_ge_total | exact HP].
Qed.

Lemma scored_unit_key (c : Concept.t) (ms : list Mapping.t) (s : float) :
  unit_score s = true -> unit_key (SearchResult.make c ms (Some s)).
Proof.
  intros H. unfold unit_key, relevance_key. cbn [SearchResult.relevance_score].
  destruct (PrimFloat.eqb s 0); [reflexivity | exact H].
Qed.

(** Without a system, or for the local one, [search] raises while it builds
    its query: the store is not asked. *)
Lemma search_astext (q : string) (system : option string) (limit : nat)
    (w : World) :
  (negb (system_given system) || is_system system "namaste")%bool = true ->
  search q system limit w = astext w.
Proof. intros H. unfold search. rewrite H. reflexivity. Qed.

Lemma for_each_search_result_of_any (q : string) (cs : list Concept.t) :
  forall (w w' : World) (xs : list SearchResult.t),
    for_each (search_result_of q) cs w = (Ok xs, w') ->
    xs = map (fun c => SearchResult.make c
                         (filter (mentions c) (stored_mappings w))
                         (Some (_calculate_relevance_score q c))) cs /\
    stored_mappings w' = stored_mappings w.
Proof.
  induction cs as [|c cs IH]; intros w w' xs E; cbn [for_each] in E.
  - inversion E. split; reflexivity.
  - unfold bind at 1 in E. unfold search_result_of at 1 in E.
    unfold bind at 1 in E.
    destruct (select_mappings_cases (mentions c) w)
      as [(e & w1 & E1 & _)|(w1 & E1 & _ & S1)]; rewrite E1 in E;
      [discriminate|].
    unfold ret at 1 in E. unfold bind at 1 in E.
    destruct (for_each (search_result_of q) cs w1) as [[ys|e] w2] eqn:E2;
      [|discriminate].
    inversion E; subst. destruct (IH _ _ _ E2) as [-> S2].
    rewrite S1 in *. split; [reflexivity | exact S2].
Qed.

(** What [search] returns, when it returns. *)
Lemma search_returns (q : string) (system : option string) (limit : nat)
    (w w' : World) (rs : list SearchResult.t) :
  search q system limit w = (Ok rs, w') ->
  system_given system = true /\ is_system system "namaste" = false /\
  (length rs <= limit)%nat /\
  Forall (fun r =>
            In (SearchResult.concept r) (concepts w) /\
            search_conditions q system (SearchResult.concept r) = true /\
            SearchResult.mappings r
            = filter (mentions (SearchResult.concept r)) (stored_mappings w) /\
            SearchResult.relevance_score r
            = Some (_calculate_relevance_score q (SearchResult.concept r)))
    rs /\
  StronglySorted
    (fun a b => PrimFloat.leb (relevance_key b) (relevance_key a) = true) rs.
Proof.
  intros E.
  destruct (negb (system_given system) || is_system system "namaste")%bool
    eqn:G.
  { rewrite (search_astext _ _ _ _ G) in E. discriminate E. }
  apply orb_false_iff in G. destruct G as [G1 G2].
  apply negb_false_iff in G1.
  split; [exact G1|]. split; [exact G2|].
  unfold search in E. rewrite G1, G2 in E. cbn [negb orb] in E.
  unfold bind at 1 in E. unfold ret at 1 in E.
  unfold bind at 1 in E. unfold select_concepts at 1 in E.
  unfold bind at 1 in E.
  assert (D : (exists e w1, db_op w = (Raise e, w1)) \/
              (exists w1, db_op w = (Ok tt, w1) /\
                          concepts w1 = concepts w /\
                          stored_mappings w1 = stored_mappings w)).
  { unfold db_op, stored_mappings. destruct (faults w) as [|[|] fs];
      [right|left|right]; eauto. }
  destruct D as [(e & w1 & D)|(w1 & D & C1 & S1)]; rewrite D in E;
    [discriminate|].
  unfold bind at 1 in E. unfold get, ret in E. unfold bind at 1 in E.
  destruct (for_each (search_result_of q) _ w1) as [[xs|e] w2] eqn:E2;
    [|discriminate].
  inversion E; subst. clear E.
  pose proof (for_each_length _ _ _ _ _ E2) as L.
  destruct (for_each_search_result_of_any _ _ _ _ _ E2) as [-> _].
  split; [|split].
  - rewrite (Permutation_length (sort_desc_perm relevance_gt _)), L.
    apply firstn_le_length.
  - apply Forall_forall. intros r Hr.
    apply (Permutation_in _ (sort_desc_perm relevance_gt _)) in Hr.
    apply in_map_iff in Hr. destruct Hr as (c & <- & Hc).
    apply in_firstn, filter_In in Hc. destruct Hc as [Hin Hcond].
    cbn. rewrite S1. rewrite <- C1. auto.
  - apply sort_desc_relevance. apply Forall_forall. intros r Hr.
    apply in_map_iff in Hr. destruct Hr as (c & <- & _).
    apply scored_unit_key, score_unit.
Qed.

Lemma reads_only_search_result_of (q : string) (c : Concept.t) :
  reads_only (search_result_of q c).
Proof. unfold search_result_of. auto 6 with reads. Qed.

Lemma reads_only_search (q : string) (system : option string) (limit : nat) :
  reads_only (search q system limit).
Proof.
  unfold search.
  apply reads_only_bind.
  { destruct (negb (system_given system) || is_system system "namaste")%bool;
      [apply reads_only_raise | apply reads_only_ret]. }
  intros _.
  apply reads_only_bind; [apply reads_only_select_concepts|]. intros cs.
  apply reads_only_bind; [|intros; apply reads_only_ret].
  apply reads_only_for_each. intros c. apply reads_only_search_result_of.
Qed.

(** The local part of a merged search: it asks for the local system, so it
    raises whenever it is run. *)
Lemma local_results_cases (q : string) (system : option string) (limit : nat)
    (w : World) :
  local_results q system limit w =
  if searches system "namaste" then astext w else (Ok [], w).
Proof.
  unfold local_results. destruct (searches system "namaste"); [|reflexivity].
  apply search_astext. reflexivity.
Qed.

Lemma reads_only_local_results (q : string) (system : option string)
    (limit : nat) : reads_only (local_results q system limit).
Proof.
  unfold local_results. destruct (searches system "namaste");
    [apply reads_only_search | apply reads_only_ret].
Qed.

(* ------------------------------------------------------------------ *)
(** ** The merged search and the suggestions *)
(* ------------------------------------------------------------------ *)

Lemma external_result_key (concept_data : json) (r : SearchResult.t) :
  external_result concept_data = Ok r ->
  SearchResult.relevance_score r = Some 0.5%float /\ unit_key r.
Proof.
  unfold external_result, and_then.
  repeat match goal with
         | |- context [match ?x with Ok _ => _ | Raise _ => _ end] =>
             destruct x; [|discriminate]
         end.
  intros E. inversion E. split; reflexivity.
Qed.

Lemma external_results_keys (cs : list json) :
  forall ext, external_results cs = Ok ext ->
              Forall (fun r => SearchResult.relevance_score r
                               = Some 0.5%float /\ unit_key r) ext.
Proof.
  induction cs as [|c cs IH]; cbn [external_results]; intros ext E.
  - inversion E. constructor.
  - unfold and_then in E.
    destruct (external_result c) as [r|] eqn:Er; [|discriminate].
    destruct (external_results cs) as [rs|]; [|discriminate].
    inversion E. constructor; [eapply external_result_key, Er | auto].
Qed.

(** The merged search, one case for each way out. *)
Lemma search_terms_cases (http_get : string -> nat -> result json)
    (q : string) (system : option string) (limit : nat) (w : World) :
  (exists ext,
     searches system "namaste" = false /\
     (if searches system "icd11"
      then external_results (icd11_search http_get q limit)
      else Ok []) = Ok ext /\
     search_terms http_get q system limit w =
     (Ok (SearchResponse.make q system
            (length (firstn limit (sort_desc relevance_gt ext)))
            (firstn limit (sort_desc relevance_gt ext)) (elapsed_ms w)), w) /\
     StronglySorted
       (fun a b => PrimFloat.leb (relevance_key b) (relevance_key a) = true)
       (firstn limit (sort_desc relevance_gt ext))) \/
  (exists e,
     (searches system "namaste" = true \/
      searches system "icd11" = true /\
      external_results (icd11_search http_get q limit) = Raise e) /\
     search_terms http_get q system limit w =
     (Raise (HTTPException 500
               ("Error searching terminology: " ++ exn_str e)), w)).
Proof.
  unfold search_terms, try_except.
  pose proof (local_results_cases q system limit w) as El.
  destruct (searches system "namaste") eqn:Sn.
  - right. eexists. split; [left; reflexivity|].
    erewrite bind_raise by exact El. reflexivity.
  - erewrite bind_ok by exact El. cbn [app].
    destruct (searches system "icd11").
    + destruct (external_results (icd11_search http_get q limit))
        as [ext|e] eqn:Ex.
      * erewrite bind_ok by reflexivity.
        erewrite bind_ok by reflexivity. unfold ret.
        left. exists ext. split; [reflexivity|]. split; [reflexivity|].
        split; [reflexivity|].
        apply strongly_sorted_firstn, sort_desc_relevance.
        eapply Forall_impl; [|eapply external_results_keys, Ex].
        intros r H. apply H.
      * erewrite bind_raise by reflexivity.
        right. exists e. split; [right; split; reflexivity | reflexivity].
    + erewrite bind_ok by reflexivity.
      erewrite bind_ok by reflexivity. unfold ret.
      left. exists []. split; [reflexivity|]. split; [reflexivity|].
      split; [reflexivity|].
      destruct limit; constructor.
Qed.

(** X16. Whatever the store and the provider do, [GET /terms] writes nothing
    and has two ways out: a response that repeats the query and the system,
    holds at most [limit] results in descending order of relevance and reports
    their number as [total_results] (the number returned, not the number of
    matches), or a failure of status 500. *)
Theorem search_terms_response (http_get : string -> nat -> result json)
    (q : string) (system : option string) (limit : nat) (w : World) :
  same_tables w (snd (search_terms http_get q system limit w)) /\
  match fst (search_terms http_get q system limit w) with
  | Ok response =>
      SearchResponse.query response = q /\
      SearchResponse.system response = system /\
      (length (SearchResponse.results response) <= limit)%nat /\
      SearchResponse.total_results response
      = length (SearchResponse.results response) /\
      StronglySorted
        (fun a b =>
           PrimFloat.leb (relevance_key b) (relevance_key a) = true)
        (SearchResponse.results response)
  | Raise e =>
      exists message,
        e = HTTPException 500 ("Error searching terminology: " ++ message)
  end.
Proof.
  destruct (search_terms_cases http_get q system limit w)
    as [(ext & _ & _ & E & H)|(e & _ & E)]; rewrite E; cbn [fst snd].
  - split; [apply same_tables_refl|].
    cbn. split; [reflexivity|]. split; [reflexivity|].
    split; [apply firstn_le_length|]. split; [reflexivity | exact H].
  - split; [apply same_tables_refl|]. exists (exn_str e). reflexivity.
Qed.

(** [GET /autocomplete] is [GET /terms] under another name: for every input
    the two give the same answer or the same failure and leave the same
    session; the handler that autocomplete adds for other exceptions is never
    reached. *)
Theorem autocomplete_is_search_terms
    (http_get : string -> nat -> result json) (q : string)
    (system : option string) (limit : nat) (w : World) :
  autocomplete_terms http_get q system limit w
  = search_terms http_get q system limit w.
Proof.
  unfold autocomplete_terms, try_except.
  destruct (search_terms_cases http_get q system limit w)
    as [(ext & _ & _ & E & H)|(e & _ & E)]; rewrite E; reflexivity.
Qed.

(** C4 (the code fails it).  A concept of the local system is never found:
    called without a system or for the system "namaste", [search] raises
    [AttributeError] while it builds its query, whatever the query (the code
    of the concept included), the limit and the store; called for any other
    system it returns concepts of that system only; and [GET /terms] answers
    every request that includes the local system with a failure of status
    500. *)
Theorem local_concept_never_found
    (http_get : string -> nat -> result json) (w : World) (c : Concept.t)
    (q : string) (system : option string) (limit : nat) :
  In c (concepts w) ->
  Concept.system c = "namaste" ->
  (exists message,
     search q None limit w
     = (Raise (Exception "AttributeError" message), w) /\
     search q (Some "namaste") limit w
     = (Raise (Exception "AttributeError" message), w)) /\
  (forall results w',
     search q system limit w = (Ok results, w') ->
     ~ In c (map SearchResult.concept results)) /\
  (searches system "namaste" = true ->
   exists message,
     search_terms http_get q system limit w
     = (Raise (HTTPException 500
                 ("Error searching terminology: " ++ message)), w)).
Proof.
  intros _ Hc. split; [|split].
  - eexists. split; reflexivity.
  - intros results w' E Hin.
    destruct (search_returns _ _ _ _ _ _ E) as (G1 & G2 & _ & Hall & _).
    apply in_map_iff in Hin. destruct Hin as (r & Hr & Hin).
    rewrite Forall_forall in Hall.
    destruct (Hall r Hin) as (_ & Hcond & _).
    unfold search_conditions in Hcond. rewrite G1, Hr, Hc in Hcond.
    rewrite G2 in Hcond. discriminate Hcond.
  - intros S.
    destruct (search_terms_cases http_get q system limit w)
      as [(ext & S' & _)|(e & _ & E)]; [congruence|].
    exists (exn_str e). exact E.
Qed.

Lemma local_concept_never_found_witness :
  In jwara (concepts sample_world) /\
  Concept.system jwara = "namaste" /\
  (exists message,
     search (Concept.code jwara) None 10 sample_world
     = (Raise (Exception "AttributeError" message), sample_world) /\
     search (Concept.code jwara) (Some "namaste") 10 sample_world
     = (Raise (Exception "AttributeError" message), sample_world)) /\
  (forall results w',
     search (Concept.code jwara) (Some "icd11") 10 sample_world
     = (Ok results, w') ->
     ~ In jwara (map SearchResult.concept results)) /\
  (exists message,
     search_terms provider_down (Concept.code jwara) None 10 sample_world
     = (Raise (HTTPException 500
                 ("Error searching terminology: " ++ message)),
        sample_world)).
Proof.
  assert (Hin : In jwara (concepts sample_world)) by (left; reflexivity).
  split; [exact Hin|]. split; [reflexivity|].
  pose proof (local_concept_never_found provider_down sample_world jwara
                (Concept.code jwara) (Some "icd11") 10 Hin eq_refl) as H1.
  pose proof (local_concept_never_found provider_down sample_world jwara
                (Concept.code jwara) None 10 Hin eq_refl) as H2.
  split; [exact (proj1 H1)|]. split; [exact (proj1 (proj2 H1))|].
  exact (proj2 (proj2 H2) eq_refl).
Defined.

(** The failing input of C4: the code of a stored concept, searched without
    a system, for the local system, and at the route. *)
Example search_by_code_raises :
  search "NAM-AY-0001" None 10 sample_world = astext sample_world /\
  search "NAM-AY-0001" (Some "namaste") 10 sample_world
  = astext sample_world /\
  search "NAM-AY-0001" (Some "icd11") 10 sample_world = (Ok [], sample_world)
  /\
  search_terms provider_down "NAM-AY-0001" None 10 sample_world
  = (Raise (HTTPException 500
              ("Error searching terminology: " ++ astext_message)),
     sample_world).
Proof. repeat split; reflexivity. Qed.

(** C6 (the code fails it).  When the call to the external provider fails
    (or times out), the provider contributes no result; the merged search
    then answers with an empty list when the requested system leaves the
    local one out, and fails with status 500 whenever the local system is
    searched, because the local search raises: it never answers with local
    results. *)
Theorem provider_failure_outcome
    (http_get : string -> nat -> result json) (q : string)
    (system : option string) (limit : nat) (e : exn) (w : World) :
  http_get q limit = Raise e ->
  icd11_search http_get q limit = [] /\
  (searches system "namaste" = true ->
   exists message,
     search_terms http_get q system limit w
     = (Raise (HTTPException 500
                 ("Error searching terminology: " ++ message)), w)) /\
  (searches system "namaste" = false ->
   search_terms http_get q system limit w
   = (Ok (SearchResponse.make q system 0 [] (elapsed_ms w)), w)).
Proof.
  intros Hfail.
  assert (X : icd11_search http_get q limit = []).
  { unfold icd11_search. rewrite Hfail. reflexivity. }
  split; [exact X|].
  destruct (search_terms_cases http_get q system limit w)
    as [(ext & S & Hext & E & _)|(e' & [S|[S Hext]] & E)].
  - split; [congruence|]. intros _. rewrite E.
    rewrite X in Hext. cbn [external_results] in Hext.
    assert (ext = []) as -> by (destruct (searches system "icd11"); congruence).
    destruct limit; reflexivity.
  - split; [|congruence]. intros _. exists (exn_str e'). exact E.
  - rewrite X in Hext. discriminate Hext.
Qed.

Lemma provider_failure_outcome_witness :
  provider_down "jwara" 10 = Raise (Exception "ConnectTimeout" "timed out") /\
  icd11_search provider_down "jwara" 10 = [] /\
  (exists message,
     search_terms provider_down "jwara" None 10 sample_world
     = (Raise (HTTPException 500
                 ("Error searching terminology: " ++ message)),
        sample_world)) /\
  search_terms provider_down "jwara" (Some "icd11") 10 sample_world
  = (Ok (SearchResponse.make "jwara" (Some "icd11") 0 []
           (elapsed_ms sample_world)),
     sample_world).
Proof.
  pose proof (provider_failure_outcome provider_down "jwara" None 10
                (Exception "ConnectTimeout" "timed out") sample_world eq_refl)
    as H1.
  pose proof (provider_failure_outcome provider_down "jwara" (Some "icd11") 10
                (Exception "ConnectTimeout" "timed out") sample_world eq_refl)
    as H2.
  split; [reflexivity|]. split; [exact (proj1 H1)|].
  split; [exact (proj1 (proj2 H1) eq_refl)|].
  exact (proj2 (proj2 H2) eq_refl).
Defined.

(** The failing input of C6, and a request for the external system alone. *)
Example provider_failure_sample :
  search_terms provider_down "jwara" None 10 sample_world
  = (Raise (HTTPException 500
              ("Error searching terminology: " ++ astext_message)),
     sample_world) /\
  search_terms provider_down "jwara" (Some "icd11") 10 sample_world
  = (Ok (SearchResponse.make "jwara" (Some "icd11") 0 [] 12), sample_world).
Proof. split; reflexivity. Qed.

(** X15. An answer of the provider that is well received but ill formed
    defeats a search of the external system: when the first entity has a code
    and a title that are not empty, and the title is not a text (a list or a
    dictionary, say), the entity passes the provider boundary, the response
    model refuses it, and the search ends in a 500. *)
Theorem provider_title_not_text_fails
    (http_get : string -> nat -> result json) (q : string)
    (system : option string) (limit : nat) (w : World)
    (data ent : dict) (rest : list json) (title : json) (e : exn) :
  searches system "namaste" = false ->
  searches system "icd11" = true ->
  http_get q limit = Ok (JObj data) ->
  dict_get data "destinationEntities" = Some (JArr (JObj ent :: rest)) ->
  (1 <= limit)%nat ->
  truthy (field (JObj ent) "theCode") = true ->
  dict_get ent "title" = Some title ->
  truthy title = true ->
  validate_str title = Raise e ->
  exists message,
    search_terms http_get q system limit w =
    (Raise (HTTPException 500
              ("Error searching terminology: " ++ message)), w).
Proof.
  intros Hn Hs Hg Hd Hlim Hc Ht Tt Hv.
  destruct limit as [|limit]; [lia|].
  assert (X : exists tail,
            icd11_search http_get q (S limit) =
            JObj [("system", JStr "icd11");
                  ("code", field (JObj ent) "theCode");
                  ("display", title);
                  ("definition",
                   match dict_get ent "definition" with
                   | Some v => v
                   | None => JStr ""
                   end);
                  ("language", JStr "en"); ("source", JStr "WHO ICD-11");
                  ("version", JStr "2025-01");
                  ("metadata",
                   field (match _parse_icd11_entity (JObj ent) with
                          | Some c => c
                          | None => JNull
                          end) "metadata")] :: tail).
  { unfold icd11_search, and_then. rewrite Hg. cbn [py_contains].
    unfold dict_has. rewrite Hd. cbn [py_index]. rewrite Hd.
    cbn [py_slice firstn flat_map].
    unfold _parse_icd11_entity, and_then. cbn [py_get field] in *.
    destruct (dict_get ent "theCode") as [code|]; [|discriminate Hc].
    rewrite Hc, Ht, Tt. cbn [negb orb app]. eexists. reflexivity. }
  destruct X as [tail X].
  destruct (search_terms_cases http_get q system (S limit) w)
    as [(ext & _ & Hext & _)|(e' & _ & E)].
  - exfalso. rewrite Hs, X in Hext.
    cbn [external_results] in Hext. unfold external_result, and_then in Hext.
    cbn [field dict_get String.eqb Ascii.eqb Bool.eqb validate_str] in Hext.
    destruct (validate_str (match dict_get ent "theCode" with
                            | Some v => v
                            | None => JNull
                            end)) as [code|e'']; [|discriminate Hext].
    rewrite Hv in Hext. discriminate Hext.
  - exists (exn_str e'). exact E.
Qed.

Lemma provider_title_not_text_fails_witness :
  exists message,
    search_terms provider_object_title "cholera" (Some "icd11") 10
      sample_world =
    (Raise (HTTPException 500
              ("Error searching terminology: " ++ message)), sample_world).
Proof.
  exact (provider_title_not_text_fails provider_object_title "cholera"
           (Some "icd11") 10 sample_world _ _ _ _ _ eq_refl eq_refl eq_refl
           eq_refl (le_S _ _ (le_S _ _ (le_S _ _ (le_S _ _ (le_S _ _
             (le_S _ _ (le_S _ _ (le_S _ _ (le_S _ _ (le_n 1))))))))))
           eq_refl eq_refl eq_refl eq_refl).
Defined.

(* ------------------------------------------------------------------ *)
(** ** What the local search returns *)
(* ------------------------------------------------------------------ *)



(** The scenario of the other terminology: "fever" finds both concepts, the
    exact display (0.8) before the display that begins with the query and
    the definition that contains it (0.6 + 0.3, rounded below 0.9). *)
Example search_fever :
  search "fever" (Some "icd11") 10 icd_world
  = (Ok [SearchResult.make mg26 [] (Some 0.8999999999999999%float);
         SearchResult.make ab11 [seed_mapping "AB11" (9 # 10)]
           (Some 0.8%float)],
     icd_world).
Proof. reflexivity. Qed.












(** Beyond the limit the store hands back the first matching rows only: with
    room for one result, the code "MG2" of a concept stored after "MG26" is
    not found. *)
Example search_beyond_limit :
  let mg2 := Concept.make "icd11" "MG2" "Fatigue" None "en" None None None in
  search "MG2" (Some "icd11") 1
    (mkWorld [mg26; mg2] [] [] [] [] [] 0 "2024-01-15T10:00:00" 12)
  = (Ok [SearchResult.make mg26 [] (Some 0.9%float)],
     mkWorld [mg26; mg2] [] [] [] [] [] 0 "2024-01-15T10:00:00" 12).
Proof. reflexivity. Qed.

(** X18. The score lies between 0.0 and 1.0 for every query and concept, and
    it is one of twelve numbers: the decimals 0.0, 0.2, ..., 1.0 a sum of
    components can make, and the two sums that rounding leaves beside a
    decimal, 0.6000000000000001 and 0.8999999999999999. *)
Theorem relevance_score_bounds (q : string) (c : Concept.t) :
  PrimFloat.leb 0 (_calculate_relevance_score q c) = true /\
  PrimFloat.leb (_calculate_relevance_score q c) 1 = true /\
  In (_calculate_relevance_score q c) score_values.
Proof.
  pose proof (score_unit q c) as U. unfold unit_score in U.
  apply andb_true_iff in U. destruct U as [U1 U2].
  split; [exact U1|]. split; [exact U2 | apply score_value].
Qed.

(** X19. [GET /suggestions] never returns: its local search asks for the
    system "namaste", so it raises while the query is built, whatever the
    query and the store; the route answers with status 500, the store is not
    asked and nothing is written. *)
Theorem search_suggestions_fail (q : string) (w : World) :
  search q (Some "namaste") 5 w = astext w /\
  exists message,
    get_search_suggestions q w =
    (Raise (HTTPException 500
              ("Error getting search suggestions: " ++ message)), w).
Proof.
  assert (E : search q (Some "namaste") 5 w = astext w)
    by (apply search_astext; reflexivity).
  split; [exact E|].
  unfold get_search_suggestions, try_except.
  erewrite bind_raise by exact E. eexists. reflexivity.
Qed.

(* ------------------------------------------------------------------ *)
(** ** The translation route and its client *)
(* ------------------------------------------------------------------ *)

Lemma parameters_of_shape (candidate : TranslationCandidate.t) :
  codings_of (parameters_of candidate) = [target_coding candidate] /\
  decimals_of (parameters_of candidate)
  = [TranslationCandidate.confidence candidate] /\
  (3 <= length (parameters_of candidate) <= 5)%nat.
Proof.
  unfold parameters_of, codings_of, decimals_of, target_coding.
  destruct (TranslationCandidate.target_display candidate) as [[|a d]|];
    (destruct (TranslationCandidate.method candidate) as [[|b m]|]);
    (destruct (TranslationCandidate.evidence candidate) as [[|kv ev]|]);
    cbn; repeat split; lia.
Qed.

Lemma parameters_shape (candidates : list TranslationCandidate.t) :
  codings_of (flat_map parameters_of candidates)
  = map target_coding candidates /\
  decimals_of (flat_map parameters_of candidates)
  = map TranslationCandidate.confidence candidates /\
  (3 * length candidates <= length (flat_map parameters_of candidates)
   <= 5 * length candidates)%nat.
Proof.
  induction candidates as [|c cs (IH1 & IH2 & IH3)]; [cbn; auto|].
  destruct (parameters_of_shape c) as (H1 & H2 & H3).
  cbn [flat_map map length]. unfold codings_of, decimals_of in *.
  rewrite !flat_map_app, length_app, H1, H2, IH1, IH2.
  repeat split; cbn [app]; try reflexivity; lia.
Qed.

(** X20. On a healthy store whose concepts are identified by (system, code),
    [POST /translate] answers a Parameters resource built from the candidates
    of [translate] in their order: one target coding for each candidate (the
    target system made into a URI, the code, the display or the empty string),
    one confidence for each, the confidences in descending order, and between
    3 and 5 parameters for each candidate; it has no parameter exactly when
    the code has no mapping. *)
Theorem translate_concept_parameters (w : World) (system code : string) :
  faults w = [] ->
  concepts_unique (concepts w) = true ->
  exists candidates params,
    translate system code w = (Ok candidates, w) /\
    translate_concept system code w
    = (Ok (TranslateResponse.make "Parameters" params), w) /\
    codings_of params = map target_coding candidates /\
    decimals_of params = map TranslationCandidate.confidence candidates /\
    StronglySorted (fun a b => (b <= a)%Q) (decimals_of params) /\
    (3 * length candidates <= length params <= 5 * length candidates)%nat /\
    (params = [] <->
     filter (has_source system code) (stored_mappings w) = []).
Proof.
  intros F U.
  pose proof (translate_healthy system code w F U) as Et.
  set (rows := filter (has_source system code) (stored_mappings w)) in *.
  set (candidates := sort_desc confidence_gt (map (candidate_for w) rows))
    in *.
  exists candidates, (flat_map parameters_of candidates).
  destruct (parameters_shape candidates) as (H1 & H2 & H3).
  split; [exact Et|]. split.
  { unfold translate_concept, try_except. erewrite bind_ok by exact Et.
    destruct candidates; reflexivity. }
  split; [exact H1|]. split; [exact H2|]. split.
  { rewrite H2.
    assert (S : StronglySorted
                  (fun a b => (TranslationCandidate.confidence b
                               <= TranslationCandidate.confidence a)%Q)
                  candidates)
      by (eapply translate_sorted, Et).
    clear - S. induction S as [|c cs _ IH Hc]; cbn [map]; constructor;
      [exact IH|].
    rewrite Forall_map. exact Hc. }
  split; [exact H3|].
  assert (L : length candidates = length rows).
  { unfold candidates.
    rewrite (Permutation_length (sort_desc_perm confidence_gt _)).
    apply length_map. }
  split; intros E.
  - rewrite E in H3. cbn [length] in H3.
    destruct rows; [reflexivity | cbn [length] in L; lia].
  - rewrite E in L. destruct candidates; [reflexivity | discriminate L].
Qed.

Lemma translate_concept_parameters_witness :
  faults sample_world = [] /\
  concepts_unique (concepts sample_world) = true /\
  exists candidates params,
    translate "namaste" "NAM-AY-0001" sample_world
      = (Ok candidates, sample_world) /\
    translate_concept "namaste" "NAM-AY-0001" sample_world
    = (Ok (TranslateResponse.make "Parameters" params), sample_world) /\
    codings_of params = map target_coding candidates /\
    decimals_of params = map TranslationCandidate.confidence candidates /\
    StronglySorted (fun a b => (b <= a)%Q) (decimals_of params) /\
    (3 * length candidates <= length params <= 5 * length candidates)%nat /\
    (params = [] <->
     filter (has_source "namaste" "NAM-AY-0001")
       (stored_mappings sample_world) = []).
Proof.
  split; [reflexivity|]. split; [reflexivity|].
  exact (translate_concept_parameters sample_world "namaste" "NAM-AY-0001"
           eq_refl eq_refl).
Defined.

(** The parameters of the sample translation. *)
Example translate_concept_sample :
  option_map TranslateResponse.parameter
    (match fst (translate_concept "namaste" "NAM-AY-0001" sample_world) with
     | Ok response => Some response
     | Raise _ => None
     end)
  = Some [Param.make "target"
            (valueCodeableConcept
               "http://terminology.hl7.org/CodeSystem/icd11" "AB11" "Fever");
          Param.make "equivalence" (valueCode "relatedto");
          Param.make "confidence" (valueDecimal (9 # 10));
          Param.make "method" (valueString "expert_review");
          Param.make "target"
            (valueCodeableConcept
               "http://terminology.hl7.org/CodeSystem/icd11" "AB13" "");
          Param.make "equivalence" (valueCode "relatedto");
          Param.make "confidence" (valueDecimal (8 # 10));
          Param.make "method" (valueString "expert_review");
          Param.make "target"
            (valueCodeableConcept
               "http://terminology.hl7.org/CodeSystem/icd11" "AB12" "");
          Param.make "equivalence" (valueCode "relatedto");
          Param.make "confidence" (valueDecimal (6 # 10));
          Param.make "method" (valueString "expert_review")].
Proof. reflexivity. Qed.

Lemma cli_translations_fail (candidates : list TranslationCandidate.t) :
  candidates <> [] ->
  cli_translations (flat_map parameters_of candidates)
  = Raise (Exception "KeyError" "'valueString'").
Proof.
  destruct candidates as [|c cs]; [congruence|]. intros _. reflexivity.
Qed.

(** X21. The client cannot read the translations the service sends: the
    service puts the equivalence of a candidate under [valueCode], the client
    looks for it under [valueString], so that for every code with at least one
    mapping (on a healthy store whose concepts are identified by (system,
    code)) the grouping of the parameters of [POST /translate] ends in a
    [KeyError] before any translation is collected. *)
Theorem cli_translate_key_error (w : World) (system code : string) :
  faults w = [] ->
  concepts_unique (concepts w) = true ->
  filter (has_source system code) (stored_mappings w) <> [] ->
  exists response,
    translate_concept system code w = (Ok response, w) /\
    TranslateResponse.parameter response <> [] /\
    cli_translations (TranslateResponse.parameter response)
    = Raise (Exception "KeyError" "'valueString'").
Proof.
  intros F U N.
  pose proof (translate_healthy system code w F U) as Et.
  set (rows := filter (has_source system code) (stored_mappings w)) in *.
  set (candidates := sort_desc confidence_gt (map (candidate_for w) rows))
    in *.
  assert (L : length candidates = length rows).
  { unfold candidates.
    rewrite (Permutation_length (sort_desc_perm confidence_gt _)).
    apply length_map. }
  assert (C : candidates <> []).
  { intros E. rewrite E in L. destruct rows; [congruence | discriminate L]. }
  exists (TranslateResponse.make "Parameters" (flat_map parameters_of
                                                  candidates)).
  split.
  { unfold translate_concept, try_except. erewrite bind_ok by exact Et.
    destruct candidates; [congruence | reflexivity]. }
  split; [|apply cli_translations_fail, C].
  cbn. destruct candidates as [|c cs]; [congruence|]. discriminate.
Qed.

Lemma cli_translate_key_error_witness :
  faults sample_world = [] /\
  concepts_unique (concepts sample_world) = true /\
  filter (has_source "namaste" "NAM-AY-0001") (stored_mappings sample_world)
  <> [] /\
  exists response,
    translate_concept "namaste" "NAM-AY-0001" sample_world
    = (Ok response, sample_world) /\
    TranslateResponse.parameter response <> [] /\
    cli_translations (TranslateResponse.parameter response)
    = Raise (Exception "KeyError" "'valueString'").
Proof.
  assert (N : filter (has_source "namaste" "NAM-AY-0001")
                (stored_mappings sample_world) <> []) by discriminate.
  split; [reflexivity|]. split; [reflexivity|]. split; [exact N|].
  exact (cli_translate_key_error sample_world "namaste" "NAM-AY-0001"
           eq_refl eq_refl N).
Defined.

(* ------------------------------------------------------------------ *)
(** ** Roles and scopes *)
(* ------------------------------------------------------------------ *)

Lemma prefix_app (b c : string) : String.prefix b (b ++ c) = true.
Proof.
  induction b as [|x b IH]; cbn; [destruct c; reflexivity|].
  destruct (ascii_dec x x); [exact IH | congruence].
Qed.

Lemma str_in_app (a b c : string) : str_in b (a ++ b ++ c) = true.
Proof.
  induction a as [|x a IH].
  - cbn [append]. destruct (b ++ c) eqn:E; cbn [str_in];
      rewrite <- E, prefix_app; reflexivity.
  - cbn [append str_in]. rewrite IH. apply orb_true_r.
Qed.

(** X22. A scope is granted by containment of text, not by membership:
    [has_required_scope] accepts every piece of the user's scope string, a
    whole scope of the list or a fragment of one, and the empty scope always. *)
Theorem scope_check_is_containment (user_info : dict)
    (before required after : string) :
  dict_get user_info "scope" = Some (JStr (before ++ required ++ after)) ->
  has_required_scope (JObj user_info) required = Ok true.
Proof.
  intros H. unfold has_required_scope, and_then. cbn [py_get]. rewrite H.
  cbn [py_contains]. rewrite str_in_app. reflexivity.
Qed.

Lemma scope_check_is_containment_witness :
  dict_get [("actor", JStr "Dr. Demo");
            ("scope", JStr "patient/read patient/write")] "scope"
  = Some (JStr ("patient/" ++ "rea" ++ "d patient/write")) /\
  has_required_scope
    (JObj [("actor", JStr "Dr. Demo");
           ("scope", JStr "patient/read patient/write")]) "rea" = Ok true.
Proof.
  split; [reflexivity|].
  exact (scope_check_is_containment
           [("actor", JStr "Dr. Demo");
            ("scope", JStr "patient/read patient/write")]
           "patient/" "rea" "d patient/write" eq_refl).
Defined.

Lemma any_role_in_list (roles : list json) (required_roles : list string) :
  any_role_in (JArr roles) required_roles
  = Ok (existsb (fun role => existsb (fun x => is_str x role) roles)
          required_roles).
Proof.
  induction required_roles as [|r rs IH]; [reflexivity|].
  cbn [any_role_in existsb]. unfold and_then. cbn [py_contains].
  destruct (existsb (fun x => is_str x r) roles); [reflexivity|exact IH].
Qed.

(** For a user whose roles are a list, [has_required_role] answers true
    exactly when one of the required roles is in the list; it answers false
    when no role is required, and when the user information has no [roles] at
    all. *)
Theorem role_check_is_membership (user_info : dict) (roles : list json)
    (required_roles : list string) :
  py_get (JObj user_info) "roles" (JArr []) = Ok (JArr roles) ->
  exists answer,
    has_required_role (JObj user_info) required_roles = Ok answer /\
    (answer = true <->
     exists role, In role required_roles /\ In (JStr role) roles) /\
    (required_roles = [] -> answer = false) /\
    (dict_get user_info "roles" = None -> answer = false).
Proof.
  intros H. unfold has_required_role, and_then. rewrite H.
  rewrite any_role_in_list. eexists. split; [reflexivity|].
  split; [|split].
  - rewrite existsb_exists. split.
    + intros (role & Hr & Hx). apply existsb_exists in Hx.
      destruct Hx as (x & Hx & Hs). exists role. split; [exact Hr|].
      destruct x; try discriminate Hs. cbn in Hs.
      apply String.eqb_eq in Hs. subst. exact Hx.
    + intros (role & Hr & Hx). exists role. split; [exact Hr|].
      apply existsb_exists. exists (JStr role). split; [exact Hx|].
      cbn. apply String.eqb_refl.
  - intros ->. reflexivity.
  - intros N. cbn [py_get] in H. rewrite N in H. inversion H. subst.
    clear. induction required_roles as [|r rs IH]; [reflexivity|].
    cbn. exact IH.
Qed.

Lemma role_check_is_membership_witness :
  py_get (JObj [("actor", JStr "Dr. Demo");
                ("roles", JArr [JStr "practitioner"])]) "roles" (JArr [])
  = Ok (JArr [JStr "practitioner"]) /\
  exists answer,
    has_required_role
      (JObj [("actor", JStr "Dr. Demo");
             ("roles", JArr [JStr "practitioner"])])
      ["admin"; "practitioner"] = Ok answer /\
    (answer = true <->
     exists role, In role ["admin"; "practitioner"] /\
                  In (JStr role) [JStr "practitioner"]).
Proof.
  split; [reflexivity|].
  destruct (role_check_is_membership
              [("actor", JStr "Dr. Demo");
               ("roles", JArr [JStr "practitioner"])]
              [JStr "practitioner"] ["admin"; "practitioner"] eq_refl)
    as (answer & E & H & _).
  exists answer. split; [exact E | exact H].
Defined.

(* ------------------------------------------------------------------ *)
(** ** The audit sink *)
(* ------------------------------------------------------------------ *)

Lemma dict_set_keys (d : dict) (k : string) (v : json) :
  NoDup (map fst d) -> NoDup (map fst (dict_set d k v)).
Proof.
  induction d as [|[k0 v0] d IH]; cbn [dict_set map fst]; intros N.
  - constructor; [intros []|constructor].
  - destruct (String.eqb k0 k) eqn:E; [exact N|].
    cbn [map fst]. apply NoDup_cons_iff in N. destruct N as [N1 N2].
    constructor; [|apply IH, N2].
    intros Hin. apply in_map_iff in Hin. destruct Hin as ([k1 v1] & <- & H1).
    cbn [fst] in *.
    assert (G : dict_get (dict_set d k v) k1 <> None).
    { clear - H1. induction (dict_set d k v) as [|[a b] l IHl];
        [contradiction|].
      cbn. destruct (String.eqb a k1) eqn:Ea; [discriminate|].
      destruct H1 as [H1|H1]; [|apply IHl, H1].
      inversion H1; subst. rewrite String.eqb_refl in Ea. discriminate. }
    rewrite dict_get_set_neq in G
      by (rewrite String.eqb_sym; exact E).
    apply N1. clear - G. induction d as [|[a b] d IHd];
      [cbn in G; congruence|].
    cbn in *. destruct (String.eqb a k1) eqn:Ea.
    + left. apply String.eqb_eq, Ea.
    + right. apply IHd, G.
Qed.

Lemma update_keys (kwargs d : dict) :
  NoDup (map fst d) ->
  NoDup (map fst (fold_left (fun d kv => dict_set d (fst kv) (snd kv))
                    kwargs d)).
Proof.
  revert d. induction kwargs as [|[k v] kwargs IH]; intros d N; [exact N|].
  cbn [fold_left]. apply IH, dict_set_keys, N.
Qed.

(** [detail.update(kwargs)]: a key of [kwargs] is bound to its value there,
    any other key is as before. *)
Lemma update_lookup (kwargs : dict) :
  NoDup (map fst kwargs) ->
  forall d k,
    dict_get (fold_left (fun d kv => dict_set d (fst kv) (snd kv)) kwargs d) k
    = match dict_get kwargs k with
      | Some v => Some v
      | None => dict_get d k
      end.
Proof.
  induction kwargs as [|[k0 v0] kwargs IH]; intros N d k; [reflexivity|].
  cbn [map fst] in N. apply NoDup_cons_iff in N. destruct N as [N1 N2].
  cbn [fold_left fst snd dict_get]. rewrite (IH N2).
  destruct (String.eqb k0 k) eqn:E.
  - apply String.eqb_eq in E. subst k0.
    assert (G : dict_get kwargs k = None).
    { clear - N1. induction kwargs as [|[a b] l IHl]; [reflexivity|].
      cbn in *. destruct (String.eqb a k) eqn:Ea.
      - exfalso. apply N1. left. apply String.eqb_eq, Ea.
      - apply IHl. tauto. }
    rewrite G. apply dict_get_set_eq.
  - destruct (dict_get kwargs k); [reflexivity|].
    apply dict_get_set_neq, E.
Qed.

(** Removing the [None] values of a dictionary. *)
Lemma remove_none_lookup (d : dict) (k : string) :
  NoDup (map fst d) ->
  dict_get (filter (fun kv => match snd kv with
                              | JNull => false
                              | _ => true
                              end) d) k
  = match dict_get d k with
    | Some JNull => None
    | other => other
    end.
Proof.
  induction d as [|[k0 v0] d IH]; intros N; [reflexivity|].
  cbn [map fst] in N. apply NoDup_cons_iff in N. destruct N as [N1 N2].
  cbn [filter snd dict_get].
  assert (G : String.eqb k0 k = true -> dict_get d k = None).
  { intros E. apply String.eqb_eq in E. subst k0. clear - N1.
    induction d as [|[a b] l IHl]; [reflexivity|].
    cbn in *. destruct (String.eqb a k) eqn:Ea.
    - exfalso. apply N1. left. apply String.eqb_eq, Ea.
    - apply IHl. tauto. }
  destruct (String.eqb k0 k) eqn:E.
  - destruct v0; cbn [dict_get]; rewrite ?E; try reflexivity.
    rewrite (IH N2), (G eq_refl). reflexivity.
  - destruct v0; cbn [dict_get]; rewrite ?E; apply IH, N2.
Qed.

(** X23. [create_audit_detail] never raises and reads the clock only. No key
    of the detail it returns is bound to [None]; a named argument given with a
    value other than [None] is in the detail with that value, one given as
    [None] is left out, and so are the standard keys the caller does not give;
    the timestamp is the time of the call unless the caller passes a
    [timestamp] of its own. *)
Theorem audit_detail_lookup (error_message : json) (kwargs : dict)
    (w : World) :
  NoDup (map fst kwargs) ->
  exists detail,
    create_audit_detail error_message kwargs w = (Ok detail, w) /\
    Forall (fun kv => is_none (snd kv) = false) detail /\
    (forall k,
       dict_get detail k
       = match dict_get kwargs k with
         | Some v => if is_none v then None else Some v
         | None =>
             match dict_get (detail_defaults (now w) error_message) k with
             | Some v => if is_none v then None else Some v
             | None => None
             end
         end) /\
    (dict_get kwargs "timestamp" = None ->
     dict_get detail "timestamp" = Some (JStr (now w))).
Proof.
  intros N. unfold create_audit_detail, bind, get, ret.
  fold (detail_defaults (now w) error_message).
  eexists. split; [reflexivity|].
  assert (L : forall k,
            dict_get
              (filter (fun kv => match snd kv with
                                 | JNull => false
                                 | _ => true
                                 end)
                 (fold_left (fun d kv => dict_set d (fst kv) (snd kv)) kwargs
                    (detail_defaults (now w) error_message))) k
            = match dict_get kwargs k with
              | Some v => if is_none v then None else Some v
              | None =>
                  match dict_get (detail_defaults (now w) error_message) k
                  with
                  | Some v => if is_none v then None else Some v
                  | None => None
                  end
              end).
  { intros k. rewrite remove_none_lookup.
    - rewrite (update_lookup kwargs N).
      destruct (dict_get kwargs k) as [[]|]; try reflexivity.
      destruct (dict_get (detail_defaults (now w) error_message) k)
        as [[]|]; reflexivity.
    - apply update_keys. unfold detail_defaults. cbn [map fst].
      repeat (constructor; [cbn; intuition discriminate|]). constructor. }
  split; [|split; [exact L|]].
  - apply Forall_forall. intros [k v] Hin. apply filter_In in Hin.
    destruct Hin as [_ Hv]. cbn [snd] in *. destruct v;
      [discriminate | reflexivity..].
  - intros T. rewrite L, T. reflexivity.
Qed.

Lemma audit_detail_lookup_witness :
  NoDup (map fst [("bundle_id", JStr "uuid-0"); ("consent_ref", JNull);
                  ("mappings_added", JNum 1)]) /\
  exists detail,
    create_audit_detail JNull
      [("bundle_id", JStr "uuid-0"); ("consent_ref", JNull);
       ("mappings_added", JNum 1)] sample_world = (Ok detail, sample_world) /\
    Forall (fun kv => is_none (snd kv) = false) detail /\
    dict_get detail "timestamp" = Some (JStr "2024-01-15T10:00:00").
Proof.
  assert (N : NoDup (map fst [("bundle_id", JStr "uuid-0");
                              ("consent_ref", JNull);
                              ("mappings_added", JNum 1)])).
  { cbn [map fst].
    repeat (constructor; [cbn; intuition discriminate|]). constructor. }
  split; [exact N|].
  destruct (audit_detail_lookup JNull
              [("bundle_id", JStr "uuid-0"); ("consent_ref", JNull);
               ("mappings_added", JNum 1)] sample_world N)
    as (detail & E & H1 & _ & H3).
  exists detail. split; [exact E|]. split; [exact H1|].
  apply H3. reflexivity.
Defined.

(** X24. [record_audit] is all or nothing for the whole session. When it
    returns, the entry is the last row of the audit log, after the rows that
    were pending, and the pending mappings are committed with it; when it
    raises, the committed tables are as they were and every pending row of the
    session is dropped, the pending mappings included. *)
Theorem record_audit_all_or_nothing (actor : json) (action : string)
    (resource_type resource_id : json) (detail : dict) (w : World) :
  let entry := AuditLog.make actor action resource_type resource_id detail in
  match record_audit actor action resource_type resource_id detail w with
  | (Ok _, w') =>
      audit_logs w' = (audit_logs w ++ new_audits w ++ [entry])%list /\
      mappings w' = (mappings w ++ new_mappings w)%list /\
      new_audits w' = [] /\ new_mappings w' = [] /\
      ((exists fs, faults w = false :: fs) \/ faults w = [])
  | (Raise e, w') =>
      e = Exception "OperationalError" "database error" /\
      audit_logs w' = audit_logs w /\
      mappings w' = mappings w /\
      new_audits w' = [] /\ new_mappings w' = [] /\
      exists fs, faults w = true :: fs
  end.
Proof.
  cbv zeta. rewrite record_audit_cases. cbv zeta.
  destruct (faults w) as [|[|] fs]; cbn.
  - rewrite <- ?app_assoc. repeat split. right. reflexivity.
  - repeat split. eexists. reflexivity.
  - rewrite <- ?app_assoc. repeat split. left. eexists. reflexivity.
Qed.

(* ------------------------------------------------------------------ *)
(** ** The other ways through the bundle upload *)
(* ------------------------------------------------------------------ *)

(** X25. A bundle whose [resourceType] is not [Bundle], sent by an
    authenticated actor, is refused with status 400 before anything is
    written: no audit record, no mapping, only the bundle identifier has been
    drawn. *)
Theorem invalid_envelope_rejected
    (introspect : option (string -> result json)) (bundle : dict)
    (authorization : option string) (actor : json) (w : World) :
  verify_abha_token introspect (extract_token_from_header authorization)
    = Ok actor ->
  is_str (bundle_get bundle "resourceType" JNull) "Bundle" = false ->
  upload_bundle introspect bundle authorization w =
  (Raise (HTTPException 400 "Invalid bundle: resourceType must be 'Bundle'"),
   drawn w).
Proof.
  intros Ha He. unfold upload_bundle, upload_bundle_call.
  erewrite bind_ok by reflexivity. rewrite Ha.
  unfold try_except, process_bundle. rewrite He. reflexivity.
Qed.

Lemma invalid_envelope_rejected_witness :
  verify_abha_token None (extract_token_from_header (Some "Bearer test"))
    = Ok (JStr "Dr. Demo") /\
  is_str (bundle_get [("resourceType", JStr "Patient")] "resourceType" JNull)
    "Bundle" = false /\
  upload_bundle None [("resourceType", JStr "Patient")] (Some "Bearer test")
    sample_world =
  (Raise (HTTPException 400 "Invalid bundle: resourceType must be 'Bundle'"),
   drawn sample_world).
Proof.
  split; [reflexivity|]. split; [reflexivity|].
  exact (invalid_envelope_rejected None [("resourceType", JStr "Patient")]
           (Some "Bearer test") (JStr "Dr. Demo") sample_world
           eq_refl eq_refl).
Defined.

(** X26. A call whose token is missing or refused ends with status 500, not
    with an authentication status, whatever the bundle holds: the message of
    the refusal is in the detail, and on a healthy store the failure is
    audited under the actor [unknown], with the pending rows of the session
    committed along. *)
Theorem unauthenticated_upload_fails
    (introspect : option (string -> result json)) (bundle : dict)
    (authorization : option string) (class message : string) (w : World) :
  verify_abha_token introspect (extract_token_from_header authorization)
    = Raise (Exception class message) ->
  fst (upload_bundle introspect bundle authorization w)
  = Raise (HTTPException 500 ("Error processing bundle: " ++ message)) /\
  (faults w = [] ->
   audit_logs (snd (upload_bundle introspect bundle authorization w))
   = (audit_logs w ++ new_audits w ++ [failure_audit w message])%list /\
   mappings (snd (upload_bundle introspect bundle authorization w))
   = (mappings w ++ new_mappings w)%list).
Proof.
  intros Ha. unfold upload_bundle, upload_bundle_call.
  erewrite bind_ok by reflexivity. rewrite Ha. unfold on_failure.
  match goal with
  | |- context [try_except ?m (fun _ => ret tt)] =>
      destruct (swallow_total m (mkUpload (with_uuids w (S (uuids w))) [] []
                                   0 JNull)) as [s' Es]
  end.
  split.
  - erewrite bind_ok by exact Es. reflexivity.
  - intros F. clear s' Es. destruct w as [cs ms als nms nas fs u n ms']. 
    cbn in F. subst fs. unfold failure_audit. cbn.
    rewrite <- ?app_assoc. split; reflexivity.
Qed.

Lemma unauthenticated_upload_fails_witness :
  verify_abha_token None (extract_token_from_header (Some "test"))
    = Raise (Exception "ValueError" "No token provided") /\
  fst (upload_bundle None (bundle_of [condition_entry []]) (Some "test")
         sample_world)
  = Raise (HTTPException 500
             ("Error processing bundle: " ++ "No token provided")).
Proof.
  split; [reflexivity|].
  exact (proj1 (unauthenticated_upload_fails None
                  (bundle_of [condition_entry []]) (Some "test")
                  "ValueError" "No token provided" sample_world eq_refl)).
Defined.

Lemma handle_referenced (kind resource_id : json) (st : Upload) :
  referenced_kind kind = true ->
  handle_resource kind resource_id st =
  (Ok true,
   mkUpload (db st)
     (created_resources st ++ [reference_to (py_str kind) resource_id])%list
     (errors st) (mappings_added st) (resource st)).
Proof.
  unfold referenced_kind, handle_resource. intros H. rewrite H.
  destruct kind as [| | |s| |]; try discriminate H.
  cbn [is_str] in *.
  destruct (String.eqb s "Condition") eqn:E; [|reflexivity].
  apply String.eqb_eq in E. subst s. discriminate H.
Qed.

(** X27. An entry of kind Observation, DiagnosticReport or Procedure is
    referenced as it is: processing it never raises, appends exactly [Kind/id]
    to the created references (the identifier drawn for the entry when the
    resource has none), leaves the resource and the count of mappings as they
    were, and attempts the audit record of the entry, which is written or
    whose failure is noted in the errors. *)
Theorem referenced_entry_unchanged (actor : json) (bundle_id : string)
    (consent_ref entry : json) (res : dict) (kind : json) (st : Upload) :
  py_get entry "resource" (JObj []) = Ok (JObj res) ->
  py_get (JObj res) "resourceType" JNull = Ok kind ->
  referenced_kind kind = true ->
  exists st',
    process_entry actor bundle_id consent_ref entry st = (Ok tt, st') /\
    created_resources st'
    = (created_resources st
       ++ [reference_to (py_str kind) (resource_id_of st res)])%list /\
    resource st' = JObj res /\
    mappings_added st' = mappings_added st /\
    if write_fails (db st) then
      audit_logs (db st') = audit_logs (db st) /\
      errors st'
        = (errors st ++ [audit_error kind (resource_id_of st res)])%list
    else
      audit_logs (db st')
        = (audit_logs (db st) ++ new_audits (db st)
           ++ [entry_audit actor (now (db st)) bundle_id consent_ref kind
                 (resource_id_of st res) (mappings_added st)])%list /\
      errors st' = errors st.
Proof.
  intros Hres Hkind Hk.
  destruct (process_entry_step actor bundle_id consent_ref entry _ kind st
              Hres Hkind) as (d & Ed & E).
  injection Ed as <-. rewrite E. rewrite (handle_referenced _ _ _ Hk).
  match goal with
  | |- context [audit_resource _ _ _ _ _ ?s] =>
      destruct (audit_resource_spec actor bundle_id consent_ref kind
                  (resource_id_of st res) s)
        as (st' & E' & Hc & Hr & Hm & _ & Ha)
  end.
  exists st'. split; [exact E'|].
  split; [exact Hc|]. split; [exact Hr|]. split; [exact Hm|]. exact Ha.
Qed.

Lemma referenced_entry_unchanged_witness :
  py_get observation_entry "resource" (JObj [])
    = Ok (JObj observation_resource) /\
  py_get (JObj observation_resource) "resourceType" JNull
    = Ok (JStr "Observation") /\
  referenced_kind (JStr "Observation") = true /\
  exists st',
    process_entry (JStr "Dr. Demo") "uuid-0" JNull observation_entry
      (fresh_upload sample_world) = (Ok tt, st') /\
    created_resources st' = ["Observation/uuid-0"] /\
    resource st' = JObj observation_resource /\
    mappings_added st' = 0 /\
    audit_logs (db st')
      = [entry_audit (JStr "Dr. Demo") "2024-01-15T10:00:00" "uuid-0" JNull
           (JStr "Observation") (JStr "uuid-0") 0] /\
    errors st' = [].
Proof.
  split; [reflexivity|]. split; [reflexivity|]. split; [reflexivity|].
  exact (referenced_entry_unchanged (JStr "Dr. Demo") "uuid-0" JNull
           observation_entry observation_resource (JStr "Observation")
           (fresh_upload sample_world) eq_refl eq_refl eq_refl).
Defined.

(** X28. The stamp appends and never replaces: for a resource whose [meta] is
    a dictionary (or missing) with an [extension] that is a list (or missing),
    [stamp] returns the resource with every key other than [meta] as it was,
    [meta] with every key other than [extension] as it was, and the extensions
    it had followed by the processing marker. *)
Theorem stamp_appends (res meta : dict) (extension : list json)
    (now : string) :
  py_get (JObj res) "meta" (JObj []) = Ok (JObj meta) ->
  py_get (JObj meta) "extension" (JArr []) = Ok (JArr extension) ->
  exists res' meta',
    stamp (JObj res) now = Ok (JObj res') /\
    (forall k, String.eqb "meta" k = false ->
               dict_get res' k = dict_get res k) /\
    dict_get res' "meta" = Some (JObj meta') /\
    (forall k, String.eqb "extension" k = false ->
               dict_get meta' k = dict_get meta k) /\
    dict_get meta' "extension"
    = Some (JArr (extension ++ [processing_marker now])).
Proof.
  intros Hm He. unfold stamp, and_then. rewrite Hm. cbn [py_setitem].
  rewrite He. cbn [py_setitem py_append].
  eexists. eexists. split; [reflexivity|].
  split; [|split; [|split]].
  - intros k N. rewrite !dict_get_set_neq by exact N. reflexivity.
  - apply dict_get_set_eq.
  - intros k N. rewrite !dict_get_set_neq by exact N. reflexivity.
  - apply dict_get_set_eq.
Qed.

Lemma stamp_appends_witness :
  py_get (JObj icd_only_resource) "meta" (JObj [])
  = Ok (JObj [("versionId", JStr "1");
              ("extension", JArr [JObj [("url", JStr "urn:first")]])]) /\
  py_get (JObj [("versionId", JStr "1");
                ("extension", JArr [JObj [("url", JStr "urn:first")]])])
    "extension" (JArr [])
  = Ok (JArr [JObj [("url", JStr "urn:first")]]) /\
  exists res' meta',
    stamp (JObj icd_only_resource) "2024-01-15T10:00:00" = Ok (JObj res') /\
    (forall k, String.eqb "meta" k = false ->
               dict_get res' k = dict_get icd_only_resource k) /\
    dict_get res' "meta" = Some (JObj meta') /\
    (forall k, String.eqb "extension" k = false ->
               dict_get meta' k
               = dict_get [("versionId", JStr "1");
                           ("extension",
                            JArr [JObj [("url", JStr "urn:first")]])] k) /\
    dict_get meta' "extension"
    = Some (JArr ([JObj [("url", JStr "urn:first")]]
                  ++ [processing_marker "2024-01-15T10:00:00"])).
Proof.
  split; [reflexivity|]. split; [reflexivity|].
  exact (stamp_appends icd_only_resource _ _ "2024-01-15T10:00:00"
           eq_refl eq_refl).
Defined.

(** The stamp, for the Condition below. *)
Lemma stamp_spec (res meta : dict) (extension : list json) (now : string) :
  py_get (JObj res) "meta" (JObj []) = Ok (JObj meta) ->
  py_get (JObj meta) "extension" (JArr []) = Ok (JArr extension) ->
  exists res' meta',
    stamp (JObj res) now = Ok (JObj res') /\
    (forall k, String.eqb "meta" k = false ->
               dict_get res' k = dict_get res k) /\
    dict_get res' "meta" = Some (JObj meta') /\
    (forall k, String.eqb "extension" k = false ->
               dict_get meta' k = dict_get meta k) /\
    dict_get meta' "extension"
    = Some (JArr (extension ++ [processing_marker now])).
Proof.
  intros Hm He. unfold stamp, and_then. rewrite Hm. cbn [py_setitem].
  rewrite He. cbn [py_setitem py_append].
  eexists. eexists. split; [reflexivity|].
  split; [|split; [|split]].
  - intros k N. rewrite !dict_get_set_neq by exact N. reflexivity.
  - apply dict_get_set_eq.
  - intros k N. rewrite !dict_get_set_neq by exact N. reflexivity.
  - apply dict_get_set_eq.
Qed.

(** The [try] block of a Condition in which no coding of the local system
    is found. *)
Lemma annotate_condition_plain (rid : json) (st0 : Upload) (res : dict)
    (code codings_value : json) (codings : list json) (coding stamped : json) :
  resource st0 = JObj res ->
  py_get (JObj res) "code" (JObj []) = Ok code ->
  py_get code "coding" (JArr []) = Ok codings_value ->
  py_iter codings_value = Ok codings ->
  find_namaste_coding codings = Ok coding ->
  truthy coding = false ->
  stamp (JObj res) (now (db st0)) = Ok stamped ->
  annotate_condition rid st0 =
  (Ok tt,
   mkUpload (db st0)
     (created_resources st0 ++ [reference_to "Condition" rid])%list
     (errors st0) (mappings_added st0) stamped).
Proof.
  intros Hr H1 H2 H3 H4 T Hs. unfold annotate_condition.
  unfold bind, get, lift, on_db, set_resource, created_append, modify, ret.
  rewrite Hr, H1, H2, H3, H4, T. cbn [resource db]. rewrite Hr, Hs.
  reflexivity.
Qed.

(** X29. A Condition in which no coding of the local system is found (codings
    of other systems only, or no coding at all), and whose [meta] is a
    dictionary (or missing) with an [extension] that is a list (or missing),
    gets no mapping and is stamped: processing it never raises, leaves the
    count of mappings and every key of the resource other than [meta] as they
    were, the [code] among them, appends the processing marker to the
    extensions of [meta], and appends [Condition/id] to the created
    references. *)
Theorem condition_without_local_coding (actor : json) (bundle_id : string)
    (consent_ref entry : json) (res meta : dict) (extension : list json)
    (code codings_value : json) (codings : list json) (coding : json)
    (st : Upload) :
  py_get entry "resource" (JObj []) = Ok (JObj res) ->
  dict_get res "resourceType" = Some (JStr "Condition") ->
  py_get (JObj res) "code" (JObj []) = Ok code ->
  py_get code "coding" (JArr []) = Ok codings_value ->
  py_iter codings_value = Ok codings ->
  find_namaste_coding codings = Ok coding ->
  truthy coding = false ->
  py_get (JObj res) "meta" (JObj []) = Ok (JObj meta) ->
  py_get (JObj meta) "extension" (JArr []) = Ok (JArr extension) ->
  exists st' res' meta',
    process_entry actor bundle_id consent_ref entry st = (Ok tt, st') /\
    mappings_added st' = mappings_added st /\
    resource st' = JObj res' /\
    (forall k, String.eqb "meta" k = false ->
               dict_get res' k = dict_get res k) /\
    dict_get res' "code" = dict_get res "code" /\
    dict_get res' "meta" = Some (JObj meta') /\
    (forall k, String.eqb "extension" k = false ->
               dict_get meta' k = dict_get meta k) /\
    dict_get meta' "extension"
    = Some (JArr (extension ++ [processing_marker (now (db st))])) /\
    created_resources st'
    = (created_resources st
       ++ [reference_to "Condition" (resource_id_of st res)])%list.
Proof.
  intros Hres Hkind H1 H2 H3 H4 T Hm He.
  assert (Hk : py_get (JObj res) "resourceType" JNull
               = Ok (JStr "Condition")).
  { cbn. rewrite Hkind. reflexivity. }
  destruct (stamp_spec res meta extension (now (db st)) Hm He)
    as (res' & meta' & Hs & Kr & Km & Ke & Kx).
  destruct (process_entry_step actor bundle_id consent_ref entry _ _ st
              Hres Hk) as (d & Ed & E).
  injection Ed as <-.
  set (rid := resource_id_of st res) in *.
  pose proof (annotate_condition_plain rid (entered st (JObj res)) res code
                codings_value codings coding (JObj res') eq_refl H1 H2 H3 H4 T
                Hs)
    as Ea.
  rewrite handle_condition in E.
  unfold try_except in E. unfold bind at 1 in E. rewrite Ea in E.
  cbn in E.
  match type of E with
  | _ = audit_resource _ _ _ _ _ ?s =>
      destruct (audit_resource_spec actor bundle_id consent_ref
                  (JStr "Condition") rid s)
        as (st' & E' & Hc & Hr & Hma & _)
  end.
  rewrite E' in E. exists st', res', meta'.
  split; [exact E|]. split; [exact Hma|]. split; [exact Hr|].
  split; [exact Kr|]. split; [apply Kr; reflexivity|].
  split; [exact Km|]. split; [exact Ke|]. split; [exact Kx | exact Hc].
Qed.

Lemma condition_without_local_coding_witness :
  exists st' res' meta',
    process_entry (JStr "Dr. Demo") "uuid-0" JNull icd_only_entry
      (fresh_upload sample_world) = (Ok tt, st') /\
    mappings_added st' = 0 /\
    resource st' = JObj res' /\
    dict_get res' "code" = dict_get icd_only_resource "code" /\
    dict_get res' "meta" = Some (JObj meta') /\
    dict_get meta' "extension"
    = Some (JArr [JObj [("url", JStr "urn:first")];
                  processing_marker "2024-01-15T10:00:00"]) /\
    created_resources st' = ["Condition/condition-003"].
Proof.
  destruct (condition_without_local_coding (JStr "Dr. Demo") "uuid-0" JNull
              icd_only_entry icd_only_resource _ _ _ _ _ _
              (fresh_upload sample_world)
              eq_refl eq_refl eq_refl eq_refl eq_refl eq_refl eq_refl eq_refl
              eq_refl)
    as (st' & res' & meta' & E & Hm & Hr & _ & Hc & Hme & _ & Hx & Hcr).
  exists st', res', meta'. split; [exact E|]. split; [exact Hm|].
  split; [exact Hr|]. split; [exact Hc|]. split; [exact Hme|].
  split; [exact Hx | exact Hcr].
Defined.

(** A Condition whose [meta] is not a dictionary is neither stamped nor
    reported as created: the failure is noted and the entry gets no audit
    record. *)
Example condition_meta_not_a_dict :
  let entry :=
    JObj [("resource",
           JObj [("resourceType", JStr "Condition"); ("id", JStr "c-4");
                 ("meta", JStr "v1")])] in
  exists st',
    process_entry (JStr "Dr. Demo") "uuid-0" JNull entry
      (fresh_upload sample_world) = (Ok tt, st') /\
    created_resources st' = [] /\
    length (errors st') = 1%nat /\
    audit_logs (db st') = [] /\ new_audits (db st') = [].
Proof. eexists. repeat split. Qed.

(* ------------------------------------------------------------------ *)
(** ** Instances of the properties of the upload *)
(* ------------------------------------------------------------------ *)

Lemma process_entries_traces_witness :
  forallb readable_entry [condition_entry []; consent_entry; icd_only_entry]
    = true /\
  new_audits (db (fresh_upload (failing_world [false; true]))) = [] /\
  exists st' added,
    process_entries (JStr "Dr. Demo") "uuid-0" (JStr "consent-001")
      [condition_entry []; consent_entry; icd_only_entry]
      (fresh_upload (failing_world [false; true])) = (Ok tt, st') /\
    audit_logs (db st')
    = (audit_logs (db (fresh_upload (failing_world [false; true])))
       ++ added)%list /\
    Forall (entry_audit_of (JStr "Dr. Demo") "uuid-0") added /\
    new_audits (db st') = [] /\
    (length added + length (errors st')
     = length (errors (fresh_upload (failing_world [false; true])))
       + length [condition_entry []; consent_entry; icd_only_entry])%nat.
Proof.
  split; [reflexivity|]. split; [reflexivity|].
  exact (process_entries_traces (JStr "Dr. Demo") "uuid-0"
           (JStr "consent-001")
           [condition_entry []; consent_entry; icd_only_entry]
           (fresh_upload (failing_world [false; true])) eq_refl eq_refl).
Defined.

Lemma upload_bundle_outcome_witness :
  verify_abha_token None (extract_token_from_header (Some "Bearer test"))
    = Ok (JStr "Dr. Demo") /\
  is_str (bundle_get (bundle_of [condition_entry []; consent_entry])
            "resourceType" JNull) "Bundle" = true /\
  py_iter (bundle_get (bundle_of [condition_entry []; consent_entry])
             "entry" (JArr []))
    = Ok [condition_entry []; consent_entry] /\
  forallb readable_entry [condition_entry []; consent_entry] = true /\
  exists consent_ref st',
    find_consent [condition_entry []; consent_entry] = Ok consent_ref /\
    process_entries (JStr "Dr. Demo") (uuid_str (uuids sample_world))
      consent_ref [condition_entry []; consent_entry]
      (fresh_upload (drawn sample_world)) = (Ok tt, st') /\
    if write_fails (db st') then
      fst (upload_bundle None (bundle_of [condition_entry []; consent_entry])
             (Some "Bearer test") sample_world)
      = Raise (HTTPException 500 "Error processing bundle: database error")
    else
      exists response,
        fst (upload_bundle None
               (bundle_of [condition_entry []; consent_entry])
               (Some "Bearer test") sample_world) = Ok response /\
        BundleUploadResponse.success response = true /\
        BundleUploadResponse.errors response = errors st' /\
        BundleUploadResponse.mappings_added response = mappings_added st'.
Proof.
  split; [reflexivity|]. split; [reflexivity|]. split; [reflexivity|].
  split; [reflexivity|].
  exact (upload_bundle_outcome None
           (bundle_of [condition_entry []; consent_entry])
           (Some "Bearer test") (JStr "Dr. Demo")
           [condition_entry []; consent_entry] sample_world
           eq_refl eq_refl eq_refl eq_refl).
Defined.

(* ------------------------------------------------------------------ *)
(** ** The queries write nothing *)
(* ------------------------------------------------------------------ *)

Lemma reads_only_select_concepts_page (p : Concept.t -> bool)
    (offset limit : nat) : reads_only (select_concepts_page p offset limit).
Proof. unfold select_concepts_page. auto 6 with reads. Qed.

(** X30. The operations that look things up never write: whatever their
    arguments and whatever the store does, also when they fail, [translate],
    [search], [get_mappings], [get_mapping_statistics], [get_codesystem] and
    [get_concept_by_code] leave the three tables, the pending rows of the
    session, the identifiers and the clock as they found them. *)
Theorem queries_write_nothing :
  (forall system code, reads_only (translate system code)) /\
  (forall q system limit, reads_only (search q system limit)) /\
  (forall source_system target_system limit,
     reads_only (get_mappings source_system target_system limit)) /\
  reads_only get_mapping_statistics /\
  (forall page page_size, reads_only (get_codesystem page page_size)) /\
  (forall code, reads_only (get_concept_by_code code)).
Proof.
  split; [exact reads_only_translate|].
  split; [exact reads_only_search|].
  split; [intros; unfold get_mappings; auto 6 with reads|].
  split; [unfold get_mapping_statistics; auto 12 with reads|].
  split.
  - intros. unfold get_codesystem.
    apply reads_only_bind; [apply reads_only_select_concepts_page|].
    intros. apply reads_only_ret.
  - intros. unfold get_concept_by_code.
    apply reads_only_bind; [apply reads_only_select_concepts|]. intros rows.
    apply reads_only_bind; [apply reads_only_lift|].
    intros [c|]; apply reads_only_ret.
Qed.
